(** * Common-Lecturer-Finder: the timetable viewer and the comparison view

    A shallow embedding of [static/prettier.js] (timetable viewer) and
    [static/app.js] (shared-lecturer comparison view), followed by the
    properties of the specification that hold of them.

    Conventions of the embedding:
    - a JavaScript string is the list of its UTF-16 code units, so that
      [length] is the [.length] of the source;
    - a JSON object used as a dictionary is a [gmap]; a missing key is a
      lookup that returns [None];
    - module-level variables and the DOM nodes the scripts write to are the
      fields of a [page] record that every handler takes and returns;
    - a Number that is not an integer by construction is a rational, and
      every arithmetic operation on Numbers rounds its exact result to
      binary64 ([Float64.rnd]);
    - [fetch], [html2canvas], the 2D context of a canvas and the PDF
      writer are outside the repository: their results are inputs of the
      handlers;
    - an [async] function is run to completion: the embedding has one
      handler in flight at a time. *)

From Stdlib Require Import ZArith NArith QArith Qround Qabs Qpower.
From Stdlib Require Import PrimFloat SpecFloat FloatOps.
From Stdlib Require Import String Ascii List Lia Lqa.
From stdpp Require Import base option list gmap pretty.

Local Open Scope Z_scope.

(** ** JavaScript values used by both scripts *)

Module Js.

(** A string, as its UTF-16 code units. *)
Abbreviation jstring := (list N).

(** An ASCII literal of the source. *)
Definition lit (s : string) : jstring :=
  List.map N_of_ascii (list_ascii_of_string s).
Arguments lit : simpl never.

(** The double quote, which the literals of the source are full of. *)
Definition dq : string := String (ascii_of_nat 34) EmptyString.

(** Line feed: the template literals of the source span several lines. *)
Definition nl : string := String (ascii_of_nat 10) EmptyString.

(** [n] spaces of indentation inside a template literal. *)
Fixpoint sp (n : nat) : string :=
  match n with
  | O => EmptyString
  | S k => String (ascii_of_nat 32) (sp k)
  end.

(** A property that the data model declares as a string: it may be
    missing from the JSON object ([undefined] when read), [null], or a
    string. *)
Inductive field : Type :=
| Absent
| Null
| Str (s : jstring).

(** ToBoolean: [undefined], [null] and the empty string are falsy. *)
Definition truthy (f : field) : bool :=
  match f with
  | Str (_ :: _) => true
  | _ => false
  end.

(** ToString, as applied by a template literal or by [+]. *)
Definition ToString (f : field) : jstring :=
  match f with
  | Absent => lit "undefined"
  | Null => lit "null"
  | Str s => s
  end.

(** [f || ''], then interpolated. *)
Definition or_empty (f : field) : jstring :=
  if truthy f then ToString f else [].

(** ToString of an integral Number (decimal digits; exact as long as the
    magnitude stays below 10^21, where JavaScript switches to exponent
    notation). *)
Definition number_to_string (z : Z) : jstring := lit (pretty z).

(** A section identifier of the API: a string or a number. *)
Inductive ident : Type :=
| IdStr (s : jstring)
| IdNum (z : Z).

Definition ident_to_string (i : ident) : jstring :=
  match i with
  | IdStr s => s
  | IdNum z => number_to_string z
  end.

(** [Array.prototype.join('')] on an array of strings. *)
Definition join (l : list jstring) : jstring := List.concat l.

(** The characters that [\s] matches: WhiteSpace and LineTerminator of
    ECMAScript. *)
Definition is_space (u : N) : bool :=
  ((9 <=? u) && (u <=? 13) || (u =? 32) || (u =? 160) || (u =? 5760)
   || (8192 <=? u) && (u <=? 8202) || (u =? 8232) || (u =? 8233)
   || (u =? 8239) || (u =? 8287) || (u =? 12288) || (u =? 65279))%N.

(** [s.replace(/\s+/g, '_')]: every maximal run of white space becomes
    one underscore. *)
Fixpoint replace_spaces (s : jstring) : jstring :=
  match s with
  | [] => []
  | u :: r =>
      if is_space u then
        match r with
        | v :: _ => if is_space v then replace_spaces r
                    else 95%N :: replace_spaces r
        | [] => [95%N]
        end
      else u :: replace_spaces r
  end.

End Js.

Import Js.

(** ** Numbers *)

Module Float64.

Local Open Scope Q_scope.

(** The exponent of a positive rational: the [e] with
    [2^e <= x < 2^(e+1)]. *)
Definition ilog2 (x : Q) : Z :=
  let k := (Z.log2 (Qnum x) - Z.log2 (Zpos (Qden x)))%Z in
  if Qle_bool (2 ^ k) x then k else (k - 1)%Z.

(** The integer nearest to [q], the even one of the two when [q] lies
    halfway. *)
Definition nearest_even (q : Q) : Z :=
  let f := Qfloor q in
  match Qcompare (q - inject_Z f) (1 # 2) with
  | Lt => f
  | Gt => (f + 1)%Z
  | Eq => if Z.even f then f else (f + 1)%Z
  end.

(** Rounding of a positive rational to 53 significant bits: to the
    nearest multiple of [2^(e-52)], [e] its exponent. *)
Definition round_pos (x : Q) : Q :=
  let u := 2 ^ (ilog2 x - 52) in
  inject_Z (nearest_even (x / u)) * u.

(** The binary64 value of an exact result: round to nearest, ties to
    even. The exponent is not bounded: the operands of the export stay
    far from the overflow and underflow thresholds. *)
Definition rnd (x : Q) : Q :=
  match Qcompare x 0 with
  | Eq => 0
  | Gt => round_pos x
  | Lt => - round_pos (- x)
  end.

(** The operators [/], [*] and [-] on Numbers. *)
Definition fdiv (a b : Q) : Q := rnd (a / b).
Definition fmul (a b : Q) : Q := rnd (a * b).
Definition fsub (a b : Q) : Q := rnd (a - b).

(** The comparison [a > b]. *)
Definition gt (a b : Q) : bool :=
  match Qcompare a b with
  | Gt => true
  | _ => false
  end.

(** [Math.round]: the nearest integer, the upper one when halfway. *)
Definition Math_round (x : Q) : Z := Qfloor (x + (1 # 2)).

End Float64.

Import Float64.

(** ** Handlers: state, exceptions, [try]/[catch]/[finally] *)

Module Eff.

(** How a call ends: it returns, or it throws (a rejected promise that
    is awaited throws at the [await]). An exception is its [message]. *)
Inductive outcome (A : Type) : Type :=
| Returned (a : A)
| Thrown (message : jstring).
Arguments Returned {A} a.
Arguments Thrown {A} message.

(** What [fetch] resolves to: an object whose [json()] parses the body,
    or fails to. *)
Record response (D : Type) : Type := mkResponse { json : outcome D }.
Arguments mkResponse {D} json.
Arguments json {D} r.

Section Action.
Context {S : Type}.

(** A piece of handler code over the page state [S]. *)
Definition action (A : Type) : Type := S -> outcome A * S.

Definition ret {A} (a : A) : action A := fun s => (Returned a, s).

Definition throw {A} (message : jstring) : action A :=
  fun s => (Thrown message, s).

Definition bind {A B} (m : action A) (k : A -> action B) : action B :=
  fun s =>
    match m s with
    | (Returned a, s') => k a s'
    | (Thrown e, s') => (Thrown e, s')
    end.

(** A statement that only writes to the page. *)
Definition modify (f : S -> S) : action unit :=
  fun s => (Returned tt, f s).

(** [await] of a call into the outside world whose result is [o]. *)
Definition await {A} (o : outcome A) : action A := fun s => (o, s).

(** [try { body } catch (error) { handler error }] *)
Definition try_catch {A} (body : action A) (handler : jstring -> action A)
  : action A :=
  fun s =>
    match body s with
    | (Returned a, s') => (Returned a, s')
    | (Thrown e, s') => handler e s'
    end.

(** [try { body } finally { final }]: [final] runs on both exits; the
    exit of [body] is kept unless [final] throws itself. *)
Definition try_finally {A} (body : action A) (final : action unit)
  : action A :=
  fun s =>
    match body s with
    | (r, s') =>
        match final s' with
        | (Returned _, s'') => (r, s'')
        | (Thrown e, s'') => (Thrown e, s'')
        end
    end.

(** [try { body } catch (error) { handler error } finally { final }] *)
Definition try_catch_finally {A} (body : action A)
    (handler : jstring -> action A) (final : action unit) : action A :=
  try_finally (try_catch body handler) final.

End Action.

Arguments action S A : clear implicits.

Declare Scope action_scope.
Delimit Scope action_scope with action.
Notation "'let!' x ':=' m 'in' k" := (bind m (fun x => k))
  (at level 10, x name, m at level 100, k at level 200) : action_scope.
Notation "m '>>' k" := (bind m (fun _ => k))
  (at level 90, right associativity) : action_scope.

End Eff.

Import Eff.

(** ** static/prettier.js *)

Module Prettier.

Definition DAYS : list jstring :=
  [lit "MON"; lit "TUE"; lit "WED"; lit "THU"; lit "FRI"].

Definition COLORS : list jstring :=
  [lit "var(--course-1)"; lit "var(--course-2)"; lit "var(--course-3)";
   lit "var(--course-4)"; lit "var(--course-5)"; lit "var(--course-6)";
   lit "var(--course-7)"; lit "var(--course-8)"].

(** *** The literals of the markup *)

Definition BREAK_HEADER_1 : jstring :=
  lit ("<th class=" +:+ dq +:+ "break-header" +:+ dq +:+ ">" +:+ nl +:+
       sp 16 +:+ "<span>BREAK</span>" +:+ nl +:+
       sp 16 +:+ "<span class=" +:+ dq +:+ "time-slot" +:+ dq +:+ ">").

Definition BREAK_HEADER_2 : jstring :=
  lit ("</span>" +:+ nl +:+
       sp 12 +:+ "</th>").

Definition SLOT_HEADER_1 : jstring :=
  lit ("<th>" +:+ nl +:+
       sp 16 +:+ "<span>").

Definition SLOT_HEADER_2 : jstring :=
  lit ("</span>" +:+ nl +:+
       sp 16 +:+ "<span class=" +:+ dq +:+ "time-slot" +:+ dq +:+ ">").

Definition SLOT_HEADER_3 : jstring :=
  lit ("</span>" +:+ nl +:+
       sp 12 +:+ "</th>").

Definition BREAK_CELL : jstring :=
  lit ("<td class=" +:+ dq +:+ "break-cell" +:+ dq +:+ " rowspan=" +:+ dq +:+
       "5" +:+ dq +:+ ">" +:+ nl +:+
       sp 24 +:+ "<div class=" +:+ dq +:+ "break-content" +:+ dq +:+ ">" +:+
       nl +:+
       sp 28 +:+ "<span>B</span>" +:+ nl +:+
       sp 28 +:+ "<span>R</span>" +:+ nl +:+
       sp 28 +:+ "<span>E</span>" +:+ nl +:+
       sp 28 +:+ "<span>A</span>" +:+ nl +:+
       sp 28 +:+ "<span>K</span>" +:+ nl +:+
       sp 24 +:+ "</div>" +:+ nl +:+
       sp 20 +:+ "</td>").

Definition COURSE_CELL_1 : jstring :=
  lit ("<td>" +:+ nl +:+
       sp 24 +:+ "<div class=" +:+ dq +:+ "course-cell" +:+ dq +:+
       " style=" +:+ dq +:+ "background: ").

Definition COURSE_CELL_2 : jstring :=
  lit (";" +:+ dq +:+ ">" +:+ nl +:+
       sp 28 +:+ "<div class=" +:+ dq +:+ "course-name" +:+ dq +:+ ">").

Definition COURSE_CELL_3 : jstring :=
  lit ("</div>" +:+ nl +:+
       sp 28 +:+ "<div class=" +:+ dq +:+ "course-code" +:+ dq +:+ ">").

Definition COURSE_CELL_4 : jstring :=
  lit ("</div>" +:+ nl +:+
       sp 28 +:+ "<div class=" +:+ dq +:+ "course-location" +:+ dq +:+
       ">").

Definition COURSE_CELL_5 : jstring :=
  lit ("</div>" +:+ nl +:+
       sp 28 +:+ "<div class=" +:+ dq +:+ "course-lecturer" +:+ dq +:+
       ">").

Definition COURSE_CELL_6 : jstring :=
  lit ("</div>" +:+ nl +:+
       sp 24 +:+ "</div>" +:+ nl +:+
       sp 20 +:+ "</td>").

Definition IMAGE_BUTTON_LABEL : jstring :=
  lit (nl +:+
       sp 12 +:+ "<svg xmlns=" +:+ dq +:+ "http://www.w3.org/2000/svg" +:+
       dq +:+ " width=" +:+ dq +:+ "20" +:+ dq +:+ " height=" +:+ dq +:+
       "20" +:+ dq +:+ " viewBox=" +:+ dq +:+ "0 0 24 24" +:+ dq +:+
       " fill=" +:+ dq +:+ "none" +:+ dq +:+ " stroke=" +:+ dq +:+
       "currentColor" +:+ dq +:+ " stroke-width=" +:+ dq +:+ "2" +:+ dq +:+
       " stroke-linecap=" +:+ dq +:+ "round" +:+ dq +:+
       " stroke-linejoin=" +:+ dq +:+ "round" +:+ dq +:+ ">" +:+ nl +:+
       sp 16 +:+ "<rect x=" +:+ dq +:+ "3" +:+ dq +:+ " y=" +:+ dq +:+
       "3" +:+ dq +:+ " width=" +:+ dq +:+ "18" +:+ dq +:+ " height=" +:+
       dq +:+ "18" +:+ dq +:+ " rx=" +:+ dq +:+ "2" +:+ dq +:+ " ry=" +:+
       dq +:+ "2" +:+ dq +:+ "/>" +:+ nl +:+
       sp 16 +:+ "<circle cx=" +:+ dq +:+ "8.5" +:+ dq +:+ " cy=" +:+ dq +:+
       "8.5" +:+ dq +:+ " r=" +:+ dq +:+ "1.5" +:+ dq +:+ "/>" +:+ nl +:+
       sp 16 +:+ "<polyline points=" +:+ dq +:+ "21 15 16 10 5 21" +:+ dq +:+
       "/>" +:+ nl +:+
       sp 12 +:+ "</svg>" +:+ nl +:+
       sp 12 +:+ "Download as Image" +:+ nl +:+
       sp 8).

Definition PDF_BUTTON_LABEL : jstring :=
  lit (nl +:+
       sp 12 +:+ "<svg xmlns=" +:+ dq +:+ "http://www.w3.org/2000/svg" +:+
       dq +:+ " width=" +:+ dq +:+ "20" +:+ dq +:+ " height=" +:+ dq +:+
       "20" +:+ dq +:+ " viewBox=" +:+ dq +:+ "0 0 24 24" +:+ dq +:+
       " fill=" +:+ dq +:+ "none" +:+ dq +:+ " stroke=" +:+ dq +:+
       "currentColor" +:+ dq +:+ " stroke-width=" +:+ dq +:+ "2" +:+ dq +:+
       " stroke-linecap=" +:+ dq +:+ "round" +:+ dq +:+
       " stroke-linejoin=" +:+ dq +:+ "round" +:+ dq +:+ ">" +:+ nl +:+
       sp 16 +:+ "<path d=" +:+ dq +:+
       "M14 2H6a2 2 0 0 0-2 2v16a2 2 0 0 0 2 2h12a2 2 0 0 0 2-2V8z" +:+
       dq +:+ "/>" +:+ nl +:+
       sp 16 +:+ "<polyline points=" +:+ dq +:+ "14 2 14 8 20 8" +:+ dq +:+
       "/>" +:+ nl +:+
       sp 16 +:+ "<line x1=" +:+ dq +:+ "12" +:+ dq +:+ " y1=" +:+ dq +:+
       "18" +:+ dq +:+ " x2=" +:+ dq +:+ "12" +:+ dq +:+ " y2=" +:+ dq +:+
       "12" +:+ dq +:+ "/>" +:+ nl +:+
       sp 16 +:+ "<line x1=" +:+ dq +:+ "9" +:+ dq +:+ " y1=" +:+ dq +:+
       "15" +:+ dq +:+ " x2=" +:+ dq +:+ "15" +:+ dq +:+ " y2=" +:+ dq +:+
       "15" +:+ dq +:+ "/>" +:+ nl +:+
       sp 12 +:+ "</svg>" +:+ nl +:+
       sp 12 +:+ "Download as PDF" +:+ nl +:+
       sp 8).

Definition THEAD_OPEN : jstring :=
  lit ("<thead><tr><th class=" +:+ dq +:+ "day-header" +:+ dq +:+
       ">Day</th>").

Definition THEAD_CLOSE : jstring :=
  lit ("</tr></thead><tbody>").

Definition ROW_OPEN_1 : jstring :=
  lit ("<tr><td class=" +:+ dq +:+ "day-cell" +:+ dq +:+ ">").

Definition ROW_OPEN_2 : jstring :=
  lit ("</td>").

Definition EMPTY_CELL : jstring :=
  lit ("<td class=" +:+ dq +:+ "empty-cell" +:+ dq +:+ "></td>").

(** *** Data of the API *)

(** One cell of the grid. *)
Record CellData : Type := mkCell {
  code : field;
  name : field;
  location : field;
  lecturer : field
}.

(** The JSON document of [/api/timetable/<id>] and [/api/upload]. The
    keys of a day's object are slot numbers (a number used as a key
    names the property of its decimal spelling, which is one-to-one on
    integers); a slot whose value is [null] counts as a missing key,
    every test of the source being a truthiness test. An error document
    is one whose [error] is truthy; its other properties are never
    read. *)
Record Timetable : Type := mkTimetable {
  error : field;
  section : ident;
  time_slots : list Z;
  slot_times : gmap Z field;
  timetable : gmap jstring (gmap Z CellData)
}.

(** An uploaded file: only its MIME type is looked at. *)
Record File : Type := mkFile { file_type : jstring }.

(** A canvas: the one [html2canvas] returns, or a canvas created by the
    script, filled with the background colour, on which [content] has
    been drawn with its top left corner at ([xOffset], [yOffset]). *)
Inductive Canvas : Type :=
| Captured (width height : Z)
| Padded (width height : Z) (xOffset yOffset : Z) (content : Canvas).

Definition width (canvas : Canvas) : Z :=
  match canvas with
  | Captured w _ => w
  | Padded w _ _ _ _ => w
  end.

Definition height (canvas : Canvas) : Z :=
  match canvas with
  | Captured _ h => h
  | Padded _ h _ _ _ => h
  end.

(** *** The outside world *)

(** The backend, as seen through [fetch]. *)
Record network : Type := mkNetwork {
  fetch_get : jstring -> outcome (response Timetable);
  fetch_post : jstring -> File -> outcome (response Timetable)
}.

(** The libraries of the export: [html2canvas] on the export area, the
    2D context of a new canvas ([getContext('2d')], then filling and
    drawing on it), [toDataURL], and jsPDF building the one-page
    document of half the canvas size around the image. *)
Record exporter : Type := mkExporter {
  html2canvas : outcome Canvas;
  context2d : outcome unit;
  toDataURL : Canvas -> outcome jstring;
  jsPDF : Canvas -> jstring -> outcome jstring
}.

(** *** The page *)

Record button : Type := mkButton { disabled : bool; label : jstring }.

(** The module-level variables of the script ([courseColors],
    [colorIndex], [currentSectionName]), the DOM nodes it writes to, and
    what it has done to the outside world so far. *)
Record page : Type := mkPage {
  courseColors : gmap jstring field;
  colorIndex : nat;
  currentSectionName : jstring;
  sectionTitle : jstring;
  timetable_innerHTML : jstring;
  timetableContainer_hidden : bool;
  loading_hidden : bool;
  sectionSelect_value : jstring;
  downloadImageBtn : button;
  downloadPdfBtn : button;
  alerts : list jstring;
  console_errors : list (jstring * jstring);
  requests : list jstring;
  captures : nat;
  downloads : list (jstring * jstring)
}.

Definition set_colors (m : gmap jstring field) (i : nat) (p : page) : page :=
  mkPage m i (currentSectionName p) (sectionTitle p)
    (timetable_innerHTML p) (timetableContainer_hidden p) (loading_hidden p)
    (sectionSelect_value p) (downloadImageBtn p) (downloadPdfBtn p)
    (alerts p) (console_errors p) (requests p) (captures p) (downloads p).

Definition set_title (current title : jstring) (p : page) : page :=
  mkPage (courseColors p) (colorIndex p) current title
    (timetable_innerHTML p) (timetableContainer_hidden p) (loading_hidden p)
    (sectionSelect_value p) (downloadImageBtn p) (downloadPdfBtn p)
    (alerts p) (console_errors p) (requests p) (captures p) (downloads p).

Definition set_timetable_innerHTML (html : jstring) (p : page) : page :=
  mkPage (courseColors p) (colorIndex p) (currentSectionName p)
    (sectionTitle p) html (timetableContainer_hidden p) (loading_hidden p)
    (sectionSelect_value p) (downloadImageBtn p) (downloadPdfBtn p)
    (alerts p) (console_errors p) (requests p) (captures p) (downloads p).

Definition set_timetableContainer_hidden (b : bool) (p : page) : page :=
  mkPage (courseColors p) (colorIndex p) (currentSectionName p)
    (sectionTitle p) (timetable_innerHTML p) b (loading_hidden p)
    (sectionSelect_value p) (downloadImageBtn p) (downloadPdfBtn p)
    (alerts p) (console_errors p) (requests p) (captures p) (downloads p).

Definition set_loading_hidden (b : bool) (p : page) : page :=
  mkPage (courseColors p) (colorIndex p) (currentSectionName p)
    (sectionTitle p) (timetable_innerHTML p) (timetableContainer_hidden p) b
    (sectionSelect_value p) (downloadImageBtn p) (downloadPdfBtn p)
    (alerts p) (console_errors p) (requests p) (captures p) (downloads p).

Definition set_sectionSelect_value (v : jstring) (p : page) : page :=
  mkPage (courseColors p) (colorIndex p) (currentSectionName p)
    (sectionTitle p) (timetable_innerHTML p) (timetableContainer_hidden p)
    (loading_hidden p) v (downloadImageBtn p) (downloadPdfBtn p)
    (alerts p) (console_errors p) (requests p) (captures p) (downloads p).

Definition set_downloadImageBtn (b : button) (p : page) : page :=
  mkPage (courseColors p) (colorIndex p) (currentSectionName p)
    (sectionTitle p) (timetable_innerHTML p) (timetableContainer_hidden p)
    (loading_hidden p) (sectionSelect_value p) b (downloadPdfBtn p)
    (alerts p) (console_errors p) (requests p) (captures p) (downloads p).

Definition set_downloadPdfBtn (b : button) (p : page) : page :=
  mkPage (courseColors p) (colorIndex p) (currentSectionName p)
    (sectionTitle p) (timetable_innerHTML p) (timetableContainer_hidden p)
    (loading_hidden p) (sectionSelect_value p) (downloadImageBtn p) b
    (alerts p) (console_errors p) (requests p) (captures p) (downloads p).

(** [alert(message)] *)
Definition alert (message : jstring) (p : page) : page :=
  mkPage (courseColors p) (colorIndex p) (currentSectionName p)
    (sectionTitle p) (timetable_innerHTML p) (timetableContainer_hidden p)
    (loading_hidden p) (sectionSelect_value p) (downloadImageBtn p)
    (downloadPdfBtn p) (alerts p ++ [message]) (console_errors p)
    (requests p) (captures p) (downloads p).

(** [console.error(what, error)] *)
Definition console_error (what error : jstring) (p : page) : page :=
  mkPage (courseColors p) (colorIndex p) (currentSectionName p)
    (sectionTitle p) (timetable_innerHTML p) (timetableContainer_hidden p)
    (loading_hidden p) (sectionSelect_value p) (downloadImageBtn p)
    (downloadPdfBtn p) (alerts p) (console_errors p ++ [(what, error)])
    (requests p) (captures p) (downloads p).

Definition log_request (url : jstring) (p : page) : page :=
  mkPage (courseColors p) (colorIndex p) (currentSectionName p)
    (sectionTitle p) (timetable_innerHTML p) (timetableContainer_hidden p)
    (loading_hidden p) (sectionSelect_value p) (downloadImageBtn p)
    (downloadPdfBtn p) (alerts p) (console_errors p)
    (requests p ++ [url]) (captures p) (downloads p).

Definition log_capture (p : page) : page :=
  mkPage (courseColors p) (colorIndex p) (currentSectionName p)
    (sectionTitle p) (timetable_innerHTML p) (timetableContainer_hidden p)
    (loading_hidden p) (sectionSelect_value p) (downloadImageBtn p)
    (downloadPdfBtn p) (alerts p) (console_errors p)
    (requests p) (S (captures p)) (downloads p).

(** The browser saves [content] under [file_name]. *)
Definition save_as (file_name content : jstring) (p : page) : page :=
  mkPage (courseColors p) (colorIndex p) (currentSectionName p)
    (sectionTitle p) (timetable_innerHTML p) (timetableContainer_hidden p)
    (loading_hidden p) (sectionSelect_value p) (downloadImageBtn p)
    (downloadPdfBtn p) (alerts p) (console_errors p)
    (requests p) (captures p) (downloads p ++ [(file_name, content)]).

(** *** Colours *)

(** [COLORS[i]], [undefined] out of range. *)
Definition COLORS_at (i : nat) : field :=
  from_option Str Absent (COLORS !! i).

Definition getCourseColor (courseCode : jstring) (p : page) : field * page :=
  let p1 :=
    match courseColors p !! courseCode with
    | Some _ => p
    | None =>
        set_colors
          (<[courseCode := COLORS_at (colorIndex p mod length COLORS)%nat]>
             (courseColors p))
          (S (colorIndex p)) p
    end in
  (default Absent (courseColors p1 !! courseCode), p1).

(** *** Loading indicator *)

Definition showLoading (p : page) : page :=
  set_timetableContainer_hidden true (set_loading_hidden false p).

Definition hideLoading (p : page) : page :=
  set_loading_hidden true p.

(** *** Escaping *)

(** What [innerHTML] gives back for a text node: the fragment
    serialisation of the HTML Standard replaces [&], no-break space,
    [<] and [>], and nothing else. *)
Definition escape_unit (u : N) : jstring :=
  if (u =? 38)%N then lit "&amp;"
  else if (u =? 160)%N then lit "&nbsp;"
  else if (u =? 60)%N then lit "&lt;"
  else if (u =? 62)%N then lit "&gt;"
  else [u].

Definition escapeHtml (text : field) : jstring :=
  if negb (truthy text) then []
  else flat_map escape_unit (ToString text).

(** *** The break heuristic *)

(** [data.timetable[day] || {}] *)
Definition dayDataOf (data : Timetable) (day : jstring) : gmap Z CellData :=
  default ∅ (timetable data !! day).

(** [cellData && cellData.code], as a condition. *)
Definition has_code (cellData : option CellData) : bool :=
  match cellData with
  | Some c => truthy (code c)
  | None => false
  end.

(** [cellData && cellData.code && cellData.code.length > 1] *)
Definition has_long_code (cellData : option CellData) : bool :=
  match cellData with
  | Some c =>
      match code c with
      | Str s => truthy (code c) && (1 <? length s)%nat
      | _ => false
      end
  | None => false
  end.

Definition daysWithBreakData (data : Timetable) : list jstring :=
  List.filter (fun day => has_code (dayDataOf data day !! 6)) DAYS.

Definition hasLongCodes (data : Timetable) : bool :=
  existsb (fun day => has_long_code (dayDataOf data day !! 6)) DAYS.

Definition hasBreakClasses (data : Timetable) : bool :=
  hasLongCodes data
  || ((0 <? length (daysWithBreakData data))%nat
      && (length (daysWithBreakData data) <? 4)%nat).

(** *** The grid *)

(** The condition [slot === 6 && !hasBreakClasses]. *)
Definition is_break_column (hasBreakClasses : bool) (slot : Z) : bool :=
  (slot =? 6) && negb hasBreakClasses.

(** Body of the header loop: what one slot adds to [html]. *)
Definition header_cell (hasBreakClasses : bool) (slotTimes : gmap Z field)
    (slot : Z) : jstring :=
  let time := or_empty (default Absent (slotTimes !! slot)) in
  if is_break_column hasBreakClasses slot
  then BREAK_HEADER_1 ++ time ++ BREAK_HEADER_2
  else SLOT_HEADER_1 ++ number_to_string slot ++ SLOT_HEADER_2
         ++ time ++ SLOT_HEADER_3.

(** The [<td>] of a cell that has a code. *)
Definition course_cell (color : field) (cellData : CellData) : jstring :=
  COURSE_CELL_1 ++ ToString color
    ++ COURSE_CELL_2 ++ escapeHtml (name cellData)
    ++ COURSE_CELL_3 ++ escapeHtml (code cellData)
    ++ COURSE_CELL_4 ++ escapeHtml (location cellData)
    ++ COURSE_CELL_5 ++ escapeHtml (lecturer cellData)
    ++ COURSE_CELL_6.

(** Body of the inner loop of a day row. The state is the page (for the
    colour table) and the [html] built so far. *)
Definition render_slot (hasBreakClasses : bool) (dayIndex : nat)
    (dayData : gmap Z CellData) (acc : page * jstring) (slot : Z)
    : page * jstring :=
  let '(p, html) := acc in
  if is_break_column hasBreakClasses slot then
    if (dayIndex =? 0)%nat then (p, html ++ BREAK_CELL) else (p, html)
  else
    match dayData !! slot with
    | Some cellData =>
        if truthy (code cellData) then
          let '(color, p') := getCourseColor (ToString (code cellData)) p in
          (p', html ++ course_cell color cellData)
        else (p, html ++ EMPTY_CELL)
    | None => (p, html ++ EMPTY_CELL)
    end.

(** Body of the loop over [DAYS]. *)
Definition render_day (data : Timetable) (hasBreakClasses : bool)
    (acc : page * jstring) (d : nat * jstring) : page * jstring :=
  let '(p, html) := acc in
  let '(dayIndex, day) := d in
  let html := html ++ ROW_OPEN_1 ++ day ++ ROW_OPEN_2 in
  let dayData := dayDataOf data day in
  let '(p, html) :=
    fold_left (render_slot hasBreakClasses dayIndex dayData)
      (time_slots data) (p, html) in
  (p, html ++ lit "</tr>").

(** ([hasBreak], which the source computes from [slots.includes(6)], is
    never read and is left out.) *)
Definition renderTimetable (data : Timetable) (p : page) : page :=
  let p := set_colors ∅ 0 p in
  let p :=
    set_title (lit "Section_" ++ ident_to_string (section data))
      (lit "SECTION " ++ ident_to_string (section data)) p in
  let slots := time_slots data in
  let slotTimes := slot_times data in
  let hasBreakClasses := hasBreakClasses data in
  let html := THEAD_OPEN in
  let html :=
    fold_left (fun html slot => html ++ header_cell hasBreakClasses slotTimes slot)
      slots html in
  let html := html ++ THEAD_CLOSE in
  let '(p, html) :=
    fold_left (render_day data hasBreakClasses) (imap pair DAYS) (p, html) in
  let html := html ++ lit "</tbody>" in
  set_timetableContainer_hidden false (set_timetable_innerHTML html p).

(** *** Loading a timetable *)

(** [fetch(url)] and [fetch(url, {method: 'POST', body})]; each leaves a
    trace in [requests]. *)
Definition fetch (net : network) (url : jstring)
    : action page (response Timetable) :=
  fun p => (fetch_get net url, log_request url p).

Definition fetch_upload (net : network) (url : jstring) (file : File)
    : action page (response Timetable) :=
  fun p => (fetch_post net url file, log_request url p).

Definition loadTimetable (net : network) (section : jstring)
    : action page unit :=
  (modify showLoading >>
   try_catch_finally
     (let! response := fetch net (lit "/api/timetable/" ++ section) in
      let! data := await (json response) in
      if truthy (error data) then throw (ToString (error data))
      else modify (renderTimetable data))
     (fun error =>
        modify (console_error (lit "Failed to load timetable:") error) >>
        modify (alert (lit "Failed to load timetable: " ++ error)))
     (modify hideLoading))%action.

Definition uploadAndParse (net : network) (file : File)
    : action page unit :=
  (modify showLoading >>
   try_catch_finally
     (let! response := fetch_upload net (lit "/api/upload") file in
      let! data := await (json response) in
      if truthy (error data) then throw (ToString (error data))
      else
        modify (set_sectionSelect_value []) >>
        modify (renderTimetable data))
     (fun error =>
        modify (console_error (lit "Failed to parse uploaded file:") error) >>
        modify (alert (lit "Failed to parse uploaded file: " ++ error)))
     (modify hideLoading))%action.

(** *** Export *)

(** Lines 321-355, and again 410-441: a canvas whose ratio is further
    than 0.01 from 16:9 is drawn on a new canvas, which keeps the width
    of a canvas that is too wide and the height of one that is too tall.
    [canvas.width] and [canvas.height] are integers, and [Math.round]
    returns one. This is the arithmetic of a canvas of positive size:
    with a height of 0 the ratio is [NaN] or infinite in the source, and
    0 here. *)
Definition pad_16_9 (ex : exporter) (canvas : Canvas) : outcome Canvas :=
  let targetRatio := fdiv 16 9 in
  let currentRatio :=
    fdiv (inject_Z (width canvas)) (inject_Z (height canvas)) in
  if gt (Qabs (fsub currentRatio targetRatio)) (rnd (1 # 100)) then
    match context2d ex with
    | Thrown e => Thrown e
    | Returned _ =>
        let '(newWidth, newHeight) :=
          if gt currentRatio targetRatio
          then (width canvas,
                Math_round (fdiv (inject_Z (width canvas)) targetRatio))
          else (Math_round (fmul (inject_Z (height canvas)) targetRatio),
                height canvas) in
        let xOffset :=
          Math_round
            (fdiv (fsub (inject_Z newWidth) (inject_Z (width canvas))) 2) in
        let yOffset :=
          Math_round
            (fdiv (fsub (inject_Z newHeight) (inject_Z (height canvas))) 2) in
        Returned (Padded newWidth newHeight xOffset yOffset canvas)
    end
  else Returned canvas.

(** [await html2canvas(exportArea, ...)], which leaves a trace in
    [captures]. *)
Definition capture (ex : exporter) : action page Canvas :=
  fun p => (html2canvas ex, log_capture p).

Definition downloadAsImage (ex : exporter) : action page unit :=
  try_catch_finally
    (modify (set_downloadImageBtn (mkButton true (lit "Generating..."))) >>
     let! canvas := capture ex in
     let! finalCanvas := await (pad_16_9 ex canvas) in
     let! href := await (toDataURL ex finalCanvas) in
     fun p =>
       (Returned tt,
        save_as (replace_spaces (currentSectionName p) ++ lit ".png") href p))%action
    (fun error =>
       modify (console_error (lit "Failed to generate image:") error) >>
       modify (alert (lit "Failed to generate image. Please try again.")))%action
    (modify (set_downloadImageBtn (mkButton false IMAGE_BUTTON_LABEL))).

Definition downloadAsPdf (ex : exporter) : action page unit :=
  try_catch_finally
    (modify (set_downloadPdfBtn (mkButton true (lit "Generating..."))) >>
     let! canvas := capture ex in
     let! finalCanvas := await (pad_16_9 ex canvas) in
     let! imgData := await (toDataURL ex finalCanvas) in
     let! pdf := await (jsPDF ex finalCanvas imgData) in
     fun p =>
       (Returned tt,
        save_as (replace_spaces (currentSectionName p) ++ lit ".pdf") pdf p))%action
    (fun error =>
       modify (console_error (lit "Failed to generate PDF:") error) >>
       modify (alert (lit "Failed to generate PDF. Please try again.")))%action
    (modify (set_downloadPdfBtn (mkButton false PDF_BUTTON_LABEL))).

End Prettier.

(** ** static/app.js *)

Module App.

Definition LOAD_FAILED_1 : jstring :=
  lit (nl +:+
       sp 16 +:+ "<div class=" +:+ dq +:+ "empty-state" +:+ dq +:+ ">" +:+
       nl +:+
       sp 20 +:+ "<div class=" +:+ dq +:+ "empty-state-icon" +:+ dq +:+
       ">").

Definition LOAD_FAILED_2 : jstring :=
  lit ("</div>" +:+ nl +:+
       sp 20 +:+ "<p class=" +:+ dq +:+ "empty-state-text" +:+ dq +:+
       ">Failed to load data. Please try again.</p>" +:+ nl +:+
       sp 16 +:+ "</div>" +:+ nl +:+
       sp 12).

Definition EMPTY_STATE_1 : jstring :=
  lit (nl +:+
       sp 12 +:+ "<div class=" +:+ dq +:+ "empty-state" +:+ dq +:+ ">" +:+
       nl +:+
       sp 16 +:+ "<div class=" +:+ dq +:+ "empty-state-icon" +:+ dq +:+
       ">").

Definition EMPTY_STATE_2 : jstring :=
  lit ("</div>" +:+ nl +:+
       sp 16 +:+ "<p class=" +:+ dq +:+ "empty-state-text" +:+ dq +:+ ">").

Definition EMPTY_STATE_3 : jstring :=
  lit ("</p>" +:+ nl +:+
       sp 12 +:+ "</div>" +:+ nl +:+
       sp 8).

Definition CARD_1 : jstring :=
  lit (nl +:+
       sp 12 +:+ "<div class=" +:+ dq +:+ "course-card" +:+ dq +:+
       " style=" +:+ dq +:+ "animation-delay: ").

Definition CARD_2 : jstring :=
  lit ("s" +:+ dq +:+ ">" +:+ nl +:+
       sp 16 +:+ "<div class=" +:+ dq +:+ "course-name" +:+ dq +:+ ">").

Definition CARD_3 : jstring :=
  lit ("</div>" +:+ nl +:+
       sp 16 +:+ "<div class=" +:+ dq +:+ "lecturer-name" +:+ dq +:+ ">").

Definition CARD_4 : jstring :=
  lit ("</div>" +:+ nl +:+
       sp 16 +:+ "<div class=" +:+ dq +:+ "shared-sections" +:+ dq +:+
       ">" +:+ nl +:+
       sp 20).

Definition SHARED_LABEL : jstring :=
  lit ("<span class=" +:+ dq +:+ "shared-label" +:+ dq +:+
       ">Shared with:</span>" +:+ nl +:+
       sp 27).

Definition BADGE_1 : jstring :=
  lit ("<span class=" +:+ dq +:+ "section-badge" +:+ dq +:+ ">Section ").

Definition BADGE_2 : jstring :=
  lit ("</span>").

Definition NO_SHARED : jstring :=
  lit ("<span class=" +:+ dq +:+ "no-shared" +:+ dq +:+
       ">No other sections share this lecturer</span>").

Definition CARD_5 : jstring :=
  lit (nl +:+
       sp 16 +:+ "</div>" +:+ nl +:+
       sp 12 +:+ "</div>" +:+ nl +:+
       sp 8).

(** *** Data of the API *)

Record Course : Type := mkCourse {
  course_name : field;
  lecturer_name : field;
  shared_sections : list ident
}.

(** The JSON document of [/api/shared-lecturers/<id>]; [courses] may be
    missing. *)
Record SharedLecturers : Type := mkSharedLecturers {
  courses : option (list Course)
}.

(** *** The page *)

(** The DOM nodes the script writes to ([loadingEl] by its [active]
    class, [resultsContainer] and [statsBar] by their [style.display]),
    and what it has done to the outside world so far. *)
Record page : Type := mkPage {
  loading_active : bool;
  results_display : jstring;
  results_innerHTML : jstring;
  statsBar_display : jstring;
  totalCourses_text : jstring;
  sharedCount_text : jstring;
  console_errors : list (jstring * jstring);
  requests : list jstring
}.

Definition set_loading_active (b : bool) (p : page) : page :=
  mkPage b (results_display p) (results_innerHTML p) (statsBar_display p)
    (totalCourses_text p) (sharedCount_text p) (console_errors p)
    (requests p).

Definition set_results_display (d : jstring) (p : page) : page :=
  mkPage (loading_active p) d (results_innerHTML p) (statsBar_display p)
    (totalCourses_text p) (sharedCount_text p) (console_errors p)
    (requests p).

Definition set_results_innerHTML (html : jstring) (p : page) : page :=
  mkPage (loading_active p) (results_display p) html (statsBar_display p)
    (totalCourses_text p) (sharedCount_text p) (console_errors p)
    (requests p).

Definition set_statsBar_display (d : jstring) (p : page) : page :=
  mkPage (loading_active p) (results_display p) (results_innerHTML p) d
    (totalCourses_text p) (sharedCount_text p) (console_errors p)
    (requests p).

Definition set_counters (total shared : jstring) (p : page) : page :=
  mkPage (loading_active p) (results_display p) (results_innerHTML p)
    (statsBar_display p) total shared (console_errors p) (requests p).

(** [console.error(what, error)] *)
Definition console_error (what error : jstring) (p : page) : page :=
  mkPage (loading_active p) (results_display p) (results_innerHTML p)
    (statsBar_display p) (totalCourses_text p) (sharedCount_text p)
    (console_errors p ++ [(what, error)]) (requests p).

Definition log_request (url : jstring) (p : page) : page :=
  mkPage (loading_active p) (results_display p) (results_innerHTML p)
    (statsBar_display p) (totalCourses_text p) (sharedCount_text p)
    (console_errors p) (requests p ++ [url]).

(** *** Rendering *)

Definition showEmptyState (message : jstring) (p : page) : page :=
  set_results_innerHTML
    (EMPTY_STATE_1 ++ [55357; 56538]%N ++ EMPTY_STATE_2 ++ message
       ++ EMPTY_STATE_3)
    (set_statsBar_display (lit "none") p).

Definition showLoading (p : page) : page :=
  set_statsBar_display (lit "none")
    (set_results_display (lit "none") (set_loading_active true p)).

Definition hideLoading (p : page) : page :=
  set_results_display (lit "flex") (set_loading_active false p).

Section Render.

(** The text of [index * 0.05], a binary64 product printed by
    ToString: taken as given. *)
Variable delay_text : nat -> jstring.

Definition badge (s : ident) : jstring :=
  BADGE_1 ++ ident_to_string s ++ BADGE_2.

(** The callback of [courses.map]. *)
Definition card (index : nat) (course : Course) : jstring :=
  CARD_1 ++ delay_text index
    ++ CARD_2 ++ ToString (course_name course)
    ++ CARD_3 ++ ToString (lecturer_name course)
    ++ CARD_4
    ++ (if (0 <? length (shared_sections course))%nat
        then SHARED_LABEL ++ join (List.map badge (shared_sections course))
        else NO_SHARED)
    ++ CARD_5.

Definition renderResults (data : SharedLecturers) (p : page) : page :=
  match courses data with
  | None | Some [] =>
      showEmptyState (lit "No courses found for this section") p
  | Some courses =>
      let totalCourses := length courses in
      let totalShared :=
        fold_left (fun sum c => (sum + length (shared_sections c))%nat)
          courses 0%nat in
      let p := set_statsBar_display (lit "flex") p in
      let p :=
        set_counters (number_to_string (Z.of_nat totalCourses))
          (number_to_string (Z.of_nat totalShared)) p in
      set_results_innerHTML (join (imap card courses)) p
  end.

(** *** Loading *)

Definition fetch (net : jstring -> outcome (response SharedLecturers))
    (url : jstring) : action page (response SharedLecturers) :=
  fun p => (net url, log_request url p).

Definition loadSharedLecturers
    (net : jstring -> outcome (response SharedLecturers))
    (sectionId : jstring) : action page unit :=
  (modify showLoading >>
   try_catch
     (let! r := fetch net (lit "/api/shared-lecturers/" ++ sectionId) in
      let! data := await (json r) in
      modify hideLoading >>
      modify (renderResults data))
     (fun error =>
        modify (console_error (lit "Failed to load data:") error) >>
        modify hideLoading >>
        modify (set_results_innerHTML
                  (LOAD_FAILED_1 ++ [10060%N] ++ LOAD_FAILED_2))))%action.

End Render.

End App.

(** ** The section list and the listeners *)

(** The JSON document of [/api/sections], which always carries the
    list [sections]. *)
Record Sections : Type := mkSections { sections : list ident }.

(** An [<option>] of the section selector. Its [value] is a string,
    whatever is assigned to it. *)
Record option_element : Type := mkOption {
  option_value : jstring;
  option_textContent : jstring
}.

(** The callback of [data.sections.forEach]: the option it creates. *)
Definition section_option (section : ident) : option_element :=
  mkOption (ident_to_string section)
    (lit "Section " ++ ident_to_string section).

(** *** static/prettier.js *)

Module PrettierListeners.

Import Prettier.

(** The page of [Prettier], with the nodes that only [loadSections] and
    the listeners touch: the options of [sectionSelect], the [drag-over]
    class of [uploadArea], and the file dialogs that [fileUpload.click()]
    has opened. *)
Record document : Type := mkDocument {
  view : page;
  sectionSelect_options : list option_element;
  uploadArea_drag_over : bool;
  fileUpload_clicks : nat
}.

Definition set_view (p : page) (d : document) : document :=
  mkDocument p (sectionSelect_options d) (uploadArea_drag_over d)
    (fileUpload_clicks d).

(** [sectionSelect.appendChild(option)] *)
Definition appendChild (o : option_element) (d : document) : document :=
  mkDocument (view d) (sectionSelect_options d ++ [o])
    (uploadArea_drag_over d) (fileUpload_clicks d).

Definition set_drag_over (b : bool) (d : document) : document :=
  mkDocument (view d) (sectionSelect_options d) b (fileUpload_clicks d).

Definition click_fileUpload (d : document) : document :=
  mkDocument (view d) (sectionSelect_options d) (uploadArea_drag_over d)
    (S (fileUpload_clicks d)).

(** Code of [Prettier], run on the page of the document. *)
Definition in_view {A} (m : action page A) : action document A :=
  fun d => ((m (view d)).1, set_view (m (view d)).2 d).

Definition fetch_sections (backend : jstring -> outcome (response Sections))
    (url : jstring) : action document (response Sections) :=
  fun d => (backend url, set_view (log_request url (view d)) d).

Definition loadSections (backend : jstring -> outcome (response Sections))
    : action document unit :=
  try_catch
    (let! response := fetch_sections backend (lit "/api/sections") in
     let! data := await (json response) in
     modify (fun d =>
               fold_left
                 (fun d section => appendChild (section_option section) d)
                 (sections data) d))%action
    (fun error =>
       in_view (modify (console_error (lit "Failed to load sections:") error))).

(** The listeners that [setupEventListeners] registers, each named after
    its node and its event. [e.preventDefault()] writes nothing to the
    page. *)

(** [value] is [e.target.value]. *)
Definition sectionSelect_change (net : network) (value : jstring)
    : action document unit :=
  if truthy (Str value) then in_view (loadTimetable net value)
  else ret tt.

Definition uploadArea_click : action document unit :=
  modify click_fileUpload.

(** [files] is [e.target.files]: with [files.length > 0], [files[0]] is
    its head. *)
Definition fileUpload_change (net : network) (files : list File)
    : action document unit :=
  match files with
  | file :: _ => in_view (uploadAndParse net file)
  | [] => ret tt
  end.

Definition uploadArea_dragover : action document unit :=
  modify (set_drag_over true).

Definition uploadArea_dragleave : action document unit :=
  modify (set_drag_over false).

(** [files] is [e.dataTransfer.files]. *)
Definition uploadArea_drop (net : network) (files : list File)
    : action document unit :=
  (modify (set_drag_over false) >>
   match files with
   | file :: _ =>
       if bool_decide (file_type file = lit "application/pdf")
       then in_view (uploadAndParse net file)
       else in_view (modify (alert (lit "Please upload a PDF file")))
   | [] => ret tt
   end)%action.

(** *** Events *)

(** An event on the page, with the outside world that its listener
    meets. *)
Inductive event : Type :=
| SelectSection (net : network) (value : jstring)
| ClickUploadArea
| ChooseFiles (net : network) (files : list File)
| DragOverArea
| DragLeaveArea
| DropFiles (net : network) (files : list File)
| ClickImage (ex : exporter)
| ClickPdf (ex : exporter).

(** The listeners that [setupEventListeners] and
    [setupDownloadListeners] register. When the [change] listener of the
    selector runs, the browser has set the selector to the chosen
    value. *)
Definition listener (ev : event) : action document unit :=
  match ev with
  | SelectSection net value =>
      (in_view (modify (set_sectionSelect_value value)) >>
       sectionSelect_change net value)%action
  | ClickUploadArea => uploadArea_click
  | ChooseFiles net files => fileUpload_change net files
  | DragOverArea => uploadArea_dragover
  | DragLeaveArea => uploadArea_dragleave
  | DropFiles net files => uploadArea_drop net files
  | ClickImage ex => in_view (downloadAsImage ex)
  | ClickPdf ex => in_view (downloadAsPdf ex)
  end.

(** The document after a sequence of events, each handled to completion
    before the next. *)
Definition handle_all (events : list event) (d : document) : document :=
  fold_left (fun d ev => (listener ev d).2) events d.

End PrettierListeners.

(** *** static/app.js *)

Module AppListeners.

(** The page of [App], with the options of [sectionSelect]. *)
Record document : Type := mkDocument {
  results : App.page;
  sectionSelect_options : list option_element
}.

Definition set_results (p : App.page) (d : document) : document :=
  mkDocument p (sectionSelect_options d).

(** [sectionSelect.appendChild(option)] *)
Definition appendChild (o : option_element) (d : document) : document :=
  mkDocument (results d) (sectionSelect_options d ++ [o]).

(** Code of [App], run on the page of the document. *)
Definition in_results {A} (m : action App.page A) : action document A :=
  fun d => ((m (results d)).1, set_results (m (results d)).2 d).

Definition fetch_sections (backend : jstring -> outcome (response Sections))
    (url : jstring) : action document (response Sections) :=
  fun d => (backend url, set_results (App.log_request url (results d)) d).

Definition loadSections (backend : jstring -> outcome (response Sections))
    : action document unit :=
  try_catch
    (let! response := fetch_sections backend (lit "/api/sections") in
     let! data := await (json response) in
     modify (fun d =>
               fold_left
                 (fun d section => appendChild (section_option section) d)
                 (sections data) d))%action
    (fun error =>
       in_results
         (modify (App.console_error (lit "Failed to load sections:") error))).

Section Listeners.

Variable delay_text : nat -> jstring.

(** The listener of [change] on [sectionSelect]; [sectionId] is
    [e.target.value], and [showEmptyState()] takes its default
    message. *)
Definition sectionSelect_change
    (net : jstring -> outcome (response App.SharedLecturers))
    (sectionId : jstring) : action document unit :=
  if truthy (Str sectionId)
  then in_results (App.loadSharedLecturers delay_text net sectionId)
  else
    in_results
      (modify (App.showEmptyState
                 (lit "Select a section to see shared lecturers"))).

End Listeners.

End AppListeners.

(** ** Notions of the specification *)

Import Prettier.

(** *** Slot 6 *)

(** The slot-6 entry of [day] is present and carries the code [s]. *)
Definition slot6_code (data : Timetable) (day s : jstring) : Prop :=
  ∃ dd c, timetable data !! day = Some dd ∧ dd !! 6 = Some c ∧ code c = Str s.

(** No day has a slot-6 code of more than one character. *)
Definition only_short_codes (data : Timetable) : Prop :=
  ∀ day s, day ∈ DAYS → slot6_code data day s → (length s ≤ 1)%nat.

(** Some day has a slot-6 code of more than one character. *)
Definition some_long_code (data : Timetable) : Prop :=
  ∃ day s, day ∈ DAYS ∧ slot6_code data day s ∧ (1 < length s)%nat.

(** *** First-seen order and colours *)

(** Meeting the code [c] after the distinct codes [seen]. *)
Definition see (seen : list jstring) (c : jstring) : list jstring :=
  if decide (c ∈ seen) then seen else seen ++ [c].

(** The distinct codes of [codes], in the order of their first
    occurrence. *)
Definition first_seen (codes : list jstring) : list jstring :=
  fold_left see codes [].

(** Position of the first [c] in [l]. *)
Fixpoint index_of (c : jstring) (l : list jstring) : option nat :=
  match l with
  | [] => None
  | x :: r => if decide (x = c) then Some 0%nat else S <$> index_of c r
  end.

(** The code that the cell of [slot] hands to the colour table, if any. *)
Definition cell_codes (hasBreakClasses : bool) (dayData : gmap Z CellData)
    (slot : Z) : list jstring :=
  if is_break_column hasBreakClasses slot then []
  else
    match dayData !! slot with
    | Some c => if truthy (code c) then [ToString (code c)] else []
    | None => []
    end.

Definition row_codes (data : Timetable) (day : jstring) : list jstring :=
  flat_map (cell_codes (hasBreakClasses data) (dayDataOf data day))
    (time_slots data).

(** The course codes of a render, day by day and slot by slot. *)
Definition codes_in_order (data : Timetable) : list jstring :=
  flat_map (row_codes data) DAYS.

(** The colour the specification gives the code [c]: palette entry
    [i mod 8] for the [i]-th distinct code of the render. *)
Definition spec_color (data : Timetable) (c : jstring) : field :=
  match index_of c (first_seen (codes_in_order data)) with
  | Some i => COLORS_at (i mod 8)
  | None => Absent
  end.

(** *** The grid *)

(** A table with one header cell per slot and, for each day, the day
    label followed by one (possibly empty) piece of markup per slot. *)
Definition grid_layout (slots : list Z) (header : Z → jstring)
    (cell : nat → jstring → Z → jstring) : jstring :=
  THEAD_OPEN ++ concat (map header slots) ++ THEAD_CLOSE
    ++ concat (imap (λ dayIndex day,
                       ROW_OPEN_1 ++ day ++ ROW_OPEN_2
                         ++ concat (map (cell dayIndex day) slots)
                         ++ lit "</tr>") DAYS)
    ++ lit "</tbody>".

(** The markup of one position of the grid, the colours being given by
    [color_of]. *)
Definition painted_cell (color_of : jstring → field) (hasBreakClasses : bool)
    (dayData : gmap Z CellData) (dayIndex : nat) (slot : Z) : jstring :=
  if is_break_column hasBreakClasses slot then
    if (dayIndex =? 0)%nat then BREAK_CELL else []
  else
    match dayData !! slot with
    | Some c =>
        if truthy (code c) then course_cell (color_of (ToString (code c))) c
        else EMPTY_CELL
    | None => EMPTY_CELL
    end.

Definition spec_cell (data : Timetable) (dayIndex : nat) (day : jstring)
    (slot : Z) : jstring :=
  painted_cell (spec_color data) (hasBreakClasses data) (dayDataOf data day)
    dayIndex slot.

(** The colour table holds exactly the codes [seen], the [i]-th of them
    with palette entry [i mod 8]. *)
Definition table_of (seen : list jstring) (p : page) : Prop :=
  colorIndex p = length seen ∧
  ∀ c, courseColors p !! c
       = (λ i, COLORS_at (i mod 8)) <$> index_of c seen.

(** [color_of] paints the [i]-th code of [seen] with palette entry
    [i mod 8]. *)
Definition agrees (color_of : jstring → field) (seen : list jstring) : Prop :=
  ∀ c i, index_of c seen = Some i → color_of c = COLORS_at (i mod 8).

(** *** Escaped text *)

(** The text contains neither [<] nor [>]: it cannot open or close a
    tag. *)
Definition markup_free (s : jstring) : Prop :=
  Forall (λ u, u ≠ 60%N ∧ u ≠ 62%N) s.

(** [pre] is a prefix of [s]. *)
Fixpoint starts_with (pre s : jstring) : bool :=
  match pre, s with
  | [], _ => true
  | a :: pre', b :: s' => (a =? b)%N && starts_with pre' s'
  | _ :: _, [] => false
  end.

(** The character reference that begins right after an ampersand, as the
    unit it stands for and the number of units it still takes. *)
Definition reference (s : jstring) : option (N * nat) :=
  if starts_with (lit "amp;") s then Some (38%N, 4%nat)
  else if starts_with (lit "nbsp;") s then Some (160%N, 5%nat)
  else if starts_with (lit "lt;") s then Some (60%N, 3%nat)
  else if starts_with (lit "gt;") s then Some (62%N, 3%nat)
  else None.

(** How a browser reads escaped text back: the four character references
    are replaced by their characters ([skip] units of a reference being
    still to pass). *)
Fixpoint unescape_from (skip : nat) (s : jstring) : jstring :=
  match s with
  | [] => []
  | u :: r =>
      match skip with
      | S k => unescape_from k r
      | O =>
          if (u =? 38)%N then
            match reference r with
            | Some (v, k) => v :: unescape_from k r
            | None => u :: unescape_from 0 r
            end
          else u :: unescape_from 0 r
      end
  end.

Definition unescape (s : jstring) : jstring := unescape_from 0 s.

(** *** Sample data *)

(** A page on which nothing has happened yet. *)
Definition blank_page : page :=
  mkPage ∅ 0 (lit "timetable") [] [] true true []
    (mkButton false IMAGE_BUTTON_LABEL) (mkButton false PDF_BUTTON_LABEL)
    [] [] [] 0 [].

(** A timetable with the single column 6 and no day at all. *)
Definition bare_timetable : Timetable :=
  mkTimetable Absent (IdNum 1) [6] ∅ ∅.

(** A week with a lecture in slot 1 on Monday and Wednesday, a lecture in
    slot 6 on Tuesday, and no entry for Thursday and Friday. *)
Definition sample_timetable : Timetable :=
  mkTimetable Absent (IdStr (lit "2A")) [1; 6; 7]
    {[ 1 := Str (lit "08:00"); 6 := Str (lit "13:00") ]}
    {[ lit "MON" := {[ 1 := mkCell (Str (lit "CS101")) (Str (lit "Algo <1>"))
                              (Str (lit "R&D 2")) Null ]};
       lit "TUE" := {[ 6 := mkCell (Str (lit "MA2")) (Str (lit "Maths"))
                              Absent (Str (lit "Dr X")) ]};
       lit "WED" := {[ 1 := mkCell (Str (lit "CS101")) (Str (lit "Algo <1>"))
                              (Str (lit "R&D 2")) Null;
                       7 := mkCell (Str []) Absent Absent Absent ]} ]}.

(** The table [html] is a grid in which the row of every day that has no
    key in [data] holds, at each slot, the empty placeholder or nothing
    at all. *)
Definition missing_rows_blank (data : Timetable) (html : jstring) : Prop :=
  ∃ cell : nat → jstring → Z → jstring,
    html = grid_layout (time_slots data)
             (header_cell (hasBreakClasses data) (slot_times data)) cell ∧
    ∀ dayIndex day slot,
      DAYS !! dayIndex = Some day → timetable data !! day = None →
      cell dayIndex day slot = EMPTY_CELL ∨ cell dayIndex day slot = [].

(** *** Failures of the outside world *)

(** The request fails with the message [e]: [fetch] rejects (network), or
    it resolves and [json()] rejects (parse). *)
Definition fetch_fails {D} (o : outcome (response D)) (e : jstring) : Prop :=
  o = Thrown e ∨ ∃ r, o = Returned r ∧ json r = Thrown e.

(** What the libraries make of an image export: the data URL of the
    padded canvas, or the first failure on the way. *)
Definition image_result (ex : exporter) : outcome jstring :=
  match html2canvas ex with
  | Thrown e => Thrown e
  | Returned canvas =>
      match pad_16_9 ex canvas with
      | Thrown e => Thrown e
      | Returned finalCanvas => toDataURL ex finalCanvas
      end
  end.

(** The same for a PDF export: the document built around the image. *)
Definition pdf_result (ex : exporter) : outcome jstring :=
  match html2canvas ex with
  | Thrown e => Thrown e
  | Returned canvas =>
      match pad_16_9 ex canvas with
      | Thrown e => Thrown e
      | Returned finalCanvas =>
          match toDataURL ex finalCanvas with
          | Thrown e => Thrown e
          | Returned imgData => jsPDF ex finalCanvas imgData
          end
      end
  end.

(** *** Sample data of the comparison view *)

Definition blank_results : App.page :=
  App.mkPage false (lit "flex") [] (lit "none") [] [] [] [].

(** Two courses, the first shared with two sections and carrying markup
    in its name. *)
Definition sample_courses : list App.Course :=
  [App.mkCourse (Str (lit "<b>Algorithms</b>")) (Str (lit "Dr X & Y"))
     [IdNum 2; IdStr (lit "3<B>")];
   App.mkCourse (Str (lit "Logic")) Null []].

Definition sample_lecturers : App.SharedLecturers :=
  App.mkSharedLecturers (Some sample_courses).

(** A backend that is down. *)
Definition no_network : network :=
  mkNetwork (λ _, Thrown (lit "Failed to fetch"))
    (λ _ _, Thrown (lit "Failed to fetch")).

(** *** The arithmetic of the padding *)

(** The relative error of one rounding to binary64: [2^-53]. *)
Definition binary64_eps : Q := 1 # 9007199254740992.

(** The Number that [16 / 9] evaluates to, [0x1.c71c71c71c71cp+0]. *)
Definition ratio_16_9 : Q := 8006399337547548 # 4503599627370496.

(** The Number that the literal [0.01] denotes, [0x1.47ae147ae147bp-7]. *)
Definition tolerance : Q := 5764607523034235 # 576460752303423488.

(** What separates the test of the source, made on rounded Numbers, from
    the same test on the exact ratio. *)
Definition slack : Q := 1 # 1000000000000.

(** A captured canvas of 2800 by 1200 pixels. *)
Definition sample_canvas : Canvas := Captured 2800 1200.

(** Libraries that all work and return fixed results. *)
Definition ideal_exporter : exporter :=
  mkExporter (Returned sample_canvas) (Returned tt)
    (λ _, Returned (lit "data:image/png;base64,AAAA"))
    (λ _ _, Returned (lit "%PDF-1.3")).

(** Libraries that capture [sample_canvas] and then refuse to encode
    it. *)
Definition tainted_exporter : exporter :=
  mkExporter (Returned sample_canvas) (Returned tt)
    (λ _, Thrown (lit "Tainted canvases may not be exported."))
    (λ _ _, Returned (lit "%PDF-1.3")).

(** *** The binary64 arithmetic of the machine *)

(** The rational that a binary64 value of the machine stands for, if it
    is finite. *)
Definition hardware_value (x : float) : option Q :=
  match Prim2SF x with
  | S754_zero _ => Some 0%Q
  | S754_finite sign m e =>
      Some ((if sign then - 1 else 1) * inject_Z (Zpos m) * 2 ^ e)%Q
  | _ => None
  end.

(** The machine computes [x] where the embedding computes [q]. *)
Definition same_number (x : float) (q : Q) : bool :=
  match hardware_value x with
  | Some v => Qeq_bool v q
  | None => false
  end.

(** *** Notions of the properties of the rest of the code *)

(** The four characters that [escapeHtml] replaces. *)
Definition is_special (u : N) : bool :=
  ((u =? 38) || (u =? 160) || (u =? 60) || (u =? 62))%N.

(** A run of calls of [getCourseColor], one per code. *)
Definition color_all (codes : list jstring) (p : page) : page :=
  fold_left (λ p c, (getCourseColor c p).2) codes p.

(** The request for [url] is answered by the document [data]. *)
Definition answers {D} (o : outcome (response D)) (data : D) : Prop :=
  ∃ r, o = Returned r ∧ json r = Returned data.

(** [q] is [p] with another colour table and counter. *)
Definition colours_only (p q : page) : Prop :=
  ∃ m i, q = set_colors m i p.

(** [sample_timetable] with a Saturday, and with a lecture on Monday in
    a slot that is not among its [time_slots]. *)
Definition crowded_timetable : Timetable :=
  mkTimetable Absent (IdStr (lit "2A")) [1; 6; 7]
    {[ 1 := Str (lit "08:00"); 6 := Str (lit "13:00") ]}
    {[ lit "MON" := {[ 1 := mkCell (Str (lit "CS101")) (Str (lit "Algo <1>"))
                              (Str (lit "R&D 2")) Null;
                       9 := mkCell (Str (lit "PE1")) Absent Absent Absent ]};
       lit "TUE" := {[ 6 := mkCell (Str (lit "MA2")) (Str (lit "Maths"))
                              Absent (Str (lit "Dr X")) ]};
       lit "WED" := {[ 1 := mkCell (Str (lit "CS101")) (Str (lit "Algo <1>"))
                              (Str (lit "R&D 2")) Null;
                       7 := mkCell (Str []) Absent Absent Absent ]};
       lit "SAT" := {[ 1 := mkCell (Str (lit "CS999")) Absent Absent
                              Absent ]} ]}.

(** [q] shows what [p] shows: the same colours, section name and title,
    table, visibility of the table and of the loading indicator,
    selection, and the same requests made. *)
Definition same_display (p q : page) : Prop :=
  courseColors q = courseColors p ∧ colorIndex q = colorIndex p ∧
  currentSectionName q = currentSectionName p ∧
  sectionTitle q = sectionTitle p ∧
  timetable_innerHTML q = timetable_innerHTML p ∧
  timetableContainer_hidden q = timetableContainer_hidden p ∧
  loading_hidden q = loading_hidden p ∧
  sectionSelect_value q = sectionSelect_value p ∧
  requests q = requests p.

(** The document with which the backend refuses a request, and a
    backend that always answers with it. *)
Definition refused_timetable : Timetable :=
  mkTimetable (Str (lit "Section not found")) (IdNum 0) [] ∅ ∅.

Definition refusing_network : network :=
  mkNetwork (λ _, Returned (mkResponse (Returned refused_timetable)))
    (λ _ _, Returned (mkResponse (Returned refused_timetable))).

(** *** Sample documents *)

Definition blank_document : PrettierListeners.document :=
  PrettierListeners.mkDocument blank_page [] false 0.

(** A text file. *)
Definition text_file : File := mkFile (lit "text/plain").

(** A timetable whose only slot has markup for its time. *)
Definition scripted_timetable : Timetable :=
  mkTimetable Absent (IdNum 1) [1] {[ 1 := Str (lit "<img src=x>") ]} ∅.

(** *** The timetable that an event brings *)

(** The timetable in the answer [o] of the backend, unless the request
    failed or the document carries an error. *)
Definition accepted (o : outcome (response Timetable)) : option Timetable :=
  match o with
  | Returned r =>
      match json r with
      | Returned data => if truthy (error data) then None else Some data
      | Thrown _ => None
      end
  | Thrown _ => None
  end.

(** The timetable that the event hands to [renderTimetable], if any. *)
Definition brings (ev : PrettierListeners.event) : option Timetable :=
  match ev with
  | PrettierListeners.SelectSection net (u :: rest) =>
      accepted (fetch_get net (lit "/api/timetable/" ++ u :: rest))
  | PrettierListeners.ChooseFiles net (file :: _) =>
      accepted (fetch_post net (lit "/api/upload") file)
  | PrettierListeners.DropFiles net (file :: _) =>
      if bool_decide (file_type file = lit "application/pdf")
      then accepted (fetch_post net (lit "/api/upload") file)
      else None
  | _ => None
  end.

(** The last timetable that a sequence of events brings, [start] if
    none does. *)
Definition last_brought (events : list PrettierListeners.event)
    (start : option Timetable) : option Timetable :=
  fold_left
    (λ last ev,
       match brings ev with
       | Some data => Some data
       | None => last
       end)
    events start.

(** [q] has the table, the title, the section name and the colours of
    [p]. *)
Definition same_timetable (p q : page) : Prop :=
  timetable_innerHTML q = timetable_innerHTML p ∧
  sectionTitle q = sectionTitle p ∧
  currentSectionName q = currentSectionName p ∧
  courseColors q = courseColors p ∧
  colorIndex q = colorIndex p.

(** The page shows the timetable [data]. *)
Definition shows (data : Timetable) (p : page) : Prop :=
  timetable_innerHTML p
  = grid_layout (time_slots data)
      (header_cell (hasBreakClasses data) (slot_times data))
      (spec_cell data) ∧
  sectionTitle p = lit "SECTION " ++ ident_to_string (section data) ∧
  currentSectionName p = lit "Section_" ++ ident_to_string (section data) ∧
  table_of (first_seen (codes_in_order data)) p.

(** A backend that always answers with [sample_timetable]. *)
Definition sample_network : network :=
  mkNetwork (λ _, Returned (mkResponse (Returned sample_timetable)))
    (λ _ _, Returned (mkResponse (Returned sample_timetable))).

(** * Properties *)

(** ** The break-slot classifier *)

Lemma has_code_slot6 data day :
  has_code (dayDataOf data day !! 6) = true ↔
  ∃ s, slot6_code data day s ∧ s ≠ [].
Proof.
  unfold dayDataOf, slot6_code. split.
  - destruct (timetable data !! day) as [dd|] eqn:Hd; simpl.
    + destruct (dd !! 6) as [c|] eqn:Hc; simpl; [|done].
      destruct (code c) as [| |[|u s]] eqn:Hs; simpl; try done.
      intros _. exists (u :: s). split; [|done]. by exists dd, c.
    + by rewrite lookup_empty.
  - intros (s & (dd & c & -> & Hc & Hs) & Hne). simpl.
    rewrite Hc. simpl. rewrite Hs. by destruct s.
Qed.

Lemma has_long_code_slot6 data day :
  has_long_code (dayDataOf data day !! 6) = true ↔
  ∃ s, slot6_code data day s ∧ (1 < length s)%nat.
Proof.
  unfold dayDataOf, slot6_code. split.
  - destruct (timetable data !! day) as [dd|] eqn:Hd; simpl.
    + destruct (dd !! 6) as [c|] eqn:Hc; simpl; [|done].
      destruct (code c) as [| |s] eqn:Hs; simpl; try done.
      intros [_ Hl%Nat.ltb_lt]%andb_true_iff.
      exists s. split; [|done]. by exists dd, c.
    + by rewrite lookup_empty.
  - intros (s & (dd & c & -> & Hc & Hs) & Hl). simpl.
    rewrite Hc. simpl. rewrite Hs. apply andb_true_iff. split.
    + destruct s; simpl in *; [lia|done].
    + by apply Nat.ltb_lt.
Qed.

Lemma has_long_code_has_code (cellData : option CellData) :
  has_long_code cellData = true → has_code cellData = true.
Proof.
  destruct cellData as [c|]; simpl; [|done].
  destruct (code c) as [| |s]; try done.
  by intros [? _]%andb_true_iff.
Qed.

Lemma NoDup_DAYS : NoDup DAYS.
Proof. apply (bool_decide_unpack _). by vm_compute. Qed.

Lemma length_DAYS : length DAYS = 5%nat.
Proof. reflexivity. Qed.

Lemma elem_of_daysWithBreakData data day :
  day ∈ daysWithBreakData data ↔
  day ∈ DAYS ∧ ∃ s, slot6_code data day s ∧ s ≠ [].
Proof.
  unfold daysWithBreakData.
  rewrite list_elem_of_In, filter_In, <- list_elem_of_In.
  by rewrite has_code_slot6.
Qed.

Lemma NoDup_daysWithBreakData data : NoDup (daysWithBreakData data).
Proof.
  apply NoDup_ListNoDup, List.NoDup_filter, NoDup_ListNoDup, NoDup_DAYS.
Qed.

Lemma length_daysWithBreakData data :
  (length (daysWithBreakData data) ≤ 5)%nat.
Proof.
  unfold daysWithBreakData. rewrite <- length_DAYS. apply List.filter_length_le.
Qed.

Lemma hasLongCodes_spec data :
  hasLongCodes data = true ↔ some_long_code data.
Proof.
  unfold hasLongCodes, some_long_code. rewrite existsb_exists. split.
  - intros (day & Hin%list_elem_of_In & (s & ? & ?)%has_long_code_slot6).
    by exists day, s.
  - intros (day & s & Hin & ? & ?). exists day. split.
    + by apply list_elem_of_In.
    + apply has_long_code_slot6. by exists s.
Qed.

Lemma hasLongCodes_false data :
  hasLongCodes data = false ↔ only_short_codes data.
Proof.
  rewrite <- not_true_iff_false, hasLongCodes_spec.
  unfold some_long_code, only_short_codes. split.
  - intros Hn day s Hin Hs.
    destruct (decide (length s ≤ 1)%nat) as [|Hl]; [done|].
    exfalso. apply Hn. exists day, s. repeat split; [done..|lia].
  - intros Hall (day & s & Hin & Hs & Hl).
    specialize (Hall day s Hin Hs). lia.
Qed.

Lemma hasLongCodes_days data :
  hasLongCodes data = true → (0 < length (daysWithBreakData data))%nat.
Proof.
  unfold hasLongCodes. rewrite existsb_exists.
  intros (day & Hin & Hl%has_long_code_has_code).
  assert (Hd : In day (daysWithBreakData data)).
  { unfold daysWithBreakData. by apply filter_In. }
  destruct (daysWithBreakData data); simpl in *; [done|lia].
Qed.

(** C1. The classifier answers "real classes" exactly when some day's
    slot-6 code is longer than one character, or the number of days whose
    slot-6 entry has a non-empty code is strictly between 0 and 4; the
    days counted are exactly those days, each once. So: no day with data
    gives a break; one to three days of codes of at most one character
    give real classes; four or five such days give a break; a code of
    several characters on any day gives real classes. *)
Theorem break_slot_classifier (data : Timetable) :
  let n := length (daysWithBreakData data) in
  (∀ day, day ∈ daysWithBreakData data ↔
          day ∈ DAYS ∧ ∃ s, slot6_code data day s ∧ s ≠ []) ∧
  NoDup (daysWithBreakData data) ∧
  (n ≤ 5)%nat ∧
  (hasBreakClasses data = true ↔
     some_long_code data ∨ (0 < n ∧ n < 4)%nat) ∧
  (n = 0%nat → hasBreakClasses data = false) ∧
  (only_short_codes data → (1 ≤ n ∧ n ≤ 3)%nat →
     hasBreakClasses data = true) ∧
  (only_short_codes data → (4 ≤ n)%nat → hasBreakClasses data = false) ∧
  (some_long_code data → hasBreakClasses data = true).
Proof.
  intros n.
  assert (Hiff : hasBreakClasses data = true ↔
                 some_long_code data ∨ (0 < n ∧ n < 4)%nat).
  { unfold hasBreakClasses. fold n.
    rewrite orb_true_iff, andb_true_iff, !Nat.ltb_lt.
    by rewrite hasLongCodes_spec. }
  split; [apply elem_of_daysWithBreakData|].
  split; [apply NoDup_daysWithBreakData|].
  split; [apply length_daysWithBreakData|].
  split; [exact Hiff|].
  repeat split.
  - intros Hn. apply not_true_iff_false. rewrite Hiff.
    intros [Hl%hasLongCodes_spec%hasLongCodes_days|?]; [fold n in Hl|]; lia.
  - intros _ ?. apply Hiff. right. lia.
  - intros Hs%hasLongCodes_false Hn. apply not_true_iff_false. rewrite Hiff.
    intros [Hl%hasLongCodes_spec|?]; [congruence|lia].
  - intros ?. apply Hiff. by left.
Qed.

(** ** First-seen order *)

Lemma index_of_app_l c l l' i :
  index_of c l = Some i → index_of c (l ++ l') = Some i.
Proof.
  revert i. induction l as [|x l IH]; intros i; simpl; [done|].
  destruct (decide (x = c)); [done|].
  destruct (index_of c l) as [j|]; simpl; [|done].
  intros [= <-]. by rewrite (IH j).
Qed.

Lemma index_of_None c l : c ∉ l → index_of c l = None.
Proof.
  induction l as [|x l IH]; simpl; [done|].
  intros [Hne Hnin]%not_elem_of_cons.
  destruct (decide (x = c)); [congruence|]. by rewrite IH.
Qed.

Lemma index_of_elem_of c l i : index_of c l = Some i → l !! i = Some c.
Proof.
  revert i. induction l as [|x l IH]; intros i; simpl; [done|].
  destruct (decide (x = c)) as [->|]; [by intros [= <-]|].
  destruct (index_of c l) as [j|]; simpl; [|done].
  intros [= <-]. simpl. by apply IH.
Qed.

Lemma index_of_snoc_fresh c l :
  c ∉ l → index_of c (l ++ [c]) = Some (length l).
Proof.
  induction l as [|x l IH]; simpl.
  - intros _. by rewrite decide_True.
  - intros [Hne Hnin]%not_elem_of_cons.
    rewrite decide_False by congruence. by rewrite IH.
Qed.

Lemma index_of_snoc_ne c k l : k ≠ c → index_of k (l ++ [c]) = index_of k l.
Proof.
  intros Hne. induction l as [|x l IH]; simpl.
  - by rewrite decide_False by congruence.
  - destruct (decide (x = k)); [done|]. by rewrite IH.
Qed.

Lemma index_of_is_Some c l : c ∈ l → is_Some (index_of c l).
Proof.
  induction l as [|x l IH]; [by intros ?%elem_of_nil|].
  simpl. destruct (decide (x = c)); [by eexists|].
  intros [->|Hin]%elem_of_cons; [done|].
  destruct (IH Hin) as [j ->]. by eexists.
Qed.

Lemma index_of_NoDup c l i : NoDup l → l !! i = Some c → index_of c l = Some i.
Proof.
  intros Hnd Hi.
  destruct (index_of_is_Some c l) as [j Hj].
  { by eapply list_elem_of_lookup_2. }
  rewrite Hj. f_equal.
  eapply NoDup_lookup; [done| |done]. by apply index_of_elem_of.
Qed.

Lemma see_prefix seen c i k :
  index_of k seen = Some i → index_of k (see seen c) = Some i.
Proof.
  unfold see. destruct (decide (c ∈ seen)); [done|]. apply index_of_app_l.
Qed.

Lemma fold_see_prefix codes seen i k :
  index_of k seen = Some i → index_of k (fold_left see codes seen) = Some i.
Proof.
  revert seen. induction codes as [|c codes IH]; intros seen H; simpl; [done|].
  by apply IH, see_prefix.
Qed.

Lemma see_NoDup seen c : NoDup seen → NoDup (see seen c).
Proof.
  intros Hnd. unfold see. destruct (decide (c ∈ seen)); [done|].
  apply NoDup_app. split; [done|]. split.
  - intros x Hx ->%list_elem_of_singleton. done.
  - apply NoDup_singleton.
Qed.

Lemma elem_of_see seen c k : k ∈ see seen c ↔ k ∈ seen ∨ k = c.
Proof.
  unfold see. destruct (decide (c ∈ seen)).
  - split; [by left|]. by intros [?| ->].
  - rewrite elem_of_app, list_elem_of_singleton. done.
Qed.

Lemma fold_see_NoDup codes seen :
  NoDup seen → NoDup (fold_left see codes seen).
Proof.
  revert seen. induction codes as [|c codes IH]; intros seen H; simpl; [done|].
  by apply IH, see_NoDup.
Qed.

Lemma elem_of_fold_see codes seen k :
  k ∈ fold_left see codes seen ↔ k ∈ seen ∨ k ∈ codes.
Proof.
  revert seen. induction codes as [|c codes IH]; intros seen; simpl.
  - rewrite elem_of_nil. tauto.
  - rewrite IH, elem_of_see, elem_of_cons. tauto.
Qed.

Lemma first_seen_NoDup codes : NoDup (first_seen codes).
Proof. apply fold_see_NoDup, NoDup_nil_2. Qed.

Lemma elem_of_first_seen codes k : k ∈ first_seen codes ↔ k ∈ codes.
Proof.
  unfold first_seen. rewrite elem_of_fold_see, elem_of_nil. tauto.
Qed.

Lemma agrees_prefix color_of codes seen :
  agrees color_of (fold_left see codes seen) → agrees color_of seen.
Proof. intros H c i Hi. by apply H, fold_see_prefix. Qed.

Lemma agrees_spec_color data :
  agrees (spec_color data) (first_seen (codes_in_order data)).
Proof. intros c i Hi. unfold spec_color. by rewrite Hi. Qed.

Lemma index_of_lt c l i : index_of c l = Some i → (i < length l)%nat.
Proof. intros H%index_of_elem_of. by eapply lookup_lt_Some. Qed.

Lemma index_of_cons_ne x c l :
  x ≠ c → index_of c (x :: l) = S <$> index_of c l.
Proof. intros H. simpl. by rewrite decide_False. Qed.

(** The order of [first_seen] is the order of first occurrences: the
    codes seen before come first, and of two new codes the one that
    occurs first comes first. *)
Lemma fold_see_order codes seen c1 c2 i j :
  index_of c1 (fold_left see codes seen) = Some i →
  index_of c2 (fold_left see codes seen) = Some j →
  (i < j)%nat →
  c1 ∈ seen ∨
  ((c1 ∉ seen) ∧ (c2 ∉ seen) ∧
   ∃ a b, index_of c1 codes = Some a ∧ index_of c2 codes = Some b
          ∧ (a < b)%nat).
Proof.
  revert seen. induction codes as [|x codes IH]; intros seen H1 H2 Hij.
  - left. apply index_of_elem_of in H1. by eapply list_elem_of_lookup_2.
  - cbn [fold_left] in H1, H2.
    destruct (IH _ H1 H2 Hij) as [Hin|(Hn1 & Hn2 & a & b & Ha & Hb & Hab)].
    + apply elem_of_see in Hin as [Hin| ->]; [by left|].
      destruct (decide (x ∈ seen)) as [Hx|Hx]; [by left|]. right.
      assert (Hi : index_of x (see seen x) = Some (length seen)).
      { unfold see. rewrite decide_False by done.
        by apply index_of_snoc_fresh. }
      pose proof (fold_see_prefix codes _ _ _ Hi) as Hi'.
      assert (i = length seen) by congruence. subst i.
      assert (Hc2 : c2 ∉ see seen x).
      { intros Hc2. destruct (index_of_is_Some _ _ Hc2) as [k Hk].
        pose proof (fold_see_prefix codes _ _ _ Hk) as Hk'.
        apply index_of_lt in Hk. unfold see in Hk.
        rewrite decide_False, length_app in Hk by done. simpl in Hk.
        assert (k = j) by congruence. lia. }
      assert (Hne : x ≠ c2).
      { intros ->. apply Hc2, elem_of_see. by right. }
      assert (Hc2' : c2 ∈ codes).
      { apply index_of_elem_of, list_elem_of_lookup_2 in H2.
        apply elem_of_fold_see in H2 as [?|?]; done. }
      destruct (index_of_is_Some _ _ Hc2') as [b Hb].
      split; [done|]. split.
      { intros ?. apply Hc2, elem_of_see. by left. }
      exists 0%nat, (S b). split; [by simpl; rewrite decide_True|].
      split; [|lia]. by rewrite index_of_cons_ne, Hb.
    + right.
      assert (x ≠ c1) by (intros ->; apply Hn1, elem_of_see; by right).
      assert (x ≠ c2) by (intros ->; apply Hn2, elem_of_see; by right).
      split; [intros ?; apply Hn1, elem_of_see; by left|].
      split; [intros ?; apply Hn2, elem_of_see; by left|].
      exists (S a), (S b).
      rewrite !index_of_cons_ne, Ha, Hb by done. split; [done|].
      split; [done|lia].
Qed.

Lemma first_seen_order codes c1 c2 i j :
  first_seen codes !! i = Some c1 →
  first_seen codes !! j = Some c2 →
  (i < j)%nat →
  ∃ a b, index_of c1 codes = Some a ∧ index_of c2 codes = Some b
         ∧ (a < b)%nat.
Proof.
  intros H1 H2 Hij. pose proof (first_seen_NoDup codes) as Hnd.
  apply (index_of_NoDup _ _ _ Hnd) in H1, H2.
  destruct (fold_see_order codes [] c1 c2 i j H1 H2 Hij)
    as [Hin|(_ & _ & H)]; [by apply elem_of_nil in Hin|exact H].
Qed.

(** A second call with the same code returns the same colour and leaves
    the table as it is. *)
Lemma getCourseColor_again c p :
  getCourseColor c (getCourseColor c p).2 = getCourseColor c p.
Proof.
  unfold getCourseColor at 2.
  destruct (courseColors p !! c) as [v|] eqn:E; cbn [snd].
  - unfold getCourseColor. by rewrite E.
  - unfold getCourseColor. rewrite E.
    cbn [courseColors set_colors]. rewrite lookup_insert_eq.
    cbn [courseColors set_colors]. by rewrite lookup_insert_eq.
Qed.

(** ** The colour table *)

Lemma COLORS_length : length COLORS = 8%nat.
Proof. reflexivity. Qed.

Lemma table_of_reset p : table_of [] (set_colors ∅ 0 p).
Proof. split; [done|]. intros c. simpl. by rewrite lookup_empty. Qed.

Lemma getCourseColor_spec seen p c :
  table_of seen p →
  ∃ i, index_of c (see seen c) = Some i ∧
       (getCourseColor c p).1 = COLORS_at (i mod 8) ∧
       table_of (see seen c) (getCourseColor c p).2.
Proof.
  intros [Hlen Hmap]. unfold getCourseColor, see. rewrite COLORS_length.
  destruct (decide (c ∈ seen)) as [Hin|Hnin].
  - destruct (index_of_is_Some c seen Hin) as [i Hi].
    exists i. pose proof (Hmap c) as Hc. rewrite Hi in Hc. simpl in Hc.
    rewrite Hc. simpl. rewrite Hc. by repeat split.
  - pose proof (Hmap c) as Hc. rewrite (index_of_None c seen Hnin) in Hc.
    simpl in Hc. rewrite Hc. simpl. rewrite lookup_insert_eq. simpl.
    exists (length seen). rewrite Hlen.
    split; [by apply index_of_snoc_fresh|]. split; [done|]. split.
    + simpl. rewrite length_app. simpl. lia.
    + intros k. simpl. rewrite lookup_insert. destruct (decide (c = k)) as [<-|Hne].
      * by rewrite index_of_snoc_fresh.
      * rewrite index_of_snoc_ne by congruence. apply Hmap.
Qed.

(** ** The loops of [renderTimetable] *)

Lemma header_loop (h : Z → jstring) slots html :
  fold_left (λ html slot, html ++ h slot) slots html
  = html ++ concat (map h slots).
Proof.
  revert html. induction slots as [|a slots IH]; intros html; simpl.
  - by rewrite app_nil_r.
  - by rewrite IH, app_assoc.
Qed.

Lemma slot_step color_of hbc dayIndex dd seen p html slot :
  table_of seen p →
  agrees color_of (fold_left see (cell_codes hbc dd slot) seen) →
  ∃ p',
    render_slot hbc dayIndex dd (p, html) slot
    = (p', html ++ painted_cell color_of hbc dd dayIndex slot) ∧
    table_of (fold_left see (cell_codes hbc dd slot) seen) p'.
Proof.
  intros Htab Hagr. unfold render_slot, cell_codes, painted_cell in *.
  destruct (is_break_column hbc slot).
  { exists p. destruct (dayIndex =? 0)%nat; [done|]. by rewrite app_nil_r. }
  destruct (dd !! slot) as [c|]; [destruct (truthy (code c))|];
    [|by exists p..].
  cbn [fold_left] in Hagr |- *.
  destruct (getCourseColor_spec seen p (ToString (code c)) Htab)
    as (i & Hi & Hcol & Htab').
  destruct (getCourseColor (ToString (code c)) p) as [color p1].
  simpl in Hcol, Htab'. subst color.
  exists p1. by rewrite (Hagr _ _ Hi).
Qed.

Lemma slot_loop color_of hbc dayIndex dd slots seen p html :
  table_of seen p →
  agrees color_of (fold_left see (flat_map (cell_codes hbc dd) slots) seen) →
  ∃ p',
    fold_left (render_slot hbc dayIndex dd) slots (p, html)
    = (p', html ++ concat (map (painted_cell color_of hbc dd dayIndex) slots)) ∧
    table_of (fold_left see (flat_map (cell_codes hbc dd) slots) seen) p'.
Proof.
  revert seen p html.
  induction slots as [|a slots IH]; intros seen p html Htab Hagr.
  - exists p. simpl. by rewrite app_nil_r.
  - cbn [fold_left flat_map map concat] in Hagr |- *.
    rewrite fold_left_app in Hagr |- *.
    destruct (slot_step color_of hbc dayIndex dd seen p html a Htab
                (agrees_prefix _ _ _ Hagr)) as (p1 & -> & Htab1).
    destruct (IH _ p1 (html ++ painted_cell color_of hbc dd dayIndex a)
                Htab1 Hagr) as (p' & -> & ?).
    exists p'. by rewrite <- app_assoc.
Qed.

Lemma day_loop data (ds : list (nat * jstring)) seen p html :
  table_of seen p →
  agrees (spec_color data)
    (fold_left see (flat_map (λ d, row_codes data d.2) ds) seen) →
  ∃ p',
    fold_left (render_day data (hasBreakClasses data)) ds (p, html)
    = (p', html ++ concat (map (λ d, ROW_OPEN_1 ++ d.2 ++ ROW_OPEN_2
                                      ++ concat (map (spec_cell data d.1 d.2)
                                                   (time_slots data))
                                      ++ lit "</tr>") ds)) ∧
    table_of (fold_left see (flat_map (λ d, row_codes data d.2) ds) seen) p'.
Proof.
  revert seen p html.
  induction ds as [|[i day] ds IH]; intros seen p html Htab Hagr.
  - exists p. simpl. by rewrite app_nil_r.
  - cbn [fold_left flat_map map concat fst snd] in Hagr |- *.
    rewrite fold_left_app in Hagr |- *.
    unfold render_day at 2.
    destruct (slot_loop (spec_color data) (hasBreakClasses data) i
                (dayDataOf data day) (time_slots data) seen p
                (html ++ ROW_OPEN_1 ++ day ++ ROW_OPEN_2) Htab
                (agrees_prefix _ _ _ Hagr)) as (p1 & -> & Htab1).
    destruct (IH (fold_left see (row_codes data day) seen) p1
                (((html ++ ROW_OPEN_1 ++ day ++ ROW_OPEN_2)
                    ++ concat (map (painted_cell (spec_color data)
                                      (hasBreakClasses data)
                                      (dayDataOf data day) i)
                                 (time_slots data)))
                   ++ lit "</tr>")) as (p' & -> & Htab').
    { exact Htab1. }
    { exact Hagr. }
    exists p'. split; [|done].
    f_equal. unfold spec_cell. by rewrite <- !app_assoc.
Qed.

(** The table that [renderTimetable] writes is the grid of the
    specification, and the colour table it leaves holds the distinct
    codes of this render, in first-seen order. *)
Lemma renderTimetable_spec data p :
  timetable_innerHTML (renderTimetable data p)
  = grid_layout (time_slots data)
      (header_cell (hasBreakClasses data) (slot_times data))
      (spec_cell data) ∧
  table_of (first_seen (codes_in_order data)) (renderTimetable data p).
Proof.
  unfold renderTimetable. rewrite header_loop.
  set (p0 := set_title _ _ (set_colors ∅ 0%nat p)).
  assert (Htab0 : table_of [] p0).
  { split; [done|]. intros c. apply lookup_empty. }
  destruct (day_loop data (imap pair DAYS) [] p0
              ((THEAD_OPEN
                  ++ concat (map (header_cell (hasBreakClasses data)
                                    (slot_times data)) (time_slots data)))
                 ++ THEAD_CLOSE) Htab0 (agrees_spec_color data))
    as (p' & -> & Htab).
  split.
  - cbn [timetable_innerHTML set_timetableContainer_hidden
           set_timetable_innerHTML].
    unfold grid_layout. rewrite <- !app_assoc. by do 3 f_equal.
  - exact Htab.
Qed.

(** ** Escaping *)

Lemma escapeHtml_falsy text : truthy text = false → escapeHtml text = [].
Proof. unfold escapeHtml. by intros ->. Qed.

Lemma escapeHtml_Str s : escapeHtml (Str s) = flat_map escape_unit s.
Proof. by destruct s. Qed.

Lemma escape_unit_markup_free u : markup_free (escape_unit u).
Proof.
  unfold escape_unit, markup_free.
  destruct (u =? 38)%N eqn:E1;
    [by apply (bool_decide_unpack _); vm_compute|].
  destruct (u =? 160)%N eqn:E2;
    [by apply (bool_decide_unpack _); vm_compute|].
  destruct (u =? 60)%N eqn:E3;
    [by apply (bool_decide_unpack _); vm_compute|].
  destruct (u =? 62)%N eqn:E4;
    [by apply (bool_decide_unpack _); vm_compute|].
  apply N.eqb_neq in E3, E4. by repeat constructor.
Qed.

Lemma escapeHtml_markup_free text : markup_free (escapeHtml text).
Proof.
  unfold escapeHtml. destruct (truthy text); simpl; [|constructor].
  induction (ToString text) as [|u s IH]; simpl; [constructor|].
  apply Forall_app. split; [apply escape_unit_markup_free|exact IH].
Qed.

Lemma unescape_escape_unit u s :
  unescape (escape_unit u ++ s) = u :: unescape s.
Proof.
  unfold unescape, escape_unit.
  destruct (u =? 38)%N eqn:E1; [by apply N.eqb_eq in E1 as ->|].
  destruct (u =? 160)%N eqn:E2; [by apply N.eqb_eq in E2 as ->|].
  destruct (u =? 60)%N eqn:E3; [by apply N.eqb_eq in E3 as ->|].
  destruct (u =? 62)%N eqn:E4; [by apply N.eqb_eq in E4 as ->|].
  simpl. by rewrite E1.
Qed.

Lemma unescape_escapeHtml s : unescape (escapeHtml (Str s)) = s.
Proof.
  rewrite escapeHtml_Str. induction s as [|u s IH]; [done|].
  simpl. by rewrite unescape_escape_unit, IH.
Qed.

(** ** The rendered table *)

Lemma spec_cell_break data dayIndex day slot :
  is_break_column (hasBreakClasses data) slot = true →
  spec_cell data dayIndex day slot
  = if (dayIndex =? 0)%nat then BREAK_CELL else [].
Proof. unfold spec_cell, painted_cell. by intros ->. Qed.

Lemma spec_cell_class data dayIndex day slot :
  is_break_column (hasBreakClasses data) slot = false →
  spec_cell data dayIndex day slot
  = match dayDataOf data day !! slot with
    | Some c =>
        if truthy (code c)
        then course_cell (spec_color data (ToString (code c))) c
        else EMPTY_CELL
    | None => EMPTY_CELL
    end.
Proof. unfold spec_cell, painted_cell. by intros ->. Qed.

Lemma dayDataOf_missing data day :
  timetable data !! day = None → dayDataOf data day = ∅.
Proof. unfold dayDataOf. by intros ->. Qed.

Lemma table_of_lookup seen p i c :
  table_of seen p → NoDup seen → seen !! i = Some c →
  courseColors p !! c = Some (COLORS_at (i mod 8)).
Proof.
  intros [_ Hmap] Hnd Hi. by rewrite Hmap, (index_of_NoDup c seen i).
Qed.

Lemma table_of_fresh seen p c :
  table_of seen p → c ∉ seen → courseColors p !! c = None.
Proof. intros [_ Hmap] Hc. by rewrite Hmap, index_of_None. Qed.

Lemma COLORS_at_mod i : ∃ col, COLORS !! (i mod 8)%nat = Some col
                              ∧ COLORS_at (i mod 8) = Str col.
Proof.
  unfold COLORS_at.
  destruct (COLORS !! (i mod 8)%nat) as [col|] eqn:E; [by exists col|].
  apply lookup_ge_None in E. rewrite COLORS_length in E.
  pose proof (Nat.mod_upper_bound i 8). lia.
Qed.



(** C3. Whatever the page held before, a render paints the [i]-th
    distinct course code it meets (from 0, in first-seen order: [seen]
    lists the codes of the cells without repetition, a code that occurs
    earlier coming earlier) with palette entry [i mod 8], and every cell
    of that code with that colour; the colour table it leaves holds
    these codes and nothing else, and the counter is their number. A
    second call of [getCourseColor] with a code changes nothing and
    returns the same colour. Two renders of the same data from two pages
    give the same table and the same colour state: the state of an
    earlier render is discarded. *)
Theorem color_assignment_stable (data : Timetable) (p q : page) :
  let seen := first_seen (codes_in_order data) in
  timetable_innerHTML (renderTimetable data p)
  = grid_layout (time_slots data)
      (header_cell (hasBreakClasses data) (slot_times data))
      (λ dayIndex day,
         painted_cell (spec_color data) (hasBreakClasses data)
           (dayDataOf data day) dayIndex) ∧
  NoDup seen ∧
  (∀ c, c ∈ seen ↔ c ∈ codes_in_order data) ∧
  (∀ i c, seen !! i = Some c →
     ∃ col, COLORS !! (i mod 8)%nat = Some col ∧
            spec_color data c = Str col ∧
            courseColors (renderTimetable data p) !! c = Some (Str col)) ∧
  (∀ i j c1 c2, seen !! i = Some c1 → seen !! j = Some c2 → (i < j)%nat →
     ∃ a b, index_of c1 (codes_in_order data) = Some a ∧
            index_of c2 (codes_in_order data) = Some b ∧ (a < b)%nat) ∧
  (∀ c, c ∉ seen → courseColors (renderTimetable data p) !! c = None) ∧
  colorIndex (renderTimetable data p) = length seen ∧
  (∀ c, getCourseColor c (getCourseColor c p).2 = getCourseColor c p) ∧
  timetable_innerHTML (renderTimetable data q)
  = timetable_innerHTML (renderTimetable data p) ∧
  courseColors (renderTimetable data q) = courseColors (renderTimetable data p) ∧
  colorIndex (renderTimetable data q) = colorIndex (renderTimetable data p).
Proof.
  intros seen.
  destruct (renderTimetable_spec data p) as [Hp Htp].
  destruct (renderTimetable_spec data q) as [Hq Htq].
  pose proof (first_seen_NoDup (codes_in_order data)) as Hnd.
  split; [exact Hp|]. split; [exact Hnd|].
  split; [apply elem_of_first_seen|].
  split.
  { intros i c Hi. destruct (COLORS_at_mod i) as (col & Hcol & Hat).
    exists col. split; [done|]. split.
    - unfold spec_color. fold seen. by rewrite (index_of_NoDup c seen i).
    - rewrite <- Hat. by apply (table_of_lookup seen). }
  split; [intros i j c1 c2; apply first_seen_order|].
  split; [intros c Hc; by apply (table_of_fresh seen)|].
  split; [apply Htp|].
  split; [intros c; apply getCourseColor_again|].
  split; [by rewrite Hp, Hq|].
  split.
  - apply map_eq. intros c. destruct Htp as [_ ->]. by destruct Htq as [_ ->].
  - destruct Htp as [-> _]. by destruct Htq as [-> _].
Qed.

(** C7. At every position of the grid outside a break column: when the
    entry is present and its code is not empty, the cell shows name,
    code, location and lecturer, each passed through [escapeHtml]; when
    the entry is missing or its code is empty, the cell is the empty
    placeholder. Escaped text has no [<] or [>] and reads back as the
    original text; a missing or empty field gives the empty text. *)
Theorem non_break_cell_content (data : Timetable) (p : page)
    (dayIndex : nat) (day : jstring) (slot : Z) :
  DAYS !! dayIndex = Some day →
  is_break_column (hasBreakClasses data) slot = false →
  timetable_innerHTML (renderTimetable data p)
  = grid_layout (time_slots data)
      (header_cell (hasBreakClasses data) (slot_times data))
      (spec_cell data) ∧
  match dayDataOf data day !! slot with
  | Some c =>
      if truthy (code c) then
        spec_cell data dayIndex day slot
        = COURSE_CELL_1 ++ ToString (spec_color data (ToString (code c)))
            ++ COURSE_CELL_2 ++ escapeHtml (name c)
            ++ COURSE_CELL_3 ++ escapeHtml (code c)
            ++ COURSE_CELL_4 ++ escapeHtml (location c)
            ++ COURSE_CELL_5 ++ escapeHtml (lecturer c)
            ++ COURSE_CELL_6
      else spec_cell data dayIndex day slot = EMPTY_CELL
  | None => spec_cell data dayIndex day slot = EMPTY_CELL
  end ∧
  ∀ text,
    markup_free (escapeHtml text) ∧
    (truthy text = true → unescape (escapeHtml text) = ToString text) ∧
    (truthy text = false → escapeHtml text = []).
Proof.
  intros _ Hcol. split; [apply renderTimetable_spec|]. split.
  - rewrite (spec_cell_class _ _ _ _ Hcol).
    destruct (dayDataOf data day !! slot) as [c|]; [|done].
    by destruct (truthy (code c)).
  - intros text. split; [apply escapeHtml_markup_free|]. split.
    + destruct text as [| |s]; try done. intros _. apply unescape_escapeHtml.
    + apply escapeHtml_falsy.
Qed.

Lemma non_break_cell_content_witness :
  DAYS !! 0%nat = Some (lit "MON") ∧
  is_break_column (hasBreakClasses sample_timetable) 1 = false ∧
  timetable_innerHTML (renderTimetable sample_timetable blank_page)
  = grid_layout (time_slots sample_timetable)
      (header_cell (hasBreakClasses sample_timetable)
         (slot_times sample_timetable))
      (spec_cell sample_timetable).
Proof.
  split; [reflexivity|]. split; [reflexivity|].
  apply (non_break_cell_content sample_timetable blank_page 0 (lit "MON") 1);
    reflexivity.
Defined.

(** ** Missing days *)

(** C10, as stated, fails: in [bare_timetable] no day has a key, yet
    the rendered table is not a grid whose rows hold empty placeholders
    only: the row of Monday carries the merged BREAK cell. *)
Lemma missing_day_row_not_all_empty :
  ¬ missing_rows_blank bare_timetable
      (timetable_innerHTML (renderTimetable bare_timetable blank_page)).
Proof.
  intros (cell & Heq & Hall).
  assert (Hday : ∀ i day, DAYS !! i = Some day →
            cell i day 6 = EMPTY_CELL ∨ cell i day 6 = []).
  { intros i day Hi. apply (Hall i day 6 Hi). apply lookup_empty. }
  apply (f_equal length) in Heq. unfold grid_layout in Heq.
  change (time_slots bare_timetable) with [6] in Heq.
  unfold DAYS in Heq. cbn [imap map concat compose] in Heq.
  destruct (Hday 0%nat (lit "MON") eq_refl) as [E0|E0];
    destruct (Hday 1%nat (lit "TUE") eq_refl) as [E1|E1];
    destruct (Hday 2%nat (lit "WED") eq_refl) as [E2|E2];
    destruct (Hday 3%nat (lit "THU") eq_refl) as [E3|E3];
    destruct (Hday 4%nat (lit "FRI") eq_refl) as [E4|E4];
    rewrite E0, E1, E2, E3, E4 in Heq; vm_compute in Heq; discriminate Heq.
Qed.

(** C10, amended. A day whose key is missing is read as an empty
    mapping, by the break heuristic (it is not a day with break data and
    has no long code) and by the row loop: its row holds the empty
    placeholder at every position outside a break column; in a break
    column it holds what every row holds there, the merged BREAK cell in
    the row of day 0 and nothing in the others. [escapeHtml] gives the
    empty text for [undefined], [null] and the empty string. *)
Theorem missing_day_renders_blank (data : Timetable) (p : page)
    (dayIndex : nat) (day : jstring) :
  DAYS !! dayIndex = Some day →
  timetable data !! day = None →
  timetable_innerHTML (renderTimetable data p)
  = grid_layout (time_slots data)
      (header_cell (hasBreakClasses data) (slot_times data))
      (spec_cell data) ∧
  (∀ slot,
     spec_cell data dayIndex day slot
     = if is_break_column (hasBreakClasses data) slot
       then (if (dayIndex =? 0)%nat then BREAK_CELL else [])
       else EMPTY_CELL) ∧
  (dayDataOf data day = ∅) ∧
  (day ∉ daysWithBreakData data) ∧
  has_long_code (dayDataOf data day !! 6) = false ∧
  escapeHtml Absent = [] ∧ escapeHtml Null = [] ∧ escapeHtml (Str []) = [].
Proof.
  intros _ Hday. pose proof (dayDataOf_missing data day Hday) as Hdd.
  split; [apply renderTimetable_spec|]. split.
  { intros slot.
    destruct (is_break_column (hasBreakClasses data) slot) eqn:Hcol.
    - by apply spec_cell_break.
    - rewrite (spec_cell_class _ _ _ _ Hcol), Hdd. by rewrite lookup_empty. }
  split; [exact Hdd|]. split.
  { rewrite elem_of_daysWithBreakData.
    intros (_ & s & (dd & c & Hsome & _) & _). congruence. }
  split; [by rewrite Hdd, lookup_empty|done].
Qed.

Lemma missing_day_renders_blank_witness :
  DAYS !! 3%nat = Some (lit "THU") ∧
  timetable sample_timetable !! lit "THU" = None ∧
  ∀ slot,
    spec_cell sample_timetable 3 (lit "THU") slot
    = if is_break_column (hasBreakClasses sample_timetable) slot
      then (if (3 =? 0)%nat then BREAK_CELL else [])
      else EMPTY_CELL.
Proof.
  split; [reflexivity|]. split; [reflexivity|].
  apply (missing_day_renders_blank sample_timetable blank_page 3 (lit "THU"));
    reflexivity.
Defined.

(** ** The comparison view *)

Lemma totalShared_sum (courses : list App.Course) (start : nat) :
  fold_left (λ sum c, (sum + length (App.shared_sections c))%nat) courses start
  = (start + sum_list (map (λ c, length (App.shared_sections c)) courses))%nat.
Proof.
  revert start. induction courses as [|c courses IH]; intros start; simpl.
  - lia.
  - rewrite IH. lia.
Qed.

Lemma renderResults_courses delay_text data p c cs :
  App.courses data = Some (c :: cs) →
  App.renderResults delay_text data p
  = App.set_results_innerHTML
      (join (imap (App.card delay_text) (c :: cs)))
      (App.set_counters
         (number_to_string (Z.of_nat (length (c :: cs))))
         (number_to_string
            (Z.of_nat (sum_list (map (λ c, length (App.shared_sections c))
                                   (c :: cs)))))
         (App.set_statsBar_display (lit "flex") p)).
Proof.
  intros H. unfold App.renderResults. rewrite H.
  by rewrite totalShared_sum.
Qed.

Lemma concat_lookup_middle (l : list jstring) i x :
  l !! i = Some x →
  concat l = concat (take i l) ++ x ++ concat (drop (S i) l).
Proof.
  intros H. rewrite <- (take_drop_middle l i x H) at 1.
  by rewrite concat_app.
Qed.

(** C4. For a fetched course list that is not empty, the two counters
    shown are the number of courses and the sum, over the courses, of the
    lengths of their [shared_sections]; the bar that holds them is made
    visible. This is what the page shows once the fetch of the list has
    resolved. *)
Theorem aggregate_counters (delay_text : nat → jstring)
    (data : App.SharedLecturers) (p : App.page) (cs : list App.Course)
    (net : jstring → outcome (response App.SharedLecturers))
    (sectionId : jstring) :
  App.courses data = Some cs →
  cs ≠ [] →
  net (lit "/api/shared-lecturers/" ++ sectionId)
  = Returned (mkResponse (Returned data)) →
  let total := number_to_string (Z.of_nat (length cs)) in
  let shared :=
    number_to_string
      (Z.of_nat (sum_list (map (λ c, length (App.shared_sections c)) cs))) in
  let p1 := App.renderResults delay_text data p in
  let p2 := (App.loadSharedLecturers delay_text net sectionId p).2 in
  App.totalCourses_text p1 = total ∧
  App.sharedCount_text p1 = shared ∧
  App.statsBar_display p1 = lit "flex" ∧
  App.totalCourses_text p2 = total ∧
  App.sharedCount_text p2 = shared ∧
  App.statsBar_display p2 = lit "flex".
Proof.
  intros Hcs Hne Hnet. destruct cs as [|c cs]; [done|].
  cbv zeta.
  unfold App.loadSharedLecturers, bind, try_catch, modify, await, App.fetch.
  rewrite Hnet. cbn [json fst snd].
  by rewrite !(renderResults_courses _ _ _ c cs Hcs).
Qed.

Lemma aggregate_counters_witness :
  App.totalCourses_text
    (App.renderResults (λ _, lit "0") sample_lecturers blank_results)
  = lit "2" ∧
  App.sharedCount_text
    (App.renderResults (λ _, lit "0") sample_lecturers blank_results)
  = lit "2".
Proof.
  destruct (aggregate_counters (λ _, lit "0") sample_lecturers blank_results
              sample_courses
              (λ _, Returned (mkResponse (Returned sample_lecturers)))
              (lit "2A") eq_refl ltac:(discriminate) eq_refl)
    as (H1 & H2 & _).
  split; [exact H1|exact H2].
Defined.




(** ** Failures *)

(** C6. An export, of either kind, captures the export area once and
    never again; whether the capture, the padding, the encoding or the
    PDF writer fails or all succeed, the handler returns normally with
    its button enabled and relabelled. For a capture of positive width
    and height: on a failure the user gets an alert (and the console
    the error) and nothing is saved; on success the file is saved and
    no alert is shown. *)
Theorem export_failure_and_cleanup (ex : exporter) (p : page) :
  let img := downloadAsImage ex p in
  let pdf := downloadAsPdf ex p in
  (img.1 = Returned tt ∧
   downloadImageBtn img.2 = mkButton false IMAGE_BUTTON_LABEL ∧
   captures img.2 = S (captures p)) ∧
  (pdf.1 = Returned tt ∧
   downloadPdfBtn pdf.2 = mkButton false PDF_BUTTON_LABEL ∧
   captures pdf.2 = S (captures p)) ∧
  ((∀ canvas, html2canvas ex = Returned canvas →
      (0 < width canvas)%Z ∧ (0 < height canvas)%Z) →
   match image_result ex with
   | Thrown e =>
       alerts img.2
       = alerts p ++ [lit "Failed to generate image. Please try again."] ∧
       console_errors img.2
       = console_errors p ++ [(lit "Failed to generate image:", e)] ∧
       downloads img.2 = downloads p
   | Returned href =>
       alerts img.2 = alerts p ∧
       console_errors img.2 = console_errors p ∧
       downloads img.2
       = downloads p
           ++ [(replace_spaces (currentSectionName p) ++ lit ".png", href)]
   end ∧
   match pdf_result ex with
   | Thrown e =>
       alerts pdf.2
       = alerts p ++ [lit "Failed to generate PDF. Please try again."] ∧
       console_errors pdf.2
       = console_errors p ++ [(lit "Failed to generate PDF:", e)] ∧
       downloads pdf.2 = downloads p
   | Returned doc =>
       alerts pdf.2 = alerts p ∧
       console_errors pdf.2 = console_errors p ∧
       downloads pdf.2
       = downloads p
           ++ [(replace_spaces (currentSectionName p) ++ lit ".pdf", doc)]
   end).
Proof.
  cbv zeta.
  unfold downloadAsImage, downloadAsPdf, image_result, pdf_result, capture,
    try_catch_finally, try_finally, try_catch, bind, modify, await.
  split; [|split].
  - destruct (html2canvas ex) as [canvas|e]; [|done].
    destruct (pad_16_9 ex canvas) as [finalCanvas|e]; [|done].
    by destruct (toDataURL ex finalCanvas) as [href|e].
  - destruct (html2canvas ex) as [canvas|e]; [|done].
    destruct (pad_16_9 ex canvas) as [finalCanvas|e]; [|done].
    destruct (toDataURL ex finalCanvas) as [imgData|e]; [|done].
    by destruct (jsPDF ex finalCanvas imgData) as [doc|e].
  - intros _.
    destruct (html2canvas ex) as [canvas|e]; [|done].
    destruct (pad_16_9 ex canvas) as [finalCanvas|e]; [|done].
    destruct (toDataURL ex finalCanvas) as [imgData|e]; [|done].
    by destruct (jsPDF ex finalCanvas imgData) as [doc|e].
Qed.

Lemma export_failure_and_cleanup_witness :
  (0 < width sample_canvas)%Z ∧ (0 < height sample_canvas)%Z ∧
  alerts (downloadAsImage tainted_exporter blank_page).2
  = [lit "Failed to generate image. Please try again."] ∧
  downloads (downloadAsImage tainted_exporter blank_page).2 = [] ∧
  downloadImageBtn (downloadAsImage tainted_exporter blank_page).2
  = mkButton false IMAGE_BUTTON_LABEL.
Proof.
  destruct (export_failure_and_cleanup tainted_exporter blank_page)
    as ((_ & Hb & _) & _ & Hm).
  destruct Hm as [Hm _].
  { intros canvas [= <-]. split; reflexivity. }
  assert (E : image_result tainted_exporter
              = Thrown (lit "Tainted canvases may not be exported."))
    by (vm_compute; reflexivity).
  rewrite E in Hm. destruct Hm as (Ha & _ & Hd).
  split; [reflexivity|]. split; [reflexivity|].
  split; [exact Ha|]. split; [exact Hd|exact Hb].
Defined.

(** C8. When the request for a timetable, for an upload or for the
    shared lecturers fails (network or parse), the handler returns
    normally: the failure is logged to the console; the timetable view
    shows an alert, the comparison view puts its failure message in the
    results area; the loading indicator is cleared; and exactly the one
    request has been issued. *)
Theorem fetch_failure_is_reported (net : network) (section : jstring)
    (file : File) (p : page)
    (delay_text : nat → jstring)
    (backend : jstring → outcome (response App.SharedLecturers))
    (sectionId : jstring) (q : App.page) (e1 e2 e3 : jstring) :
  fetch_fails (fetch_get net (lit "/api/timetable/" ++ section)) e1 →
  fetch_fails (fetch_post net (lit "/api/upload") file) e2 →
  fetch_fails (backend (lit "/api/shared-lecturers/" ++ sectionId)) e3 →
  let load := loadTimetable net section p in
  let upload := uploadAndParse net file p in
  let shared := App.loadSharedLecturers delay_text backend sectionId q in
  (load.1 = Returned tt ∧
   console_errors load.2
   = console_errors p ++ [(lit "Failed to load timetable:", e1)] ∧
   alerts load.2 = alerts p ++ [lit "Failed to load timetable: " ++ e1] ∧
   loading_hidden load.2 = true ∧
   requests load.2 = requests p ++ [lit "/api/timetable/" ++ section] ∧
   timetable_innerHTML load.2 = timetable_innerHTML p) ∧
  (upload.1 = Returned tt ∧
   console_errors upload.2
   = console_errors p ++ [(lit "Failed to parse uploaded file:", e2)] ∧
   alerts upload.2 = alerts p ++ [lit "Failed to parse uploaded file: " ++ e2] ∧
   loading_hidden upload.2 = true ∧
   requests upload.2 = requests p ++ [lit "/api/upload"] ∧
   timetable_innerHTML upload.2 = timetable_innerHTML p) ∧
  (shared.1 = Returned tt ∧
   App.console_errors shared.2
   = App.console_errors q ++ [(lit "Failed to load data:", e3)] ∧
   App.results_innerHTML shared.2
   = App.LOAD_FAILED_1 ++ [10060%N] ++ App.LOAD_FAILED_2 ∧
   App.loading_active shared.2 = false ∧
   App.results_display shared.2 = lit "flex" ∧
   App.requests shared.2
   = App.requests q ++ [lit "/api/shared-lecturers/" ++ sectionId]).
Proof.
  intros H1 H2 H3. cbv zeta.
  unfold loadTimetable, uploadAndParse, App.loadSharedLecturers,
    fetch, fetch_upload, App.fetch,
    try_catch_finally, try_finally, try_catch, bind, modify, await.
  split; [|split].
  - by destruct H1 as [->|(r & -> & Hr)]; [|cbn; rewrite Hr].
  - by destruct H2 as [->|(r & -> & Hr)]; [|cbn; rewrite Hr].
  - by destruct H3 as [->|(r & -> & Hr)]; [|cbn; rewrite Hr].
Qed.

Lemma fetch_failure_is_reported_witness :
  alerts (loadTimetable no_network (lit "2A") blank_page).2
  = [lit "Failed to load timetable: " ++ lit "Failed to fetch"] ∧
  loading_hidden (loadTimetable no_network (lit "2A") blank_page).2 = true.
Proof.
  destruct (fetch_failure_is_reported no_network (lit "2A")
              (mkFile (lit "application/pdf")) blank_page (λ _, lit "0")
              (λ _, Returned (mkResponse (Thrown (lit "Unexpected token <"))))
              (lit "2A") blank_results
              (lit "Failed to fetch") (lit "Failed to fetch")
              (lit "Unexpected token <"))
    as ((_ & _ & Ha & Hl & _) & _).
  - left. reflexivity.
  - left. reflexivity.
  - right. eexists. split; reflexivity.
  - split; [exact Ha|exact Hl].
Defined.

(** ** Rounding to binary64 *)

Section Rounding.

Local Open Scope Q_scope.

Lemma pow2_pos e : 0 < 2 ^ e.
Proof. apply Qpower_0_lt. reflexivity. Qed.

Lemma pow2_succ e : 2 ^ (e + 1) == 2 * 2 ^ e.
Proof. rewrite Qpower_plus by discriminate. change (2 ^ 1) with 2. ring. Qed.

Lemma pow2_pred e : 2 ^ (e - 1) == 2 ^ e / 2.
Proof. rewrite Qpower_minus by discriminate. reflexivity. Qed.

Lemma pow2_Z n : (0 <= n)%Z -> inject_Z (2 ^ n) == 2 ^ n.
Proof. intros H. apply Zpower_Qpower. exact H. Qed.

Lemma pow2_52 : 2 ^ 52 == 4503599627370496.
Proof. reflexivity. Qed.

(** [ilog2] is the exponent. *)
Lemma ilog2_spec x : 0 < x -> 2 ^ ilog2 x <= x /\ x < 2 ^ (ilog2 x + 1).
Proof.
  intros Hx. unfold ilog2.
  destruct x as [n d]. cbn [Qnum Qden].
  assert (Hn : (0 < n)%Z).
  { unfold Qlt in Hx. cbn in Hx. lia. }
  set (a := Z.log2 n). set (b := Z.log2 (Zpos d)).
  assert (Ha : (0 <= a)%Z) by apply Z.log2_nonneg.
  assert (Hb : (0 <= b)%Z) by apply Z.log2_nonneg.
  destruct (Z.log2_spec n Hn) as [Ha1 Ha2]. fold a in Ha1, Ha2.
  destruct (Z.log2_spec (Zpos d) eq_refl) as [Hb1 Hb2]. fold b in Hb1, Hb2.
  assert (HA := pow2_Z a Ha). assert (HB := pow2_Z b Hb).
  assert (HA1 : 2 ^ a <= inject_Z n).
  { rewrite <- HA. rewrite <- Zle_Qle. exact Ha1. }
  assert (HA2 : inject_Z n < 2 * 2 ^ a).
  { rewrite <- HA. change 2 with (inject_Z 2) at 1. rewrite <- inject_Z_mult.
    rewrite <- Zlt_Qlt. rewrite Z.pow_succ_r in Ha2 by exact Ha. lia. }
  assert (HB1 : 2 ^ b <= inject_Z (Zpos d)).
  { rewrite <- HB. rewrite <- Zle_Qle. exact Hb1. }
  assert (HB2 : inject_Z (Zpos d) < 2 * 2 ^ b).
  { rewrite <- HB. change 2 with (inject_Z 2) at 1. rewrite <- inject_Z_mult.
    rewrite <- Zlt_Qlt. rewrite Z.pow_succ_r in Hb2 by exact Hb. lia. }
  assert (Hk : 2 ^ (a - b) == 2 ^ a / 2 ^ b).
  { apply Qpower_minus. discriminate. }
  assert (Hx' : n # d == inject_Z n / inject_Z (Zpos d)) by apply Qmake_Qdiv.
  pose proof (pow2_pos a) as PA. pose proof (pow2_pos b) as PB.
  assert (PD : 0 < inject_Z (Zpos d)) by reflexivity.
  destruct (Qle_bool (2 ^ (a - b)) (n # d)) eqn:E.
  - apply Qle_bool_iff in E. split; [exact E|].
    rewrite pow2_succ, Hk, Hx'.
    apply Qlt_shift_div_r; [exact PD|].
    setoid_replace (2 * (2 ^ a / 2 ^ b) * inject_Z (Z.pos d))
      with ((2 * 2 ^ a) * (inject_Z (Z.pos d) / 2 ^ b))
      using relation Qeq by (field; lra).
    assert (1 <= inject_Z (Z.pos d) / 2 ^ b).
    { apply Qle_shift_div_l; [exact PB|]. lra. }
    nra.
  - assert (E' : n # d < 2 ^ (a - b)).
    { apply Qnot_le_lt. intros H. apply Qle_bool_iff in H. congruence. }
    split.
    + rewrite pow2_pred, Hk, Hx'.
      apply Qle_shift_div_l; [exact PD|].
      setoid_replace (2 ^ a / 2 ^ b / 2 * inject_Z (Z.pos d))
        with (2 ^ a * (inject_Z (Z.pos d) / (2 * 2 ^ b)))
        using relation Qeq by (field; lra).
      assert (inject_Z (Z.pos d) / (2 * 2 ^ b) <= 1).
      { apply Qle_shift_div_r; [lra|]. lra. }
      nra.
    + replace (a - b - 1 + 1)%Z with (a - b)%Z by lia. exact E'.
Qed.

Lemma ilog2_lt x n : 0 < x -> x < 2 ^ n -> (ilog2 x < n)%Z.
Proof.
  intros Hx Hn. destruct (ilog2_spec x Hx) as [Hlo _].
  destruct (Z_lt_le_dec (ilog2 x) n) as [|Hge]; [assumption|].
  assert (2 ^ n <= 2 ^ ilog2 x).
  { apply Qpower_le_compat_l; [exact Hge|]. discriminate. }
  lra.
Qed.

(** [nearest_even] is within one half of its argument, and leaves
    integers alone. *)
Lemma nearest_even_err q :
  inject_Z (nearest_even q) - q <= 1 # 2 /\
  q - inject_Z (nearest_even q) <= 1 # 2.
Proof.
  unfold nearest_even.
  pose proof (Qfloor_le q) as Hlo. pose proof (Qlt_floor q) as Hhi.
  rewrite inject_Z_plus in Hhi. change (inject_Z 1) with 1 in Hhi.
  destruct (Qcompare_spec (q - inject_Z (Qfloor q)) (1 # 2)) as [E|E|E].
  - destruct (Z.even (Qfloor q)).
    + lra.
    + rewrite inject_Z_plus. change (inject_Z 1) with 1. lra.
  - lra.
  - rewrite inject_Z_plus. change (inject_Z 1) with 1. lra.
Qed.

Lemma nearest_even_Z q n : q == inject_Z n -> nearest_even q = n.
Proof.
  intros H. unfold nearest_even.
  assert (Hf : Qfloor q = n).
  { rewrite H. apply Qfloor_Z. }
  rewrite Hf.
  destruct (Qcompare_spec (q - inject_Z n) (1 # 2)) as [E|E|E].
  - lra.
  - reflexivity.
  - lra.
Qed.

Lemma ulp_bound x :
  0 < x ->
  0 < 2 ^ (ilog2 x - 52) /\
  2 ^ (ilog2 x - 52) * (1 # 2) <= x * binary64_eps.
Proof.
  intros Hx. destruct (ilog2_spec x Hx) as [Hlo _].
  split; [apply pow2_pos|].
  assert (H : 2 ^ (ilog2 x - 52) == 2 ^ ilog2 x / 2 ^ 52).
  { apply Qpower_minus. discriminate. }
  rewrite H, pow2_52. unfold binary64_eps.
  unfold Qdiv. change (/ 4503599627370496) with (1 # 4503599627370496).
  lra.
Qed.

Lemma round_pos_err x :
  0 < x ->
  x * (1 - binary64_eps) <= round_pos x /\
  round_pos x <= x * (1 + binary64_eps).
Proof.
  intros Hx. unfold round_pos.
  destruct (ulp_bound x Hx) as [Hu Hb].
  set (u := 2 ^ (ilog2 x - 52)) in *.
  destruct (nearest_even_err (x / u)) as [H1 H2].
  set (N := inject_Z (nearest_even (x / u))) in *.
  assert (Hq : x / u * u == x) by (field; lra).
  assert (G1 : (N - x / u) * u <= (1 # 2) * u).
  { apply Qmult_le_compat_r; lra. }
  assert (G2 : (x / u - N) * u <= (1 # 2) * u).
  { apply Qmult_le_compat_r; lra. }
  split; lra.
Qed.

Lemma rnd_pos x : 0 < x -> rnd x = round_pos x.
Proof.
  intros H. unfold rnd. destruct (Qcompare_spec x 0); [lra|lra|reflexivity].
Qed.

Lemma rnd_neg x : x < 0 -> rnd x = - round_pos (- x).
Proof.
  intros H. unfold rnd. destruct (Qcompare_spec x 0); [lra|reflexivity|lra].
Qed.

Lemma rnd_zero x : x == 0 -> rnd x = 0.
Proof.
  intros H. unfold rnd. destruct (Qcompare_spec x 0); [reflexivity|lra|lra].
Qed.

(** One rounding moves a Number by at most the fraction [2^-53] of
    itself, and keeps its sign. *)
Lemma rnd_err x :
  (0 < x /\ x * (1 - binary64_eps) <= rnd x <= x * (1 + binary64_eps)) \/
  (x == 0 /\ rnd x == 0) \/
  (x < 0 /\ x * (1 + binary64_eps) <= rnd x <= x * (1 - binary64_eps)).
Proof.
  destruct (Qcompare_spec x 0) as [E|E|E].
  - right. left. split; [exact E|]. rewrite rnd_zero by exact E. reflexivity.
  - right. right. split; [exact E|]. rewrite rnd_neg by exact E.
    destruct (round_pos_err (- x)) as [H1 H2]; [lra|]. split; lra.
  - left. split; [exact E|]. rewrite rnd_pos by exact E.
    apply round_pos_err, E.
Qed.

(** Halves of integers below [2^53] are binary64 values. *)
Lemma rnd_half_exact x k :
  x == inject_Z k / 2 -> (0 <= k < 2 ^ 53)%Z -> rnd x == x.
Proof.
  intros Hx [Hk0 Hk].
  destruct (Z.eq_dec k 0%Z) as [->|Hne].
  { rewrite rnd_zero; [|rewrite Hx; reflexivity]. rewrite Hx. reflexivity. }
  assert (Hpos : 0 < x).
  { rewrite Hx. apply Qlt_shift_div_l; [reflexivity|].
    rewrite Qmult_0_l. change 0 with (inject_Z 0). rewrite <- Zlt_Qlt. lia. }
  rewrite rnd_pos by exact Hpos. unfold round_pos.
  assert (He : (ilog2 x < 52)%Z).
  { apply ilog2_lt; [exact Hpos|]. rewrite Hx, pow2_52.
    apply Qlt_shift_div_r; [reflexivity|].
    change (4503599627370496 * 2) with (inject_Z (2 ^ 53)).
    rewrite <- Zlt_Qlt. exact Hk. }
  set (m := (51 - ilog2 x)%Z).
  assert (Hm : (0 <= m)%Z) by (unfold m; lia).
  replace (ilog2 x - 52)%Z with (- (m + 1))%Z by (unfold m; lia).
  assert (Hu : 2 ^ (- (m + 1)) == / (2 * inject_Z (2 ^ m))).
  { rewrite Qpower_opp, pow2_succ, pow2_Z by exact Hm. reflexivity. }
  assert (Hp : 0 < inject_Z (2 ^ m)).
  { rewrite pow2_Z by exact Hm. apply pow2_pos. }
  assert (Hq : x / 2 ^ (- (m + 1)) == inject_Z (k * 2 ^ m)).
  { rewrite Hu, Hx, inject_Z_mult. field. lra. }
  rewrite (nearest_even_Z _ _ Hq). rewrite Hu, Hx, inject_Z_mult. field. lra.
Qed.

Lemma gt_true a b : gt a b = true <-> b < a.
Proof.
  unfold gt. destruct (Qcompare_spec a b); split; intros;
    try lra; try discriminate; reflexivity.
Qed.

Lemma gt_false a b : gt a b = false <-> a <= b.
Proof.
  unfold gt. destruct (Qcompare_spec a b); split; intros;
    try lra; try discriminate; reflexivity.
Qed.

Lemma fdiv_16_9 : fdiv 16 9 = ratio_16_9.
Proof. vm_compute. reflexivity. Qed.

Lemma rnd_tolerance : rnd (1 # 100) = tolerance.
Proof. vm_compute. reflexivity. Qed.

(** An offset is the rounded half of a difference of sizes, exactly. *)
Lemma offset_exact new old :
  (0 <= old <= new)%Z -> (new < 2 ^ 51)%Z ->
  Math_round (fdiv (fsub (inject_Z new) (inject_Z old)) 2)
  = ((new - old + 1) / 2)%Z.
Proof.
  intros H1 H2. unfold fdiv, fsub, Math_round.
  assert (E1 : rnd (inject_Z new - inject_Z old) == inject_Z (new - old)).
  { rewrite (rnd_half_exact _ (2 * (new - old))).
    - unfold Z.sub. rewrite inject_Z_plus, inject_Z_opp. reflexivity.
    - unfold Z.sub. rewrite inject_Z_mult, inject_Z_plus, inject_Z_opp. field.
    - lia. }
  assert (E2 : rnd (rnd (inject_Z new - inject_Z old) / 2)
               == inject_Z (new - old) / 2).
  { rewrite (rnd_half_exact _ (new - old)).
    - rewrite E1. reflexivity.
    - rewrite E1. reflexivity.
    - lia. }
  rewrite E2.
  rewrite Zdiv_Qdiv. apply Qfloor_comp.
  rewrite inject_Z_plus. change (inject_Z 1) with 1. change (inject_Z 2) with 2.
  field.
Qed.

End Rounding.

(** ** Padding to 16:9 *)

Section Padding.

Local Open Scope Q_scope.

Variables w h : Z.
Hypothesis Hw : (0 < w < 2 ^ 32)%Z.
Hypothesis Hh : (0 < h < 2 ^ 32)%Z.

Let a : Q := inject_Z w / inject_Z h.

Lemma ratio_facts :
  0 < inject_Z w /\ inject_Z w <= 4294967295 /\
  1 <= inject_Z h /\ inject_Z h <= 4294967295 /\
  a * inject_Z h == inject_Z w /\ 0 < a /\ a <= inject_Z w.
Proof.
  assert (W1 : 0 < inject_Z w).
  { change 0 with (inject_Z 0). rewrite <- Zlt_Qlt. lia. }
  assert (W2 : inject_Z w <= 4294967295).
  { change 4294967295 with (inject_Z 4294967295). rewrite <- Zle_Qle. lia. }
  assert (H1 : 1 <= inject_Z h).
  { change 1 with (inject_Z 1). rewrite <- Zle_Qle. lia. }
  assert (H2 : inject_Z h <= 4294967295).
  { change 4294967295 with (inject_Z 4294967295). rewrite <- Zle_Qle. lia. }
  assert (A1 : a * inject_Z h == inject_Z w).
  { unfold a. field. lra. }
  assert (A2 : 0 < a).
  { unfold a. apply Qlt_shift_div_l; lra. }
  repeat split; try assumption.
  unfold a. apply Qle_shift_div_r; [lra|]. nra.
Qed.

(** The canvas is wider than 16:9 by more than the tolerance: the new
    height covers the old one and is the 16:9 partner of the width,
    rounded. *)
Lemma wide_case :
  gt (rnd a) ratio_16_9 = true ->
  gt (Qabs (rnd (rnd a - ratio_16_9))) tolerance = true ->
  (h <= Math_round (rnd (inject_Z w / ratio_16_9)))%Z /\
  (-8 <= 16 * Math_round (rnd (inject_Z w / ratio_16_9)) - 9 * w <= 8)%Z /\
  (16 # 9) + (1 # 100) - slack <= a.
Proof.
  intros Hgt Hpad.
  destruct ratio_facts as (W1 & W2 & H1 & H2 & A1 & A2 & A3).
  apply gt_true in Hgt, Hpad.
  destruct (rnd_err a) as [(_ & R1 & R2)|[(? & _)|(? & _)]]; [|lra..].
  set (r := rnd a) in *.
  assert (Hd : tolerance < rnd (r - ratio_16_9) /\
               rnd (r - ratio_16_9)
               <= (r - ratio_16_9) * (1 + binary64_eps)).
  { destruct (rnd_err (r - ratio_16_9))
      as [(Z0 & D1 & D2)|[(Z0 & _)|(Z0 & _)]]; [|lra..].
    rewrite Qabs_pos in Hpad; [lra|]. unfold binary64_eps in *. lra. }
  destruct Hd as [D1 D2].
  assert (Ha3 : a <= 3 \/ 3 < a) by (destruct (Qlt_le_dec 3 a); auto).
  assert (HaT : ratio_16_9 < a /\ (16 # 9) + (1 # 100) - slack <= a).
  { unfold binary64_eps, ratio_16_9, tolerance, slack in *.
    destruct Ha3; split; lra. }
  destruct HaT as [HaT Hout].
  assert (HwT : ratio_16_9 * inject_Z h < inject_Z w).
  { unfold ratio_16_9 in *. nra. }
  assert (Y0 : inject_Z w / ratio_16_9
               == inject_Z w * (4503599627370496 # 8006399337547548)).
  { unfold ratio_16_9. field. }
  destruct (rnd_err (inject_Z w / ratio_16_9))
    as [(_ & Y1 & Y2)|[(Z0 & _)|(Z0 & _)]];
    [|unfold ratio_16_9 in *; lra..].
  set (y := rnd (inject_Z w / ratio_16_9)) in *.
  pose proof (Qfloor_le (y + (1 # 2))) as F1.
  pose proof (Qlt_floor (y + (1 # 2))) as F2.
  rewrite inject_Z_plus in F2. change (inject_Z 1) with 1 in F2.
  unfold Math_round. set (H := Qfloor (y + (1 # 2))) in *.
  rewrite Y0 in Y1, Y2.
  split; [|split; [|exact Hout]].
  - rewrite <- (Qfloor_Z h). apply Qfloor_resp_le.
    unfold binary64_eps, ratio_16_9 in *. lra.
  - assert (B : inject_Z (-9) < inject_Z (16 * H - 9 * w) /\
                inject_Z (16 * H - 9 * w) < inject_Z 9).
    { unfold Z.sub. rewrite inject_Z_plus, inject_Z_opp, !inject_Z_mult.
      change (inject_Z 16) with 16. change (inject_Z 9) with 9.
      change (inject_Z (-9)) with (-9). unfold binary64_eps in *.
      split; lra. }
    destruct B as [B1 B2]. rewrite <- Zlt_Qlt in B1, B2. lia.
Qed.

(** The canvas is taller than 16:9 by more than the tolerance: the new
    width covers the old one and is the 16:9 partner of the height,
    rounded. *)
Lemma tall_case :
  gt (rnd a) ratio_16_9 = false ->
  gt (Qabs (rnd (rnd a - ratio_16_9))) tolerance = true ->
  (w <= Math_round (rnd (inject_Z h * ratio_16_9)))%Z /\
  (-8 <= 9 * Math_round (rnd (inject_Z h * ratio_16_9)) - 16 * h <= 8)%Z /\
  a <= (16 # 9) - (1 # 100) + slack.
Proof.
  intros Hgt Hpad.
  destruct ratio_facts as (W1 & W2 & H1 & H2 & A1 & A2 & A3).
  apply gt_false in Hgt. apply gt_true in Hpad.
  destruct (rnd_err a) as [(_ & R1 & R2)|[(? & _)|(? & _)]]; [|lra..].
  set (r := rnd a) in *.
  assert (Hd : rnd (r - ratio_16_9) < - tolerance /\
               (r - ratio_16_9) * (1 + binary64_eps)
               <= rnd (r - ratio_16_9)).
  { destruct (rnd_err (r - ratio_16_9))
      as [(Z0 & D1 & D2)|[(Z0 & D0)|(Z0 & D1 & D2)]].
    - lra.
    - rewrite D0 in Hpad. unfold tolerance in Hpad. discriminate Hpad.
    - rewrite Qabs_neg in Hpad; [lra|]. unfold binary64_eps in *. lra. }
  destruct Hd as [D1 D2].
  assert (HaT : a < ratio_16_9 /\ a <= (16 # 9) - (1 # 100) + slack).
  { unfold binary64_eps, ratio_16_9, tolerance, slack in *. split; lra. }
  destruct HaT as [HaT Hout].
  assert (HwT : inject_Z w < ratio_16_9 * inject_Z h).
  { unfold ratio_16_9 in *. nra. }
  destruct (rnd_err (inject_Z h * ratio_16_9))
    as [(_ & Y1 & Y2)|[(Z0 & _)|(Z0 & _)]];
    [|unfold ratio_16_9 in *; lra..].
  set (y := rnd (inject_Z h * ratio_16_9)) in *.
  pose proof (Qfloor_le (y + (1 # 2))) as F1.
  pose proof (Qlt_floor (y + (1 # 2))) as F2.
  rewrite inject_Z_plus in F2. change (inject_Z 1) with 1 in F2.
  unfold Math_round. set (W := Qfloor (y + (1 # 2))) in *.
  split; [|split; [|exact Hout]].
  - rewrite <- (Qfloor_Z w). apply Qfloor_resp_le.
    unfold binary64_eps, ratio_16_9 in *. lra.
  - assert (B : inject_Z (-9) < inject_Z (9 * W - 16 * h) /\
                inject_Z (9 * W - 16 * h) < inject_Z 9).
    { unfold Z.sub. rewrite inject_Z_plus, inject_Z_opp, !inject_Z_mult.
      change (inject_Z 16) with 16. change (inject_Z 9) with 9.
      change (inject_Z (-9)) with (-9).
      unfold binary64_eps, ratio_16_9 in *. split; lra. }
    destruct B as [B1 B2]. rewrite <- Zlt_Qlt in B1, B2. lia.
Qed.

(** The test of the source passes the canvas through exactly when its
    ratio is within 0.01 of 16:9, up to [slack]. *)
Lemma within_tolerance :
  gt (Qabs (rnd (rnd a - ratio_16_9))) tolerance = false ->
  (16 # 9) - (1 # 100) - slack <= a /\ a <= (16 # 9) + (1 # 100) + slack.
Proof.
  intros Hpad.
  destruct ratio_facts as (W1 & W2 & H1 & H2 & A1 & A2 & A3).
  apply gt_false in Hpad.
  destruct (rnd_err a) as [(_ & R1 & R2)|[(? & _)|(? & _)]]; [|lra..].
  set (r := rnd a) in *.
  destruct (rnd_err (r - ratio_16_9))
    as [(Z0 & D1 & D2)|[(Z0 & D0)|(Z0 & D1 & D2)]].
  - rewrite Qabs_pos in Hpad by (unfold binary64_eps in *; lra).
    unfold binary64_eps, ratio_16_9, tolerance, slack in *. split; lra.
  - unfold binary64_eps, ratio_16_9, tolerance, slack in *. split; lra.
  - rewrite Qabs_neg in Hpad by (unfold binary64_eps in *; lra).
    unfold binary64_eps, ratio_16_9, tolerance, slack in *. split; lra.
Qed.

End Padding.

(** C5. A captured canvas of positive size (sizes are below [2^32]) is
    either passed through unchanged, and then its ratio is within 0.01 of
    16:9; or it is drawn on a new canvas that keeps one of its sides and
    is at least as large in both, whose other side is the 16:9 partner of
    the kept one rounded to a whole pixel ([|9 W - 16 H| <= 8]), and on
    which it sits at offsets that are the rounded halves of the size
    differences; this happens only when the ratio is further than 0.01
    from 16:9 ([slack] apart, the test being made on rounded Numbers). *)
Theorem export_padded_to_16_9 (ex : exporter) (canvas : Canvas) :
  (0 < width canvas < 2 ^ 32)%Z →
  (0 < height canvas < 2 ^ 32)%Z →
  context2d ex = Returned tt →
  let w := width canvas in
  let h := height canvas in
  let ratio := (inject_Z w / inject_Z h)%Q in
  ∃ final : Canvas,
    pad_16_9 ex canvas = Returned final ∧
    (w ≤ width final)%Z ∧ (h ≤ height final)%Z ∧
    ((final = canvas ∧
      ((16 # 9) - (1 # 100) - slack <= ratio)%Q ∧
      (ratio <= (16 # 9) + (1 # 100) + slack)%Q)
     ∨
     (∃ W H : Z,
        final = Padded W H ((W - w + 1) / 2) ((H - h + 1) / 2) canvas ∧
        (W = w ∨ H = h) ∧
        (-8 ≤ 9 * W - 16 * H ≤ 8)%Z ∧
        ((ratio <= (16 # 9) - (1 # 100) + slack)%Q ∨
         ((16 # 9) + (1 # 100) - slack <= ratio)%Q))).
Proof.
  intros Hw Hh Hctx w h ratio. unfold pad_16_9. fold w h.
  rewrite fdiv_16_9, rnd_tolerance, Hctx. cbv zeta.
  destruct (gt (Qabs (fsub (fdiv (inject_Z w) (inject_Z h)) ratio_16_9))
              tolerance) eqn:Hpad.
  - unfold fsub, fdiv in Hpad.
    destruct (gt (fdiv (inject_Z w) (inject_Z h)) ratio_16_9) eqn:Hgt.
    + unfold fdiv in Hgt.
      destruct (wide_case w h Hw Hh Hgt Hpad) as (H1 & H2 & H3).
      fold (fdiv (inject_Z w) ratio_16_9) in H1, H2.
      set (H := Math_round (fdiv (inject_Z w) ratio_16_9)) in *.
      rewrite (offset_exact w w) by lia.
      rewrite (offset_exact H h) by lia.
      eexists. split; [reflexivity|]. cbn [width height].
      split; [lia|]. split; [lia|]. right. exists w, H.
      split; [reflexivity|]. split; [by left|]. split; [lia|by right].
    + unfold fdiv in Hgt.
      destruct (tall_case w h Hw Hh Hgt Hpad) as (H1 & H2 & H3).
      fold (fmul (inject_Z h) ratio_16_9) in H1, H2.
      set (W := Math_round (fmul (inject_Z h) ratio_16_9)) in *.
      rewrite (offset_exact W w) by lia.
      rewrite (offset_exact h h) by lia.
      eexists. split; [reflexivity|]. cbn [width height].
      split; [lia|]. split; [lia|]. right. exists W, h.
      split; [reflexivity|]. split; [by right|]. split; [lia|by left].
  - unfold fsub, fdiv in Hpad.
    destruct (within_tolerance w h Hw Hh Hpad) as [H1 H2].
    exists canvas. split; [reflexivity|]. split; [lia|]. split; [lia|].
    left. by repeat split.
Qed.

Lemma export_padded_to_16_9_witness :
  pad_16_9 ideal_exporter sample_canvas
  = Returned (Padded 2800 1575 0 188 sample_canvas).
Proof.
  destruct (export_padded_to_16_9 ideal_exporter sample_canvas)
    as (final & Hfinal & _); [split; reflexivity..|reflexivity|].
  rewrite Hfinal. vm_compute in Hfinal.
  injection Hfinal as <-. reflexivity.
Defined.

(** ** Agreement with the machine *)

(** On the constants of the export and on the operations it performs on
    sample canvases, [rnd] gives the Numbers that binary64 hardware
    gives. *)
Example rnd_agrees_with_hardware :
  same_number (16 / 9)%float (fdiv 16 9) = true ∧
  same_number (1 / 100)%float (rnd (1 # 100)) = true ∧
  same_number (2800 / 1200)%float (fdiv 2800 1200) = true ∧
  same_number (2800 / 1200 - 16 / 9)%float
    (fsub (fdiv 2800 1200) (fdiv 16 9)) = true ∧
  same_number (2800 / (16 / 9))%float (fdiv 2800 (fdiv 16 9)) = true ∧
  same_number (1200 * (16 / 9))%float (fmul 1200 (fdiv 16 9)) = true ∧
  same_number (1609 / 900 - 16 / 9)%float
    (fsub (fdiv 1609 900) (fdiv 16 9)) = true ∧
  same_number (8 / (16 / 9))%float (fdiv 8 (fdiv 16 9)) = true ∧
  same_number ((1575 - 1200) / 2)%float (fdiv (fsub 1575 1200) 2) = true.
Proof. vm_compute. by repeat split. Qed.

(** ** What a render writes, and what it reads *)

Lemma colours_only_refl p : colours_only p p.
Proof. exists (courseColors p), (colorIndex p). by destruct p. Qed.

Lemma colours_only_trans p q r :
  colours_only p q → colours_only q r → colours_only p r.
Proof. intros (m & i & ->) (m' & i' & ->). by exists m', i'. Qed.

Lemma getCourseColor_colours_only c p : colours_only p (getCourseColor c p).2.
Proof.
  unfold getCourseColor. cbn [snd].
  destruct (courseColors p !! c); [apply colours_only_refl|].
  by eexists _, _.
Qed.

Lemma render_slot_colours_only hbc dayIndex dd acc slot :
  colours_only acc.1 (render_slot hbc dayIndex dd acc slot).1.
Proof.
  destruct acc as [p html]. unfold render_slot. cbn [fst].
  destruct (is_break_column hbc slot).
  { destruct (dayIndex =? 0)%nat; apply colours_only_refl. }
  destruct (dd !! slot) as [c|]; [|apply colours_only_refl].
  destruct (truthy (code c)); [|apply colours_only_refl].
  pose proof (getCourseColor_colours_only (ToString (code c)) p) as H.
  by destruct (getCourseColor (ToString (code c)) p).
Qed.

Lemma slot_loop_colours_only hbc dayIndex dd slots acc :
  colours_only acc.1 (fold_left (render_slot hbc dayIndex dd) slots acc).1.
Proof.
  revert acc. induction slots as [|slot slots IH]; intros acc.
  - apply colours_only_refl.
  - cbn [fold_left]. eapply colours_only_trans; [|apply IH].
    apply render_slot_colours_only.
Qed.

Lemma render_day_colours_only data hbc acc d :
  colours_only acc.1 (render_day data hbc acc d).1.
Proof.
  destruct acc as [p html], d as [dayIndex day]. unfold render_day.
  pose proof (slot_loop_colours_only hbc dayIndex (dayDataOf data day)
                (time_slots data)
                (p, html ++ ROW_OPEN_1 ++ day ++ ROW_OPEN_2)) as H.
  by destruct (fold_left _ (time_slots data) _).
Qed.

Lemma day_loop_colours_only data hbc ds acc :
  colours_only acc.1 (fold_left (render_day data hbc) ds acc).1.
Proof.
  revert acc. induction ds as [|d ds IH]; intros acc.
  - apply colours_only_refl.
  - cbn [fold_left]. eapply colours_only_trans; [|apply IH].
    apply render_day_colours_only.
Qed.

(** The page after a render, field by field. *)
Lemma renderTimetable_shape data p :
  ∃ m i html,
    renderTimetable data p
    = mkPage m i (lit "Section_" ++ ident_to_string (section data))
        (lit "SECTION " ++ ident_to_string (section data)) html false
        (loading_hidden p) (sectionSelect_value p) (downloadImageBtn p)
        (downloadPdfBtn p) (alerts p) (console_errors p) (requests p)
        (captures p) (downloads p).
Proof.
  unfold renderTimetable.
  match goal with
  | |- context [fold_left (render_day ?d ?b) ?ds ?acc] =>
      pose proof (day_loop_colours_only d b ds acc) as H;
      destruct (fold_left (render_day d b) ds acc) as [p' html']
  end.
  cbn [fst] in H. destruct H as (m & i & ->).
  by eexists _, _, _.
Qed.

(** X1. A render writes the colour table and its counter, the section
    name and title, the table and the visibility of its container, and
    nothing else on the page. *)
Theorem renderTimetable_frame (data : Timetable) (p : page) :
  let q := renderTimetable data p in
  currentSectionName q = lit "Section_" ++ ident_to_string (section data) ∧
  sectionTitle q = lit "SECTION " ++ ident_to_string (section data) ∧
  timetableContainer_hidden q = false ∧
  loading_hidden q = loading_hidden p ∧
  sectionSelect_value q = sectionSelect_value p ∧
  downloadImageBtn q = downloadImageBtn p ∧
  downloadPdfBtn q = downloadPdfBtn p ∧
  alerts q = alerts p ∧
  console_errors q = console_errors p ∧
  requests q = requests p ∧
  captures q = captures p ∧
  downloads q = downloads p.
Proof.
  intros q. subst q.
  destruct (renderTimetable_shape data p) as (m & i & html & ->).
  by repeat split.
Qed.

Lemma table_of_unique seen p q :
  table_of seen p → table_of seen q →
  courseColors p = courseColors q ∧ colorIndex p = colorIndex q.
Proof.
  intros [Hi Hm] [Hi' Hm']. split; [|congruence].
  apply map_eq. intros c. by rewrite Hm, Hm'.
Qed.

(** X2. The last render wins: rendering [data] on a page that shows
    another timetable leaves the page that rendering [data] directly
    leaves. In particular a render repeated changes nothing. *)
Theorem renderTimetable_forgets_previous (data previous : Timetable)
    (p : page) :
  renderTimetable data (renderTimetable previous p) = renderTimetable data p.
Proof.
  destruct (renderTimetable_spec data (renderTimetable previous p)) as [S1 T1].
  destruct (renderTimetable_spec data p) as [S2 T2].
  destruct (table_of_unique _ _ _ T1 T2) as [C I].
  destruct (renderTimetable_shape data (renderTimetable previous p))
    as (m1 & i1 & h1 & E1).
  destruct (renderTimetable_shape data p) as (m2 & i2 & h2 & E2).
  destruct (renderTimetable_shape previous p) as (m0 & i0 & h0 & E0).
  rewrite E1 in S1, C, I |- *. rewrite E2 in S2, C, I |- *.
  cbn [timetable_innerHTML courseColors colorIndex] in S1, S2, C, I.
  rewrite E0.
  cbn [loading_hidden sectionSelect_value downloadImageBtn downloadPdfBtn
       alerts console_errors requests captures downloads].
  congruence.
Qed.

Lemma fold_left_ext_in {A B} (f g : A → B → A) (l : list B) (a : A) :
  (∀ x acc, x ∈ l → f acc x = g acc x) →
  fold_left f l a = fold_left g l a.
Proof.
  revert a. induction l as [|x l IH]; intros a H; [done|].
  cbn [fold_left]. rewrite H by (apply elem_of_cons; by left).
  apply IH. intros y acc Hy. apply H. apply elem_of_cons; by right.
Qed.

Lemma existsb_ext_in {A} (f g : A → bool) (l : list A) :
  (∀ x, x ∈ l → f x = g x) → existsb f l = existsb g l.
Proof.
  induction l as [|x l IH]; intros H; [done|].
  cbn [existsb]. rewrite H by (apply elem_of_cons; by left).
  f_equal. apply IH. intros y Hy. apply H. apply elem_of_cons; by right.
Qed.

Lemma hasBreakClasses_ext d1 d2 :
  (∀ day, day ∈ DAYS → dayDataOf d1 day !! 6 = dayDataOf d2 day !! 6) →
  hasBreakClasses d1 = hasBreakClasses d2.
Proof.
  intros H. unfold hasBreakClasses, hasLongCodes, daysWithBreakData.
  rewrite (existsb_ext_in _ (λ day, has_long_code (dayDataOf d2 day !! 6)))
    by (intros day Hd; by rewrite H).
  rewrite (List.filter_ext_in _ (λ day, has_code (dayDataOf d2 day !! 6)))
    by (intros day Hd%list_elem_of_In; by rewrite H).
  reflexivity.
Qed.

(** X3. A render reads, besides the section, the slots and their times,
    only the cells of Monday to Friday at the listed slots and at slot
    6: two timetables that agree on these give the same page, whatever
    else they hold (another day, a slot that is not listed). *)
Theorem renderTimetable_reads_grid_only (d1 d2 : Timetable) (p : page) :
  section d1 = section d2 →
  time_slots d1 = time_slots d2 →
  slot_times d1 = slot_times d2 →
  (∀ day slot, day ∈ DAYS → slot ∈ time_slots d1 ∨ slot = 6 →
     dayDataOf d1 day !! slot = dayDataOf d2 day !! slot) →
  renderTimetable d1 p = renderTimetable d2 p.
Proof.
  intros Hs Ht Hst H.
  assert (Hb : hasBreakClasses d1 = hasBreakClasses d2).
  { apply hasBreakClasses_ext. intros day Hd. apply H; auto. }
  unfold renderTimetable. rewrite <- Hs, <- Ht, <- Hst, <- Hb.
  rewrite (fold_left_ext_in (render_day d1 (hasBreakClasses d1))
             (render_day d2 (hasBreakClasses d1))); [done|].
  intros [? ?] [q html] Hd.
  apply elem_of_lookup_imap in Hd as (dayIndex & day & [= -> ->] & Hx).
  unfold render_day. rewrite <- Ht.
  rewrite (fold_left_ext_in
             (render_slot (hasBreakClasses d1) dayIndex (dayDataOf d1 day))
             (render_slot (hasBreakClasses d1) dayIndex (dayDataOf d2 day)));
    [done|].
  intros slot [q' html'] Hslot. unfold render_slot.
  rewrite (H day slot); [done| |by left].
  by eapply list_elem_of_lookup_2.
Qed.

Lemma renderTimetable_reads_grid_only_witness :
  renderTimetable sample_timetable blank_page
  = renderTimetable crowded_timetable blank_page.
Proof.
  apply renderTimetable_reads_grid_only; [reflexivity..|].
  intros day slot Hd Hs.
  assert (Hslot : slot = 1 ∨ slot = 6 ∨ slot = 7).
  { destruct Hs as [Hs| ->]; [|auto].
    cbn [time_slots sample_timetable] in Hs.
    repeat (apply elem_of_cons in Hs as [->|Hs]; [auto|]).
    by apply elem_of_nil in Hs. }
  unfold DAYS in Hd.
  repeat (apply elem_of_cons in Hd as [->|Hd];
          [destruct Hslot as [->|[->| ->]]; vm_compute; reflexivity|]).
  by apply elem_of_nil in Hd.
Defined.

(** ** The palette *)

Lemma NoDup_COLORS : NoDup COLORS.
Proof. apply (bool_decide_unpack _). by vm_compute. Qed.

Lemma COLORS_at_inj a b :
  (a < 8)%nat → (b < 8)%nat → COLORS_at a = COLORS_at b → a = b.
Proof.
  intros Ha Hb. unfold COLORS_at.
  destruct (lookup_lt_is_Some_2 COLORS a) as [x Hx];
    [by rewrite COLORS_length|].
  destruct (lookup_lt_is_Some_2 COLORS b) as [y Hy];
    [by rewrite COLORS_length|].
  rewrite Hx, Hy. cbn [from_option]. intros [= ->].
  by eapply NoDup_lookup; [apply NoDup_COLORS|..].
Qed.

(** X4. Two codes of a render have the same colour exactly when their
    ranks in first-seen order are congruent modulo 8: the palette is
    reused from the ninth distinct code on, and with at most eight
    distinct codes no two of them share a colour. *)
Theorem colours_shared_modulo_8 (data : Timetable) (p : page)
    (i j : nat) (c1 c2 : jstring) :
  let seen := first_seen (codes_in_order data) in
  let colour c := courseColors (renderTimetable data p) !! c in
  seen !! i = Some c1 →
  seen !! j = Some c2 →
  (colour c1 = colour c2 ↔ (i mod 8 = j mod 8)%nat) ∧
  ((length seen ≤ 8)%nat → (colour c1 = colour c2 ↔ c1 = c2)).
Proof.
  intros seen colour Hi Hj. subst colour. cbv beta.
  destruct (renderTimetable_spec data p) as [_ T]. fold seen in T.
  pose proof (first_seen_NoDup (codes_in_order data)) as ND. fold seen in ND.
  rewrite (table_of_lookup _ _ _ _ T ND Hi), (table_of_lookup _ _ _ _ T ND Hj).
  assert (E : Some (COLORS_at (i mod 8)) = Some (COLORS_at (j mod 8))
              ↔ (i mod 8 = j mod 8)%nat).
  { split; [|by intros ->].
    intros H. apply (inj Some) in H.
    apply COLORS_at_inj in H; [done|..]; apply Nat.mod_upper_bound; lia. }
  split; [exact E|]. intros Hlen.
  pose proof (lookup_lt_Some _ _ _ Hi). pose proof (lookup_lt_Some _ _ _ Hj).
  rewrite E, !Nat.mod_small by lia. split.
  - intros ->. congruence.
  - intros ->. by eapply NoDup_lookup.
Qed.

Lemma colours_shared_modulo_8_witness :
  courseColors (renderTimetable sample_timetable blank_page) !! lit "CS101"
  = courseColors (renderTimetable sample_timetable blank_page) !! lit "MA2"
  ↔ lit "CS101" = lit "MA2".
Proof.
  apply (colours_shared_modulo_8 sample_timetable blank_page 0 1);
    [reflexivity|reflexivity|vm_compute; lia].
Defined.

Lemma getCourseColor_subseteq c p :
  courseColors p ⊆ courseColors (getCourseColor c p).2 ∧
  (colorIndex p ≤ colorIndex (getCourseColor c p).2 ≤ S (colorIndex p))%nat ∧
  is_Some (courseColors (getCourseColor c p).2 !! c).
Proof.
  unfold getCourseColor. cbn [snd].
  destruct (courseColors p !! c) eqn:E.
  - split; [done|]. split; [lia|]. by rewrite E.
  - cbn [courseColors colorIndex set_colors].
    split; [by apply insert_subseteq|].
    split; [lia|]. rewrite lookup_insert_eq. by eexists.
Qed.

(** X5. Whatever the page, a run of calls of [getCourseColor] only adds
    to the colour table: the colour of a code that has one is never
    replaced, every code of the run has a colour afterwards, and the
    counter grows by at most one per call. Nothing else on the page
    changes. *)
Theorem getCourseColor_only_adds (codes : list jstring) (p : page) :
  courseColors p ⊆ courseColors (color_all codes p) ∧
  (colorIndex p ≤ colorIndex (color_all codes p)
   ≤ colorIndex p + length codes)%nat ∧
  (∀ c, c ∈ codes → is_Some (courseColors (color_all codes p) !! c)) ∧
  colours_only p (color_all codes p).
Proof.
  revert p. induction codes as [|c codes IH]; intros p.
  - unfold color_all. cbn [fold_left length]. split; [done|]. split; [lia|].
    split; [|apply colours_only_refl].
    intros c Hc. by apply elem_of_nil in Hc.
  - change (color_all (c :: codes) p)
      with (color_all codes (getCourseColor c p).2).
    cbn [length].
    destruct (IH (getCourseColor c p).2) as (I1 & I2 & I3 & I4).
    destruct (getCourseColor_subseteq c p) as (G1 & G2 & G3).
    split; [by etrans|]. split; [lia|]. split.
    + intros k [->|Hk]%elem_of_cons; [|by apply I3].
      destruct G3 as [col G3]. exists col.
      by eapply lookup_weaken.
    + eapply colours_only_trans; [apply getCourseColor_colours_only|done].
Qed.

(** ** Escaped text, further *)

Lemma escape_unit_length u :
  (1 ≤ length (escape_unit u))%nat ∧
  (length (escape_unit u) = 1%nat → is_special u = false) ∧
  (is_special u = false → escape_unit u = [u]).
Proof.
  unfold escape_unit, is_special.
  destruct (u =? 38)%N;
    [repeat split; [vm_compute; lia|vm_compute; lia|discriminate]|].
  destruct (u =? 160)%N;
    [repeat split; [vm_compute; lia|vm_compute; lia|discriminate]|].
  destruct (u =? 60)%N;
    [repeat split; [vm_compute; lia|vm_compute; lia|discriminate]|].
  destruct (u =? 62)%N;
    [repeat split; [vm_compute; lia|vm_compute; lia|discriminate]|].
  cbn [length orb]. by repeat split.
Qed.

Lemma escapeHtml_length s :
  (length s ≤ length (escapeHtml (Str s)))%nat ∧
  (length (escapeHtml (Str s)) = length s →
   Forall (λ u, is_special u = false) s).
Proof.
  rewrite escapeHtml_Str. induction s as [|u s [IH1 IH2]]; [by split|].
  cbn [flat_map]. rewrite length_app. cbn [length].
  destruct (escape_unit_length u) as (L1 & L2 & _).
  split; [lia|]. intros H. constructor; [apply L2; lia|apply IH2; lia].
Qed.

(** X6. Distinct strings have distinct escaped forms, the escaped form
    of a concatenation is the concatenation of the escaped forms, and
    the result is empty exactly for a falsy argument ([undefined],
    [null] or the empty string). *)
Theorem escapeHtml_injective :
  (∀ s t, escapeHtml (Str s) = escapeHtml (Str t) → s = t) ∧
  (∀ s t, escapeHtml (Str (s ++ t))
          = escapeHtml (Str s) ++ escapeHtml (Str t)) ∧
  (∀ text, escapeHtml text = [] ↔ truthy text = false).
Proof.
  split; [|split].
  - intros s t H. apply (f_equal unescape) in H.
    by rewrite !unescape_escapeHtml in H.
  - intros s t. rewrite !escapeHtml_Str, !flat_map_concat_map, map_app.
    apply concat_app.
  - intros text. split; [|apply escapeHtml_falsy].
    destruct text as [| |[|u s]]; try done.
    rewrite escapeHtml_Str. cbn [flat_map]. intros H.
    destruct (escape_unit_length u) as (L & _).
    apply (f_equal length) in H. rewrite length_app in H.
    cbn [length] in H. lia.
Qed.

Lemma escapeHtml_plain s :
  Forall (λ u, is_special u = false) s → escapeHtml (Str s) = s.
Proof.
  rewrite escapeHtml_Str. induction 1 as [|u r Hu _ IH]; [done|].
  cbn [flat_map]. destruct (escape_unit_length u) as (_ & _ & E).
  rewrite (E Hu), IH. reflexivity.
Qed.

(** X7. Escaping leaves a string as it is exactly when the string has
    none of the four characters [&], no-break space, [<] and [>];
    otherwise the result is longer. *)
Theorem escapeHtml_fixed_points (s : jstring) :
  (escapeHtml (Str s) = s ↔ Forall (λ u, is_special u = false) s) ∧
  (length s ≤ length (escapeHtml (Str s)))%nat ∧
  (escapeHtml (Str s) ≠ s → (length s < length (escapeHtml (Str s)))%nat).
Proof.
  destruct (escapeHtml_length s) as [L1 L2].
  pose proof (escapeHtml_plain s) as F.
  split; [split; [|exact F]|split; [exact L1|]].
  - intros H. apply L2. by rewrite H.
  - intros H.
    destruct (decide (length (escapeHtml (Str s)) = length s)) as [E|E].
    + destruct H. by apply F, L2.
    + lia.
Qed.

(** ** File names *)

Lemma is_space_underscore : is_space 95 = false.
Proof. reflexivity. Qed.

Lemma replace_spaces_no_space s :
  Forall (λ u, is_space u = false) (replace_spaces s) ∧
  (length (replace_spaces s) ≤ length s)%nat.
Proof.
  induction s as [|u r [IH1 IH2]]; [by split|].
  cbn [replace_spaces length]. destruct (is_space u) eqn:Hu.
  - destruct r as [|v r'].
    + split; [|done]. by repeat constructor.
    + destruct (is_space v); [split; [done|lia]|].
      split; [by constructor|cbn [length] in *; lia].
  - split; [by constructor|cbn [length]; lia].
Qed.

Lemma replace_spaces_plain s :
  Forall (λ u, is_space u = false) s → replace_spaces s = s.
Proof.
  induction 1 as [|u r Hu _ IH]; [done|].
  cbn [replace_spaces]. by rewrite Hu, IH.
Qed.

Lemma replace_spaces_after_plain pre s :
  Forall (λ u, is_space u = false) pre →
  replace_spaces (pre ++ s) = pre ++ replace_spaces s.
Proof.
  induction 1 as [|u r Hu _ IH]; [done|].
  cbn [app replace_spaces]. by rewrite Hu, IH.
Qed.

(** X8. The name under which an export is saved has no white space left
    in it, whatever the section name: [replace(/\s+/g, '_')] returns a
    string without white space that is not longer than its argument,
    returns a string without white space as it is, and so changes
    nothing when applied again. *)
Theorem replace_spaces_removes_all_space (s : jstring) :
  Forall (λ u, is_space u = false) (replace_spaces s) ∧
  (length (replace_spaces s) ≤ length s)%nat ∧
  (replace_spaces s = s ↔ Forall (λ u, is_space u = false) s) ∧
  replace_spaces (replace_spaces s) = replace_spaces s.
Proof.
  destruct (replace_spaces_no_space s) as [H1 H2].
  split; [exact H1|]. split; [exact H2|]. split.
  - split; [by intros <-|apply replace_spaces_plain].
  - by apply replace_spaces_plain.
Qed.

(** ** Exports, further *)

Lemma no_space_Section_ : Forall (λ u, is_space u = false) (lit "Section_").
Proof. apply (bool_decide_unpack _). by vm_compute. Qed.

(** X9. An export that follows a render is saved under the name of the
    rendered section: [Section_], the section identifier with each run
    of white space replaced by one underscore, and the extension. The
    name has no white space. *)
Theorem export_named_after_section (ex : exporter) (data : Timetable)
    (p : page) (href doc : jstring) :
  image_result ex = Returned href →
  pdf_result ex = Returned doc →
  let name :=
    lit "Section_" ++ replace_spaces (ident_to_string (section data)) in
  downloads (downloadAsImage ex (renderTimetable data p)).2
  = downloads p ++ [(name ++ lit ".png", href)] ∧
  downloads (downloadAsPdf ex (renderTimetable data p)).2
  = downloads p ++ [(name ++ lit ".pdf", doc)] ∧
  Forall (λ u, is_space u = false) name.
Proof.
  intros Himg Hpdf name.
  destruct (renderTimetable_shape data p) as (m & i & html & ->).
  unfold downloadAsImage, downloadAsPdf, image_result, pdf_result, capture,
    try_catch_finally, try_finally, try_catch, bind, modify, await in *.
  destruct (html2canvas ex) as [canvas|e]; [|done].
  destruct (pad_16_9 ex canvas) as [finalCanvas|e]; [|done].
  destruct (toDataURL ex finalCanvas) as [imgData|e]; [|done].
  destruct (jsPDF ex finalCanvas imgData) as [pdf|e]; [|done].
  injection Himg as ->. injection Hpdf as ->.
  cbn [snd downloads save_as set_downloadImageBtn set_downloadPdfBtn
       log_capture currentSectionName].
  rewrite (replace_spaces_after_plain _ _ no_space_Section_).
  split; [done|]. split; [done|].
  apply Forall_app. split; [apply no_space_Section_|].
  apply replace_spaces_no_space.
Qed.

Lemma export_named_after_section_witness :
  downloads (downloadAsImage ideal_exporter
               (renderTimetable sample_timetable blank_page)).2
  = [(lit "Section_2A.png", lit "data:image/png;base64,AAAA")].
Proof.
  destruct (export_named_after_section ideal_exporter sample_timetable
              blank_page (lit "data:image/png;base64,AAAA") (lit "%PDF-1.3"))
    as (H & _); [by vm_compute..|].
  exact H.
Defined.

Lemma downloadAsImage_keeps ex p :
  same_display p (downloadAsImage ex p).2 ∧
  downloadPdfBtn (downloadAsImage ex p).2 = downloadPdfBtn p.
Proof.
  unfold same_display, downloadAsImage, capture,
    try_catch_finally, try_finally, try_catch, bind, modify, await.
  destruct (html2canvas ex) as [canvas|e]; [|done].
  destruct (pad_16_9 ex canvas) as [finalCanvas|e]; [|done].
  by destruct (toDataURL ex finalCanvas) as [href|e].
Qed.

Lemma downloadAsPdf_keeps ex p :
  same_display p (downloadAsPdf ex p).2 ∧
  downloadImageBtn (downloadAsPdf ex p).2 = downloadImageBtn p.
Proof.
  unfold same_display, downloadAsPdf, capture,
    try_catch_finally, try_finally, try_catch, bind, modify, await.
  destruct (html2canvas ex) as [canvas|e]; [|done].
  destruct (pad_16_9 ex canvas) as [finalCanvas|e]; [|done].
  destruct (toDataURL ex finalCanvas) as [imgData|e]; [|done].
  by destruct (jsPDF ex finalCanvas imgData) as [doc|e].
Qed.

(** X10. An export changes nothing of what the page shows and makes no
    request; the image export leaves the PDF button alone, and the PDF
    export the image button. *)
Theorem export_keeps_display (ex : exporter) (p : page) :
  same_display p (downloadAsImage ex p).2 ∧
  downloadPdfBtn (downloadAsImage ex p).2 = downloadPdfBtn p ∧
  same_display p (downloadAsPdf ex p).2 ∧
  downloadImageBtn (downloadAsPdf ex p).2 = downloadImageBtn p.
Proof.
  destruct (downloadAsImage_keeps ex p) as [H1 H2].
  destruct (downloadAsPdf_keeps ex p) as [H3 H4].
  split; [exact H1|]. split; [exact H2|]. split; [exact H3|exact H4].
Qed.

(** ** Padding, further *)

Section PaddingAgain.

Local Open Scope Q_scope.

(** A canvas whose ratio is within the tolerance, [slack] apart, passes
    the test of the source. *)
Lemma close_case (w h : Z) :
  (0 < w < 2 ^ 32)%Z -> (0 < h < 2 ^ 32)%Z ->
  (16 # 9) - (1 # 100) + slack < inject_Z w / inject_Z h ->
  inject_Z w / inject_Z h < (16 # 9) + (1 # 100) - slack ->
  gt (Qabs (rnd (rnd (inject_Z w / inject_Z h) - ratio_16_9))) tolerance
  = false.
Proof.
  intros Hw Hh H1 H2.
  destruct (gt (Qabs _) tolerance) eqn:Hpad; [|reflexivity].
  destruct (gt (rnd (inject_Z w / inject_Z h)) ratio_16_9) eqn:Hgt.
  - destruct (wide_case w h Hw Hh Hgt Hpad) as (_ & _ & H3). lra.
  - destruct (tall_case w h Hw Hh Hgt Hpad) as (_ & _ & H3). lra.
Qed.

(** A canvas at least 100 pixels high whose sides are 16:9 partners,
    rounded, is within the tolerance. *)
Lemma partners_close (W H : Z) :
  (100 <= H)%Z -> (-8 <= 9 * W - 16 * H <= 8)%Z ->
  (16 # 9) - (1 # 100) + slack < inject_Z W / inject_Z H /\
  inject_Z W / inject_Z H < (16 # 9) + (1 # 100) - slack.
Proof.
  intros HH HW.
  assert (H100 : 100 <= inject_Z H).
  { change 100 with (inject_Z 100). rewrite <- Zle_Qle. lia. }
  assert (B : inject_Z (-8) <= inject_Z (9 * W - 16 * H) /\
              inject_Z (9 * W - 16 * H) <= inject_Z 8).
  { rewrite <- !Zle_Qle. lia. }
  unfold Z.sub in B.
  rewrite inject_Z_plus, inject_Z_opp, !inject_Z_mult in B.
  change (inject_Z 16) with 16 in B. change (inject_Z 9) with 9 in B.
  change (inject_Z 8) with 8 in B. change (inject_Z (-8)) with (-8) in B.
  destruct B as [B1 B2]. unfold slack. split.
  - apply Qlt_shift_div_l; [lra|]. lra.
  - apply Qlt_shift_div_r; [lra|]. lra.
Qed.

End PaddingAgain.

(** What the padding does to a canvas of positive size when the 2D
    context is available. *)
Lemma pad_16_9_cases (ex : exporter) (canvas : Canvas) :
  (0 < width canvas < 2 ^ 32)%Z →
  (0 < height canvas < 2 ^ 32)%Z →
  context2d ex = Returned tt →
  let w := width canvas in
  let h := height canvas in
  (pad_16_9 ex canvas = Returned canvas ∧
   ((16 # 9) - (1 # 100) - slack <= inject_Z w / inject_Z h)%Q ∧
   (inject_Z w / inject_Z h <= (16 # 9) + (1 # 100) + slack)%Q) ∨
  ∃ W H : Z,
    pad_16_9 ex canvas
    = Returned (Padded W H ((W - w + 1) / 2) ((H - h + 1) / 2) canvas) ∧
    (w ≤ W)%Z ∧ (h ≤ H)%Z ∧ (W = w ∨ H = h) ∧ (-8 ≤ 9 * W - 16 * H ≤ 8)%Z.
Proof.
  intros Hw Hh Hctx w h. unfold pad_16_9. fold w h.
  rewrite fdiv_16_9, rnd_tolerance, Hctx. cbv zeta.
  destruct (gt (Qabs (fsub (fdiv (inject_Z w) (inject_Z h)) ratio_16_9))
              tolerance) eqn:Hpad.
  - right. unfold fsub, fdiv in Hpad.
    destruct (gt (fdiv (inject_Z w) (inject_Z h)) ratio_16_9) eqn:Hgt.
    + unfold fdiv in Hgt.
      destruct (wide_case w h Hw Hh Hgt Hpad) as (H1 & H2 & H3).
      fold (fdiv (inject_Z w) ratio_16_9) in H1, H2.
      set (H := Math_round (fdiv (inject_Z w) ratio_16_9)) in *.
      rewrite (offset_exact w w) by lia.
      rewrite (offset_exact H h) by lia.
      exists w, H. split; [reflexivity|]. repeat split; lia.
    + unfold fdiv in Hgt.
      destruct (tall_case w h Hw Hh Hgt Hpad) as (H1 & H2 & H3).
      fold (fmul (inject_Z h) ratio_16_9) in H1, H2.
      set (W := Math_round (fmul (inject_Z h) ratio_16_9)) in *.
      rewrite (offset_exact W w) by lia.
      rewrite (offset_exact h h) by lia.
      exists W, h. split; [reflexivity|]. repeat split; lia.
  - left. unfold fsub, fdiv in Hpad.
    destruct (within_tolerance w h Hw Hh Hpad) as [H1 H2]. by repeat split.
Qed.

(** X11. The canvas that is exported passes the ratio test of the
    export: for a captured canvas at least 100 pixels high (sizes below
    [2^31]), padding the result again returns it as it is, and its
    ratio is within 0.01 of 16:9, [slack] apart. *)
Theorem padded_canvas_passes_the_test (ex : exporter) (canvas : Canvas) :
  (0 < width canvas < 2 ^ 31)%Z →
  (100 ≤ height canvas < 2 ^ 31)%Z →
  context2d ex = Returned tt →
  ∃ final : Canvas,
    pad_16_9 ex canvas = Returned final ∧
    pad_16_9 ex final = Returned final ∧
    ((16 # 9) - (1 # 100) - slack
     <= inject_Z (width final) / inject_Z (height final))%Q ∧
    (inject_Z (width final) / inject_Z (height final)
     <= (16 # 9) + (1 # 100) + slack)%Q.
Proof.
  intros Hw Hh Hctx.
  destruct (pad_16_9_cases ex canvas)
    as [(E & R1 & R2)|(W & H & E & H1 & H2 & H3 & H4)]; [lia|lia|done| |].
  - exists canvas. by repeat split.
  - eexists. split; [exact E|].
    destruct (partners_close W H) as [C1 C2]; [lia|lia|].
    assert (Hslack : (0 < slack)%Q) by reflexivity.
    split; [|cbn [width height]; split; lra].
    unfold pad_16_9. cbn [width height].
    rewrite fdiv_16_9, rnd_tolerance. unfold fsub, fdiv.
    rewrite close_case; [reflexivity| | |exact C1|exact C2]; lia.
Qed.

Lemma padded_canvas_passes_the_test_witness :
  pad_16_9 ideal_exporter (Padded 2800 1575 0 188 sample_canvas)
  = Returned (Padded 2800 1575 0 188 sample_canvas).
Proof.
  destruct (padded_canvas_passes_the_test ideal_exporter sample_canvas)
    as (final & E1 & E2 & _); [by vm_compute..|reflexivity|].
  vm_compute in E1. injection E1 as <-. exact E2.
Defined.

(** X12. Padding never crops: the captured canvas is drawn entirely
    inside the new one, flush with it in one direction and, in the
    other, with margins that differ by at most one pixel (the extra
    pixel before the content). *)
Theorem padding_keeps_content_inside (ex : exporter) (w h : Z)
    (content : Canvas) (W H x y : Z) :
  (0 < w < 2 ^ 32)%Z →
  (0 < h < 2 ^ 32)%Z →
  pad_16_9 ex (Captured w h) = Returned (Padded W H x y content) →
  content = Captured w h ∧
  (0 ≤ x)%Z ∧ (x + w ≤ W)%Z ∧ (0 ≤ y)%Z ∧ (y + h ≤ H)%Z ∧
  (x = 0 ∧ W = w ∨ y = 0 ∧ H = h)%Z ∧
  (0 ≤ x - (W - w - x) ≤ 1)%Z ∧ (0 ≤ y - (H - h - y) ≤ 1)%Z.
Proof.
  intros Hw Hh E.
  assert (Hctx : context2d ex = Returned tt).
  { unfold pad_16_9 in E. destruct (gt _ _) in E; [|congruence].
    by destruct (context2d ex) as [[]|]. }
  destruct (pad_16_9_cases ex (Captured w h) Hw Hh Hctx)
    as [(E' & _)|(W' & H' & E' & H1 & H2 & H3 & H4)].
  - congruence.
  - rewrite E in E'. cbn [width height] in *.
    injection E' as -> -> -> -> ->.
    split; [done|]. destruct H3 as [->| ->].
    + replace (w - w + 1)%Z with 1%Z by lia. change (1 / 2)%Z with 0%Z.
      repeat split; Z.div_mod_to_equations; lia.
    + replace (h - h + 1)%Z with 1%Z by lia. change (1 / 2)%Z with 0%Z.
      repeat split; Z.div_mod_to_equations; lia.
Qed.

Lemma padding_keeps_content_inside_witness :
  (0 + 2800 ≤ 2800)%Z ∧ (188 + 1200 ≤ 1575)%Z.
Proof.
  destruct (padding_keeps_content_inside ideal_exporter 2800 1200
              sample_canvas 2800 1575 0 188)
    as (_ & _ & Hx & _ & Hy & _); [by vm_compute..|].
  split; [exact Hx|exact Hy].
Defined.

(** ** Loading, further *)

(** The page that a load leaves, by the answer of the backend. *)
Lemma loadTimetable_run net section p :
  loadTimetable net section p
  = (Returned tt,
     let url := lit "/api/timetable/" ++ section in
     let q := log_request url (showLoading p) in
     let failed e :=
       hideLoading
         (alert (lit "Failed to load timetable: " ++ e)
            (console_error (lit "Failed to load timetable:") e q)) in
     match fetch_get net url with
     | Thrown e => failed e
     | Returned r =>
         match json r with
         | Thrown e => failed e
         | Returned data =>
             if truthy (error data) then failed (ToString (error data))
             else hideLoading (renderTimetable data q)
         end
     end).
Proof.
  unfold loadTimetable, fetch, try_catch_finally, try_finally, try_catch,
    bind, modify, await, throw.
  cbv zeta.
  destruct (fetch_get net _) as [r|e]; [|done].
  destruct (json r) as [data|e]; [|done].
  by destruct (truthy (error data)).
Qed.

Lemma uploadAndParse_run net file p :
  uploadAndParse net file p
  = (Returned tt,
     let q := log_request (lit "/api/upload") (showLoading p) in
     let failed e :=
       hideLoading
         (alert (lit "Failed to parse uploaded file: " ++ e)
            (console_error (lit "Failed to parse uploaded file:") e q)) in
     match fetch_post net (lit "/api/upload") file with
     | Thrown e => failed e
     | Returned r =>
         match json r with
         | Thrown e => failed e
         | Returned data =>
             if truthy (error data) then failed (ToString (error data))
             else
               hideLoading
                 (renderTimetable data (set_sectionSelect_value [] q))
         end
     end).
Proof.
  unfold uploadAndParse, fetch_upload, try_catch_finally, try_finally,
    try_catch, bind, modify, await, throw.
  cbv zeta.
  destruct (fetch_post net _ file) as [r|e]; [|done].
  destruct (json r) as [data|e]; [|done].
  by destruct (truthy (error data)).
Qed.

(** X13. When the backend answers with a document that carries an
    [error], nothing is rendered: the message is logged and shown in an
    alert, the table, its title and the colours stay as they were, the
    container of the table is hidden and the loading indicator cleared.
    After a refused upload the selection is not cleared either. *)
Theorem error_document_is_reported (net : network) (section : jstring)
    (file : File) (p : page) (data1 data2 : Timetable) :
  answers (fetch_get net (lit "/api/timetable/" ++ section)) data1 →
  truthy (error data1) = true →
  answers (fetch_post net (lit "/api/upload") file) data2 →
  truthy (error data2) = true →
  let load := loadTimetable net section p in
  let upload := uploadAndParse net file p in
  (load.1 = Returned tt ∧
   console_errors load.2
   = console_errors p
       ++ [(lit "Failed to load timetable:", ToString (error data1))] ∧
   alerts load.2
   = alerts p ++ [lit "Failed to load timetable: " ++ ToString (error data1)] ∧
   timetable_innerHTML load.2 = timetable_innerHTML p ∧
   sectionTitle load.2 = sectionTitle p ∧
   currentSectionName load.2 = currentSectionName p ∧
   courseColors load.2 = courseColors p ∧
   timetableContainer_hidden load.2 = true ∧
   loading_hidden load.2 = true) ∧
  (upload.1 = Returned tt ∧
   console_errors upload.2
   = console_errors p
       ++ [(lit "Failed to parse uploaded file:", ToString (error data2))] ∧
   alerts upload.2
   = alerts p
       ++ [lit "Failed to parse uploaded file: " ++ ToString (error data2)] ∧
   timetable_innerHTML upload.2 = timetable_innerHTML p ∧
   sectionTitle upload.2 = sectionTitle p ∧
   currentSectionName upload.2 = currentSectionName p ∧
   courseColors upload.2 = courseColors p ∧
   sectionSelect_value upload.2 = sectionSelect_value p ∧
   timetableContainer_hidden upload.2 = true ∧
   loading_hidden upload.2 = true).
Proof.
  intros (r1 & E1 & J1) T1 (r2 & E2 & J2) T2. cbv zeta.
  rewrite loadTimetable_run, uploadAndParse_run. cbv zeta.
  rewrite E1, J1, T1, E2, J2, T2. by repeat split.
Qed.

Lemma error_document_is_reported_witness :
  alerts (loadTimetable refusing_network (lit "9Z") blank_page).2
  = [lit "Failed to load timetable: Section not found"].
Proof.
  destruct (error_document_is_reported refusing_network (lit "9Z")
              (mkFile (lit "application/pdf")) blank_page
              refused_timetable refused_timetable)
    as ((_ & _ & H & _) & _).
  - eexists. split; reflexivity.
  - reflexivity.
  - eexists. split; reflexivity.
  - reflexivity.
  - exact H.
Defined.

(** X14. When the backend answers with a timetable, it is rendered: the
    table is the grid of that timetable, its container is shown, the
    loading indicator is cleared, nothing is logged or alerted, and one
    request has been made. An upload also clears the selection; a load
    by section leaves it. *)
Theorem loaded_timetable_is_shown (net : network) (section : jstring)
    (file : File) (p : page) (data1 data2 : Timetable) :
  answers (fetch_get net (lit "/api/timetable/" ++ section)) data1 →
  truthy (error data1) = false →
  answers (fetch_post net (lit "/api/upload") file) data2 →
  truthy (error data2) = false →
  let load := loadTimetable net section p in
  let upload := uploadAndParse net file p in
  (load.1 = Returned tt ∧
   timetable_innerHTML load.2
   = grid_layout (time_slots data1)
       (header_cell (hasBreakClasses data1) (slot_times data1))
       (spec_cell data1) ∧
   sectionTitle load.2
   = lit "SECTION " ++ ident_to_string (Prettier.section data1) ∧
   timetableContainer_hidden load.2 = false ∧
   loading_hidden load.2 = true ∧
   sectionSelect_value load.2 = sectionSelect_value p ∧
   alerts load.2 = alerts p ∧
   console_errors load.2 = console_errors p ∧
   requests load.2 = requests p ++ [lit "/api/timetable/" ++ section]) ∧
  (upload.1 = Returned tt ∧
   timetable_innerHTML upload.2
   = grid_layout (time_slots data2)
       (header_cell (hasBreakClasses data2) (slot_times data2))
       (spec_cell data2) ∧
   sectionTitle upload.2
   = lit "SECTION " ++ ident_to_string (Prettier.section data2) ∧
   timetableContainer_hidden upload.2 = false ∧
   loading_hidden upload.2 = true ∧
   sectionSelect_value upload.2 = [] ∧
   alerts upload.2 = alerts p ∧
   console_errors upload.2 = console_errors p ∧
   requests upload.2 = requests p ++ [lit "/api/upload"]).
Proof.
  intros (r1 & E1 & J1) T1 (r2 & E2 & J2) T2. cbv zeta.
  rewrite loadTimetable_run, uploadAndParse_run. cbv zeta.
  rewrite E1, J1, T1, E2, J2, T2. cbn [fst snd].
  split.
  - split; [done|]. unfold hideLoading.
    cbn [timetable_innerHTML sectionTitle timetableContainer_hidden
         loading_hidden sectionSelect_value alerts console_errors requests
         set_loading_hidden].
    rewrite (proj1 (renderTimetable_spec data1 _)).
    destruct (renderTimetable_shape data1
                (log_request (lit "/api/timetable/" ++ section)
                   (showLoading p))) as (m & i & html & ->).
    by repeat split.
  - split; [done|]. unfold hideLoading.
    cbn [timetable_innerHTML sectionTitle timetableContainer_hidden
         loading_hidden sectionSelect_value alerts console_errors requests
         set_loading_hidden].
    rewrite (proj1 (renderTimetable_spec data2 _)).
    destruct (renderTimetable_shape data2
                (set_sectionSelect_value []
                   (log_request (lit "/api/upload") (showLoading p))))
      as (m & i & html & ->).
    by repeat split.
Qed.

Lemma loaded_timetable_is_shown_witness :
  sectionTitle (loadTimetable sample_network (lit "2A") blank_page).2
  = lit "SECTION 2A".
Proof.
  destruct (loaded_timetable_is_shown sample_network (lit "2A")
              (mkFile (lit "application/pdf")) blank_page
              sample_timetable sample_timetable)
    as ((_ & _ & H & _) & _).
  - eexists. split; reflexivity.
  - reflexivity.
  - eexists. split; reflexivity.
  - reflexivity.
  - exact H.
Defined.

(** X15. Whatever the backend does, a load and an upload return
    normally, make exactly one request, end with the loading indicator
    cleared, and touch neither the export buttons nor the downloads.
    They end in one of two ways: the table is shown and no alert is
    raised; or the table is hidden, its markup is the one from before,
    and one alert is raised. So a failed load also hides a timetable
    that was on display. *)
Theorem load_shows_or_alerts (net : network) (section : jstring)
    (file : File) (p : page) :
  let load := loadTimetable net section p in
  let upload := uploadAndParse net file p in
  (load.1 = Returned tt ∧
   loading_hidden load.2 = true ∧
   requests load.2 = requests p ++ [lit "/api/timetable/" ++ section] ∧
   downloadImageBtn load.2 = downloadImageBtn p ∧
   downloadPdfBtn load.2 = downloadPdfBtn p ∧
   downloads load.2 = downloads p ∧
   ((timetableContainer_hidden load.2 = false ∧ alerts load.2 = alerts p) ∨
    (timetableContainer_hidden load.2 = true ∧
     timetable_innerHTML load.2 = timetable_innerHTML p ∧
     ∃ e, alerts load.2 = alerts p ++ [lit "Failed to load timetable: " ++ e])))
  ∧
  (upload.1 = Returned tt ∧
   loading_hidden upload.2 = true ∧
   requests upload.2 = requests p ++ [lit "/api/upload"] ∧
   downloadImageBtn upload.2 = downloadImageBtn p ∧
   downloadPdfBtn upload.2 = downloadPdfBtn p ∧
   downloads upload.2 = downloads p ∧
   ((timetableContainer_hidden upload.2 = false ∧ alerts upload.2 = alerts p) ∨
    (timetableContainer_hidden upload.2 = true ∧
     timetable_innerHTML upload.2 = timetable_innerHTML p ∧
     ∃ e, alerts upload.2
          = alerts p ++ [lit "Failed to parse uploaded file: " ++ e]))).
Proof.
  cbv zeta. rewrite loadTimetable_run, uploadAndParse_run. cbv zeta.
  cbn [fst snd]. split.
  - split; [done|].
    destruct (fetch_get net _) as [r|e];
      [|repeat split; try done; right; repeat split; by eexists].
    destruct (json r) as [data|e];
      [|repeat split; try done; right; repeat split; by eexists].
    destruct (truthy (error data));
      [repeat split; try done; right; repeat split; by eexists|].
    destruct (renderTimetable_shape data
                (log_request (lit "/api/timetable/" ++ section)
                   (showLoading p))) as (m & i & html & ->).
    repeat split; try done. by left.
  - split; [done|].
    destruct (fetch_post net _ file) as [r|e];
      [|repeat split; try done; right; repeat split; by eexists].
    destruct (json r) as [data|e];
      [|repeat split; try done; right; repeat split; by eexists].
    destruct (truthy (error data));
      [repeat split; try done; right; repeat split; by eexists|].
    destruct (renderTimetable_shape data
                (set_sectionSelect_value []
                   (log_request (lit "/api/upload") (showLoading p))))
      as (m & i & html & ->).
    repeat split; try done. by left.
Qed.

(** ** The listeners *)

Import PrettierListeners.

(** X16. Only a dropped file is checked for its type. A file that is
    not declared as [application/pdf] is refused when dropped (one
    alert, no request, the highlight of the drop area removed) and is
    uploaded all the same when chosen in the file dialog. Files after
    the first are ignored either way. *)
Theorem only_dropped_files_are_type_checked (net : network) (file : File)
    (others : list File) (d : document) :
  file_type file ≠ lit "application/pdf" →
  let dropped := uploadArea_drop net (file :: others) d in
  let chosen := fileUpload_change net (file :: others) d in
  (dropped.1 = Returned tt ∧
   view dropped.2 = alert (lit "Please upload a PDF file") (view d) ∧
   requests (view dropped.2) = requests (view d) ∧
   uploadArea_drag_over dropped.2 = false) ∧
  (chosen.1 = Returned tt ∧
   view chosen.2 = (uploadAndParse net file (view d)).2 ∧
   requests (view chosen.2) = requests (view d) ++ [lit "/api/upload"] ∧
   uploadArea_drag_over chosen.2 = uploadArea_drag_over d).
Proof.
  intros Hty. cbv zeta.
  unfold uploadArea_drop, fileUpload_change, in_view, bind, modify.
  rewrite bool_decide_eq_false_2 by done.
  rewrite uploadAndParse_run. cbv zeta. cbn [fst snd view set_view].
  split; [done|]. repeat split.
  destruct (fetch_post net _ file) as [r|e]; [|done].
  destruct (json r) as [data|e]; [|done].
  destruct (truthy (error data)); [done|].
  by destruct (renderTimetable_shape data
                 (set_sectionSelect_value []
                    (log_request (lit "/api/upload") (showLoading (view d)))))
    as (m & i & html & ->).
Qed.

Lemma only_dropped_files_are_type_checked_witness :
  alerts (view (uploadArea_drop no_network [text_file] blank_document).2)
  = [lit "Please upload a PDF file"] ∧
  requests (view (fileUpload_change no_network [text_file] blank_document).2)
  = [lit "/api/upload"].
Proof.
  destruct (only_dropped_files_are_type_checked no_network text_file []
              blank_document)
    as ((_ & H1 & _) & (_ & _ & H2 & _)); [by vm_compute|].
  split; [by rewrite H1|exact H2].
Defined.





Lemma listener_returns ev d : (listener ev d).1 = Returned tt.
Proof.
  destruct ev as [net value| |net files| | |net files|ex|ex];
    unfold listener, sectionSelect_change, uploadArea_click,
      fileUpload_change, uploadArea_dragover, uploadArea_dragleave,
      uploadArea_drop, in_view, bind, modify, ret; cbn [fst snd]; try done.
  - destruct (truthy (Str value)); [|done].
    cbn [fst snd view set_view]. by rewrite loadTimetable_run.
  - destruct files as [|file ?]; [done|]. cbn [fst].
    by rewrite uploadAndParse_run.
  - destruct files as [|file ?]; [done|].
    destruct (bool_decide _); [|done]. cbn [fst].
    by rewrite uploadAndParse_run.
  - unfold downloadAsImage, capture,
      try_catch_finally, try_finally, try_catch, bind, modify, await.
    destruct (html2canvas ex) as [canvas|e]; [|done].
    destruct (pad_16_9 ex canvas) as [finalCanvas|e]; [|done].
    by destruct (toDataURL ex finalCanvas) as [href|e].
  - unfold downloadAsPdf, capture,
      try_catch_finally, try_finally, try_catch, bind, modify, await.
    destruct (html2canvas ex) as [canvas|e]; [|done].
    destruct (pad_16_9 ex canvas) as [finalCanvas|e]; [|done].
    destruct (toDataURL ex finalCanvas) as [imgData|e]; [|done].
    by destruct (jsPDF ex finalCanvas imgData) as [doc|e].
Qed.

(** The state in which the page waits for the user: nothing loading,
    both export buttons enabled. *)
Lemma loaders_ready net section file p :
  let ready q :=
    loading_hidden q = true ∧
    downloadImageBtn q = downloadImageBtn p ∧
    downloadPdfBtn q = downloadPdfBtn p ∧
    (length (requests q) ≤ S (length (requests p)))%nat in
  ready (loadTimetable net section p).2 ∧ ready (uploadAndParse net file p).2.
Proof.
  cbv zeta. rewrite loadTimetable_run, uploadAndParse_run. cbv zeta.
  cbn [snd]. split.
  - destruct (fetch_get net _) as [r|e];
      [|cbn; rewrite length_app; cbn; repeat split; lia].
    destruct (json r) as [data|e];
      [|cbn; rewrite length_app; cbn; repeat split; lia].
    destruct (truthy (error data));
      [cbn; rewrite length_app; cbn; repeat split; lia|].
    destruct (renderTimetable_shape data
                (log_request (lit "/api/timetable/" ++ section)
                   (showLoading p))) as (m & i & html & ->).
    cbn. rewrite length_app. cbn. repeat split; lia.
  - destruct (fetch_post net _ file) as [r|e];
      [|cbn; rewrite length_app; cbn; repeat split; lia].
    destruct (json r) as [data|e];
      [|cbn; rewrite length_app; cbn; repeat split; lia].
    destruct (truthy (error data));
      [cbn; rewrite length_app; cbn; repeat split; lia|].
    destruct (renderTimetable_shape data
                (set_sectionSelect_value []
                   (log_request (lit "/api/upload") (showLoading p))))
      as (m & i & html & ->).
    cbn. rewrite length_app. cbn. repeat split; lia.
Qed.

Lemma listener_ready ev d :
  loading_hidden (view d) = true →
  disabled (downloadImageBtn (view d)) = false →
  disabled (downloadPdfBtn (view d)) = false →
  let d' := (listener ev d).2 in
  loading_hidden (view d') = true ∧
  disabled (downloadImageBtn (view d')) = false ∧
  disabled (downloadPdfBtn (view d')) = false ∧
  sectionSelect_options d' = sectionSelect_options d ∧
  (length (requests (view d')) ≤ S (length (requests (view d))))%nat.
Proof.
  intros Hl Hi Hp. cbv zeta.
  destruct ev as [net value| |net files| | |net files|ex|ex];
    unfold listener, sectionSelect_change, uploadArea_click,
      fileUpload_change, uploadArea_dragover, uploadArea_dragleave,
      uploadArea_drop, in_view, bind, modify, ret;
    cbn [fst snd view set_view sectionSelect_options set_drag_over
         click_fileUpload];
    try (repeat split; (done || lia)).
  - destruct (truthy (Str value)).
    + cbn [fst snd view set_view sectionSelect_options].
      destruct (loaders_ready net value (mkFile [])
                  (set_sectionSelect_value value (view d)))
        as [(R1 & R2 & R3 & R4) _].
      rewrite R1, R2, R3. by repeat split.
    + cbn. repeat split; (done || lia).
  - destruct files as [|file ?];
      cbn [fst snd view set_view sectionSelect_options];
      [repeat split; (done || lia)|].
    destruct (loaders_ready net [] file (view d)) as [_ (R1 & R2 & R3 & R4)].
    rewrite R1, R2, R3. by repeat split.
  - destruct files as [|file ?];
      cbn [fst snd view set_view sectionSelect_options set_drag_over];
      [repeat split; (done || lia)|].
    destruct (bool_decide _);
      cbn [fst snd view set_view sectionSelect_options set_drag_over];
      [|repeat split; (done || cbn; lia)].
    destruct (loaders_ready net [] file (view d)) as [_ (R1 & R2 & R3 & R4)].
    rewrite R1, R2, R3. by repeat split.
  - unfold downloadAsImage, capture,
      try_catch_finally, try_finally, try_catch, bind, modify, await.
    destruct (html2canvas ex) as [canvas|e];
      [|cbn; repeat split; (done || lia)].
    destruct (pad_16_9 ex canvas) as [finalCanvas|e];
      [|cbn; repeat split; (done || lia)].
    destruct (toDataURL ex finalCanvas) as [href|e];
      cbn; repeat split; (done || lia).
  - unfold downloadAsPdf, capture,
      try_catch_finally, try_finally, try_catch, bind, modify, await.
    destruct (html2canvas ex) as [canvas|e];
      [|cbn; repeat split; (done || lia)].
    destruct (pad_16_9 ex canvas) as [finalCanvas|e];
      [|cbn; repeat split; (done || lia)].
    destruct (toDataURL ex finalCanvas) as [imgData|e];
      [|cbn; repeat split; (done || lia)].
    destruct (jsPDF ex finalCanvas imgData) as [doc|e];
      cbn; repeat split; (done || lia).
Qed.

(** X18. The page always comes back to rest. If the loading indicator
    is hidden and both export buttons are enabled, they are so again
    after any sequence of events (each handled to completion before the
    next), whatever the backend and the libraries do; every listener
    returns normally; no listener changes the options of the selector;
    and at most one request is made per event. *)
Theorem listeners_leave_page_ready (events : list event) (d : document) :
  loading_hidden (view d) = true →
  disabled (downloadImageBtn (view d)) = false →
  disabled (downloadPdfBtn (view d)) = false →
  let d' := handle_all events d in
  loading_hidden (view d') = true ∧
  disabled (downloadImageBtn (view d')) = false ∧
  disabled (downloadPdfBtn (view d')) = false ∧
  sectionSelect_options d' = sectionSelect_options d ∧
  (length (requests (view d'))
   ≤ length (requests (view d)) + length events)%nat ∧
  ∀ ev d0, (listener ev d0).1 = Returned tt.
Proof.
  cbv zeta. revert d. induction events as [|ev events IH]; intros d Hl Hi Hp.
  - unfold handle_all. cbn [fold_left length].
    repeat split; try done; [lia|apply listener_returns].
  - change (handle_all (ev :: events) d)
      with (handle_all events (listener ev d).2).
    destruct (listener_ready ev d Hl Hi Hp) as (L1 & L2 & L3 & L4 & L5).
    destruct (IH _ L1 L2 L3) as (I1 & I2 & I3 & I4 & I5 & I6).
    cbn [length]. repeat split; try done; [congruence|lia].
Qed.

Lemma listeners_leave_page_ready_witness :
  loading_hidden
    (view (handle_all
             [DragOverArea; DropFiles no_network [mkFile (lit "application/pdf")];
              SelectSection no_network (lit "2A"); ClickImage ideal_exporter]
             blank_document))
  = true.
Proof.
  destruct (listeners_leave_page_ready
              [DragOverArea; DropFiles no_network [mkFile (lit "application/pdf")];
               SelectSection no_network (lit "2A"); ClickImage ideal_exporter]
              blank_document)
    as (H & _); [reflexivity..|].
  exact H.
Defined.

(** ** The comparison view, further *)

(** X19. Whatever the backend does, [loadSharedLecturers] returns
    normally, makes one request, clears the loading indicator and shows
    the results area. The statistics bar is shown only when the answer
    lists at least one course; for an answer without courses (none, or
    an empty list) the area says that no courses were found, and after
    a failure it carries the failure message: in both cases the bar is
    hidden and the counters keep the numbers of the load before. *)
Theorem shared_lecturers_outcomes (delay_text : nat → jstring)
    (backend : jstring → outcome (response App.SharedLecturers))
    (sectionId : jstring) (p : App.page) :
  let url := lit "/api/shared-lecturers/" ++ sectionId in
  let r := App.loadSharedLecturers delay_text backend sectionId p in
  r.1 = Returned tt ∧
  App.loading_active r.2 = false ∧
  App.results_display r.2 = lit "flex" ∧
  App.requests r.2 = App.requests p ++ [url] ∧
  match backend url with
  | Returned (mkResponse (Returned data)) =>
      App.console_errors r.2 = App.console_errors p ∧
      match App.courses data with
      | Some (c :: cs) =>
          App.statsBar_display r.2 = lit "flex" ∧
          App.results_innerHTML r.2
          = join (imap (App.card delay_text) (c :: cs))
      | _ =>
          App.statsBar_display r.2 = lit "none" ∧
          App.results_innerHTML r.2
          = App.EMPTY_STATE_1 ++ [55357; 56538]%N ++ App.EMPTY_STATE_2
              ++ lit "No courses found for this section"
              ++ App.EMPTY_STATE_3 ∧
          App.totalCourses_text r.2 = App.totalCourses_text p ∧
          App.sharedCount_text r.2 = App.sharedCount_text p
      end
  | Returned (mkResponse (Thrown e)) | Thrown e =>
      App.console_errors r.2
      = App.console_errors p ++ [(lit "Failed to load data:", e)] ∧
      App.statsBar_display r.2 = lit "none" ∧
      App.results_innerHTML r.2
      = App.LOAD_FAILED_1 ++ [10060%N] ++ App.LOAD_FAILED_2 ∧
      App.totalCourses_text r.2 = App.totalCourses_text p ∧
      App.sharedCount_text r.2 = App.sharedCount_text p
  end.
Proof.
  cbv zeta.
  unfold App.loadSharedLecturers, App.fetch, try_catch, bind, modify, await.
  destruct (backend _) as [[[data|e]]|e]; cbn [json fst snd]; try done.
  unfold App.renderResults.
  by destruct (App.courses data) as [[|c cs]|].
Qed.

Lemma loadTimetable_requests net section p :
  requests (loadTimetable net section p).2
  = requests p ++ [lit "/api/timetable/" ++ section].
Proof.
  rewrite loadTimetable_run. cbv zeta. cbn [snd].
  destruct (fetch_get net _) as [r|e]; [|done].
  destruct (json r) as [data|e]; [|done].
  destruct (truthy (error data)); [done|].
  by destruct (renderTimetable_shape data
                 (log_request (lit "/api/timetable/" ++ section)
                    (showLoading p))) as (m & i & html & ->).
Qed.

Lemma loadSharedLecturers_requests delay_text backend sectionId p :
  App.requests (App.loadSharedLecturers delay_text backend sectionId p).2
  = App.requests p ++ [lit "/api/shared-lecturers/" ++ sectionId].
Proof.
  unfold App.loadSharedLecturers, App.fetch, try_catch, bind, modify, await.
  destruct (backend _) as [[[data|e]]|e]; cbn [json fst snd]; try done.
  unfold App.renderResults.
  by destruct (App.courses data) as [[|c cs]|].
Qed.

(** X20. Selecting the placeholder of the selector makes no request in
    either view. The timetable view only records the selection and
    keeps the timetable on display; the comparison view hides the
    statistics bar and shows the invitation to select a section. Any
    other selection makes exactly one request. *)
Theorem placeholder_selection_makes_no_request (delay_text : nat → jstring)
    (net : network)
    (backend : jstring → outcome (response App.SharedLecturers))
    (d : document) (a : AppListeners.document) (u : N) (rest : jstring) :
  let t := listener (SelectSection net []) d in
  let s := AppListeners.sectionSelect_change delay_text backend [] a in
  let t' := listener (SelectSection net (u :: rest)) d in
  let s' := AppListeners.sectionSelect_change delay_text backend (u :: rest) a in
  (t.1 = Returned tt ∧
   t.2 = set_view (set_sectionSelect_value [] (view d)) d) ∧
  (s.1 = Returned tt ∧
   App.requests (AppListeners.results s.2)
   = App.requests (AppListeners.results a) ∧
   App.statsBar_display (AppListeners.results s.2) = lit "none" ∧
   App.results_innerHTML (AppListeners.results s.2)
   = App.EMPTY_STATE_1 ++ [55357; 56538]%N ++ App.EMPTY_STATE_2
       ++ lit "Select a section to see shared lecturers"
       ++ App.EMPTY_STATE_3 ∧
   App.loading_active (AppListeners.results s.2)
   = App.loading_active (AppListeners.results a) ∧
   App.results_display (AppListeners.results s.2)
   = App.results_display (AppListeners.results a)) ∧
  requests (view t'.2)
  = requests (view d) ++ [lit "/api/timetable/" ++ u :: rest] ∧
  App.requests (AppListeners.results s'.2)
  = App.requests (AppListeners.results a)
      ++ [lit "/api/shared-lecturers/" ++ u :: rest].
Proof.
  cbv zeta. split; [done|]. split; [done|].
  unfold listener, sectionSelect_change, AppListeners.sectionSelect_change,
    in_view, AppListeners.in_results, bind, modify.
  cbn [truthy fst snd view set_view AppListeners.results
       AppListeners.set_results].
  split.
  - apply (loadTimetable_requests net (u :: rest)
             (set_sectionSelect_value (u :: rest) (view d))).
  - apply loadSharedLecturers_requests.
Qed.

(** ** The header of the grid *)

Lemma header_cell_time hbc slotTimes slot :
  ∃ pre post,
    header_cell hbc slotTimes slot
    = pre ++ lit ("<span class=" +:+ dq +:+ "time-slot" +:+ dq +:+ ">")
        ++ or_empty (default Absent (slotTimes !! slot))
        ++ lit "</span>" ++ post.
Proof.
  unfold header_cell. destruct (is_break_column hbc slot).
  - set (pre := take (length BREAK_HEADER_1 - 24) BREAK_HEADER_1).
    set (post := drop 7 BREAK_HEADER_2).
    assert (E1 : BREAK_HEADER_1
                 = pre ++ lit ("<span class=" +:+ dq +:+ "time-slot" +:+ dq
                               +:+ ">")) by (vm_compute; reflexivity).
    assert (E2 : BREAK_HEADER_2 = lit "</span>" ++ post)
      by (vm_compute; reflexivity).
    exists pre, post. rewrite E1, E2. by rewrite <- !app_assoc.
  - set (pre := take (length SLOT_HEADER_2 - 24) SLOT_HEADER_2).
    set (post := drop 7 SLOT_HEADER_3).
    assert (E1 : SLOT_HEADER_2
                 = pre ++ lit ("<span class=" +:+ dq +:+ "time-slot" +:+ dq
                               +:+ ">")) by (vm_compute; reflexivity).
    assert (E2 : SLOT_HEADER_3 = lit "</span>" ++ post)
      by (vm_compute; reflexivity).
    exists (SLOT_HEADER_1 ++ number_to_string slot ++ pre), post.
    rewrite E1, E2. by rewrite <- !app_assoc.
Qed.

(** X21. The time of a slot goes into the header of the table as it
    is, without escaping: for a listed slot whose time is a non-empty
    string, the markup of the table contains that string verbatim
    inside the [time-slot] span, markup characters included; and a slot
    without a time has an empty span. *)
Theorem slot_time_not_escaped (data : Timetable) (p : page) (j : nat)
    (slot : Z) :
  time_slots data !! j = Some slot →
  let time :=
    match slot_times data !! slot with
    | Some (Str s) => s
    | _ => []
    end in
  ∃ pre post,
    timetable_innerHTML (renderTimetable data p)
    = pre ++ lit ("<span class=" +:+ dq +:+ "time-slot" +:+ dq +:+ ">")
        ++ time ++ lit "</span>" ++ post.
Proof.
  intros Hj time.
  rewrite (proj1 (renderTimetable_spec data p)). unfold grid_layout.
  set (header := header_cell (hasBreakClasses data) (slot_times data)).
  set (rows := concat (imap _ DAYS)).
  assert (Hm : map header (time_slots data) !! j = Some (header slot)).
  { by rewrite list_lookup_fmap, Hj. }
  rewrite (concat_lookup_middle _ _ _ Hm).
  destruct (header_cell_time (hasBreakClasses data) (slot_times data) slot)
    as (a & b & E).
  fold header in E. rewrite E.
  assert (Ht : or_empty (default Absent (slot_times data !! slot)) = time).
  { subst time. by destruct (slot_times data !! slot) as [[| |[|u s]]|]. }
  rewrite Ht.
  exists (THEAD_OPEN ++ concat (take j (map header (time_slots data))) ++ a),
    (b ++ concat (drop (S j) (map header (time_slots data)))
       ++ THEAD_CLOSE ++ rows ++ lit "</tbody>").
  by rewrite <- !app_assoc.
Qed.

Lemma slot_time_not_escaped_witness :
  ∃ pre post,
    timetable_innerHTML (renderTimetable scripted_timetable blank_page)
    = pre ++ lit ("<span class=" +:+ dq +:+ "time-slot" +:+ dq +:+ ">")
        ++ lit "<img src=x>" ++ lit "</span>" ++ post.
Proof.
  destruct (slot_time_not_escaped scripted_timetable blank_page 0 1 eq_refl)
    as (pre & post & E).
  exists pre, post. rewrite E. do 2 f_equal.
Defined.

(** ** The timetable on the page *)

Lemma shows_render data p : shows data (renderTimetable data p).
Proof.
  destruct (renderTimetable_spec data p) as [H1 H2].
  unfold shows. split; [exact H1|].
  destruct (renderTimetable_shape data p) as (m & i & html & E).
  rewrite E in H2 |- *. split; [done|]. split; [done|exact H2].
Qed.

Lemma shows_kept data p q : same_timetable p q → shows data p → shows data q.
Proof.
  intros (E1 & E2 & E3 & E4 & E5) (S1 & S2 & S3 & S4 & S5).
  unfold shows, table_of. rewrite E1, E2, E3, E4, E5. by repeat split.
Qed.

Lemma same_timetable_trans p q r :
  same_timetable p q → same_timetable q r → same_timetable p r.
Proof.
  intros (E1 & E2 & E3 & E4 & E5) (F1 & F2 & F3 & F4 & F5).
  unfold same_timetable. by rewrite F1, F2, F3, F4, F5.
Qed.

(** The timetable on the page after a load. *)
Lemma loadTimetable_brings net section p :
  match accepted (fetch_get net (lit "/api/timetable/" ++ section)) with
  | Some data => shows data (loadTimetable net section p).2
  | None => same_timetable p (loadTimetable net section p).2
  end.
Proof.
  rewrite loadTimetable_run. cbv zeta. cbn [snd]. unfold accepted.
  destruct (fetch_get net _) as [r|e]; [|done].
  destruct (json r) as [data|e]; [|done].
  destruct (truthy (error data)); [done|].
  eapply shows_kept; [|apply shows_render]. done.
Qed.

Lemma uploadAndParse_brings net file p :
  match accepted (fetch_post net (lit "/api/upload") file) with
  | Some data => shows data (uploadAndParse net file p).2
  | None => same_timetable p (uploadAndParse net file p).2
  end.
Proof.
  rewrite uploadAndParse_run. cbv zeta. cbn [snd]. unfold accepted.
  destruct (fetch_post net _ file) as [r|e]; [|done].
  destruct (json r) as [data|e]; [|done].
  destruct (truthy (error data)); [done|].
  eapply shows_kept; [|apply shows_render]. done.
Qed.

Lemma listener_brings ev d :
  match brings ev with
  | Some data => shows data (view (listener ev d).2)
  | None => same_timetable (view d) (view (listener ev d).2)
  end.
Proof.
  destruct ev as [net value| |net files| | |net files|ex|ex];
    unfold brings, listener, sectionSelect_change, uploadArea_click,
      fileUpload_change, uploadArea_dragover, uploadArea_dragleave,
      uploadArea_drop, in_view, bind, modify, ret;
    cbn [fst snd view set_view set_drag_over click_fileUpload];
    try done.
  - destruct value as [|u rest]; [done|].
    cbn [truthy fst snd view set_view].
    pose proof (loadTimetable_brings net (u :: rest)
                  (set_sectionSelect_value (u :: rest) (view d))) as H.
    destruct (accepted _); [exact H|].
    eapply same_timetable_trans; [|exact H]. done.
  - destruct files as [|file ?]; [done|]. cbn [fst snd view set_view].
    apply uploadAndParse_brings.
  - destruct files as [|file ?]; [done|].
    destruct (bool_decide _); [|done]. cbn [fst snd view set_view].
    apply uploadAndParse_brings.
  - destruct (downloadAsImage_keeps ex (view d)) as [(? & ? & ? & ? & ? & _) _].
    by repeat split.
  - destruct (downloadAsPdf_keeps ex (view d)) as [(? & ? & ? & ? & ? & _) _].
    by repeat split.
Qed.

Lemma handle_all_brings events start d0 d :
  match start with
  | Some data => shows data (view d)
  | None => same_timetable (view d0) (view d)
  end →
  match last_brought events start with
  | Some data => shows data (view (handle_all events d))
  | None => same_timetable (view d0) (view (handle_all events d))
  end.
Proof.
  revert start d. induction events as [|ev events IH]; intros start d H.
  - exact H.
  - change (handle_all (ev :: events) d)
      with (handle_all events (listener ev d).2).
    change (last_brought (ev :: events) start)
      with (last_brought events
              match brings ev with Some data => Some data | None => start end).
    apply IH. pose proof (listener_brings ev d) as L.
    destruct (brings ev) as [data|]; [exact L|].
    destruct start as [data|].
    + by eapply shows_kept.
    + by eapply same_timetable_trans.
Qed.

(** X22. The page shows the last timetable that its events brought.
    After any sequence of events (each handled to completion before the
    next), the table, the title, the name used for exports and the
    colour table are those of a render of the last timetable that a
    load or an upload obtained from the backend; a failed or refused
    load, a drag, a click and an export leave them as they are. When no
    event brought a timetable, they are what they were at the start. *)
Theorem page_shows_last_timetable (events : list event) (d : document) :
  match last_brought events None with
  | Some data => shows data (view (handle_all events d))
  | None => same_timetable (view d) (view (handle_all events d))
  end.
Proof. apply handle_all_brings. by repeat split. Qed.
